(** * Sonhos de Croche storefront: cart, pricing and order rules of [app.py]

    A shallow embedding of the request handlers of [src/app.py] (a Flask
    application) together with the parts of the Python runtime they lean
    on: [str] methods, [int(...)], and the [decimal] module under its
    default context (28 significant digits, ROUND_HALF_EVEN, the
    InvalidOperation and DivisionByZero traps enabled).

    Modelling boundaries, stated once:
    - a string is a sequence of characters with code points below 256,
      classified (space, digit, case) as Python classifies them; text with
      higher code points is outside the model;
    - a [Decimal] keeps its sign inside the integer coefficient, so the sign
      of a zero and the payload of a NaN are not tracked;
    - the exponent limits [Emax]/[Emin] of the context (10^6 away from every
      exponent the handlers produce) are not modelled;
    - timestamps, templates, password hashing, the login gate of the admin
      handlers and the bytes of uploaded files are left out; a flashed
      message is part of a handler's response and is written without its
      accents and emoji;
    - the rows a handler adds are the rows it commits: every handler
      commits once, at its end, or not at all; what the store makes of a
      product's price on write (the [Numeric(10, 2)], [nullable=False]
      column, whose treatment of a NaN and of an amount beyond ten digits
      depends on the database behind [DATABASE_URL]) is a parameter of the
      two product handlers;
    - ids and quantities are unbounded integers: the range of the store's
      integer columns is not modelled, nor is a lookup by an integer beyond
      it;
    - a table is the list of its rows in the order they were added, and a
      query returns rows in that order. *)

From Stdlib Require Import ZArith List String Ascii Bool Lia.
Import ListNotations.
Open Scope string_scope.
Open Scope Z_scope.

(* ================================================================== *)
(** * Exceptions *)
(* ================================================================== *)

(** The Python exceptions the handlers can meet. *)
Inductive exn : Type :=
| ValueError          (* int("abc") *)
| InvalidOperation    (* decimal.InvalidOperation *)
| DivisionByZero      (* decimal.DivisionByZero *)
| DatabaseError.      (* sqlalchemy.exc.DatabaseError: IntegrityError, DataError *)

(** A computation that either returns or raises. *)
Inductive result (A : Type) : Type :=
| Ok (a : A)
| Raise (e : exn).
Arguments Ok {A} a.
Arguments Raise {A} e.

Definition bind {A B : Type} (r : result A) (k : A -> result B) : result B :=
  match r with
  | Ok a => k a
  | Raise e => Raise e
  end.

Notation "x <- r ;; k" := (bind r (fun x => k))
  (at level 61, r at next level, right associativity).
Notation "' pat <- r ;; k" := (bind r (fun x => let 'pat := x in k))
  (at level 61, pat pattern, r at next level, right associativity).

(* ================================================================== *)
(** * The [decimal] module, default context *)
(* ================================================================== *)

(** [Decimal]: a finite number [coef * 10^exp], an infinity, or a NaN
    (quiet or signaling). *)
Inductive Decimal : Type :=
| Dec (coef : Z) (exp : Z)
| DInf (negative : bool)
| DNaN (signaling : bool).

(** [getcontext().prec] *)
Definition prec : Z := 28.

(** The coefficient has at most [prec] digits. *)
Definition in_prec (m : Z) : bool := Z.abs m <? 10 ^ prec.

Fixpoint ndigits_aux (fuel : nat) (m : Z) : Z :=
  match fuel with
  | O => 0
  | S f => if m =? 0 then 0 else 1 + ndigits_aux f (m / 10)
  end.

(** [len(self._int)] for a non-zero coefficient: its number of decimal
    digits. *)
Definition ndigits (m : Z) : Z :=
  ndigits_aux (S (Z.to_nat (Z.log2 (Z.abs m)))) (Z.abs m).

(** ROUND_HALF_EVEN of the quotient [n / d], for [0 < d]: the nearest
    integer, a tie going to the even neighbour. *)
Definition round_half_even (n d : Z) : Z :=
  let q := n / d in
  let r := n mod d in
  if 2 * r <? d then q
  else if d <? 2 * r then q + 1
  else if Z.even q then q else q + 1.

(** [Decimal._rescale(exp, ROUND_HALF_EVEN)]: the coefficient of the number
    [m * 10^e] brought to exponent [eq]. *)
Definition rescale (m e eq : Z) : Z :=
  if eq <=? e then m * 10 ^ (e - eq)
  else round_half_even m (10 ^ (eq - e)).

(** [Decimal._fix(context)]: round a result to the context precision. *)
Definition dec_fix (m e : Z) : Decimal :=
  if in_prec m then Dec m e
  else
    let k := ndigits m - prec in
    let r := round_half_even m (10 ^ k) in
    if in_prec r then Dec r (e + k) else Dec (r / 10) (e + k + 1).

(** [Decimal._check_nans]: a signaling NaN operand raises, a quiet one is
    the result; [self] is looked at first. *)
Definition check_nans (a b : Decimal) : option (result Decimal) :=
  match a, b with
  | DNaN true, _ => Some (Raise InvalidOperation)
  | _, DNaN true => Some (Raise InvalidOperation)
  | DNaN false, _ => Some (Ok (DNaN false))
  | _, DNaN false => Some (Ok (DNaN false))
  | _, _ => None
  end.

(** [Decimal(n)] for a Python int: exact. *)
Definition dec_of_int (n : Z) : Decimal := Dec n 0.

(** [Decimal.__mul__] *)
Definition dec_mul (a b : Decimal) : result Decimal :=
  match check_nans a b with
  | Some r => r
  | None =>
      match a, b with
      | Dec m1 e1, Dec m2 e2 => Ok (dec_fix (m1 * m2) (e1 + e2))
      | DInf s, Dec m _ =>
          if m =? 0 then Raise InvalidOperation
          else Ok (DInf (xorb s (m <? 0)))
      | Dec m _, DInf s =>
          if m =? 0 then Raise InvalidOperation
          else Ok (DInf (xorb (m <? 0) s))
      | DInf s1, DInf s2 => Ok (DInf (xorb s1 s2))
      | _, _ => Ok (DNaN false)
      end
  end.

(** [Decimal.__add__] *)
Definition dec_add (a b : Decimal) : result Decimal :=
  match check_nans a b with
  | Some r => r
  | None =>
      match a, b with
      | Dec m1 e1, Dec m2 e2 =>
          let e := Z.min e1 e2 in
          if (m1 =? 0) && (m2 =? 0) then Ok (dec_fix 0 e)
          else if m1 =? 0 then
            let e' := Z.max e (e2 - prec - 1) in
            Ok (dec_fix (rescale m2 e2 e') e')
          else if m2 =? 0 then
            let e' := Z.max e (e1 - prec - 1) in
            Ok (dec_fix (rescale m1 e1 e') e')
          else Ok (dec_fix (m1 * 10 ^ (e1 - e) + m2 * 10 ^ (e2 - e)) e)
      | DInf s1, DInf s2 =>
          if Bool.eqb s1 s2 then Ok (DInf s1) else Raise InvalidOperation
      | DInf s, _ => Ok (DInf s)
      | _, DInf s => Ok (DInf s)
      | _, _ => Ok (DNaN false)
      end
  end.

(** [Decimal.copy_negate] *)
Definition dec_neg (a : Decimal) : Decimal :=
  match a with
  | Dec m e => Dec (- m) e
  | DInf s => DInf (negb s)
  | DNaN s => DNaN s
  end.

(** [Decimal.__sub__] *)
Definition dec_sub (a b : Decimal) : result Decimal :=
  match check_nans a b with
  | Some r => r
  | None => dec_add a (dec_neg b)
  end.

(** The loop of [__truediv__] on an exact quotient:
    [while exp < ideal_exp and coeff % 10 == 0: coeff //= 10; exp += 1]. *)
Fixpoint strip_zeros (fuel : nat) (ideal coeff exp : Z) : Z * Z :=
  match fuel with
  | O => (coeff, exp)
  | S f =>
      if (exp <? ideal) && (coeff mod 10 =? 0)
      then strip_zeros f ideal (coeff / 10) (exp + 1)
      else (coeff, exp)
  end.

(** [Decimal.__truediv__] *)
Definition dec_div (a b : Decimal) : result Decimal :=
  match check_nans a b with
  | Some r => r
  | None =>
      match a, b with
      | Dec m1 e1, Dec m2 e2 =>
          if m2 =? 0 then
            Raise (if m1 =? 0 then InvalidOperation else DivisionByZero)
          else if m1 =? 0 then Ok (dec_fix 0 (e1 - e2))
          else
            let shift := ndigits m2 - ndigits m1 + prec + 1 in
            let exp := e1 - e2 - shift in
            let '(coeff, remainder) :=
              if 0 <=? shift
              then Z.div_eucl (Z.abs m1 * 10 ^ shift) (Z.abs m2)
              else Z.div_eucl (Z.abs m1) (Z.abs m2 * 10 ^ (- shift)) in
            let '(coeff, exp) :=
              if remainder =? 0
              then strip_zeros (Z.to_nat (e1 - e2 - exp)) (e1 - e2) coeff exp
              else (if coeff mod 5 =? 0 then coeff + 1 else coeff, exp) in
            Ok (dec_fix (Z.sgn m1 * Z.sgn m2 * coeff) exp)
      | DInf _, DInf _ => Raise InvalidOperation
      | DInf s, Dec m _ => Ok (DInf (xorb s (m <? 0)))
      | Dec _ _, DInf _ => Ok (Dec 0 (-1000026))
      | _, _ => Ok (DNaN false)
      end
  end.

(** [Decimal.quantize(q)] with the context rounding: the value at the
    exponent of [q]; InvalidOperation when the result would need more than
    [prec] digits. *)
Definition dec_quantize (a q : Decimal) : result Decimal :=
  match check_nans a q with
  | Some r => r
  | None =>
      match a, q with
      | Dec m e, Dec _ eq =>
          let r := rescale m e eq in
          if in_prec r then Ok (Dec r eq) else Raise InvalidOperation
      | DInf s, DInf _ => Ok (DInf s)
      | _, _ => Raise InvalidOperation
      end
  end.

(** [Decimal("0.01")] *)
Definition cent : Decimal := Dec 1 (-2).

(** Comparison of two decimals by value; [None] when a NaN is involved. *)
Definition dec_compare (a b : Decimal) : option comparison :=
  match a, b with
  | Dec m1 e1, Dec m2 e2 =>
      let e := Z.min e1 e2 in
      Some (m1 * 10 ^ (e1 - e) ?= m2 * 10 ^ (e2 - e))
  | DNaN _, _ | _, DNaN _ => None
  | DInf s1, DInf s2 =>
      Some (if Bool.eqb s1 s2 then Eq else if s1 then Lt else Gt)
  | DInf s, _ => Some (if s then Lt else Gt)
  | _, DInf s => Some (if s then Gt else Lt)
  end.

(** [a <= b] *)
Definition dec_le (a b : Decimal) : Prop :=
  dec_compare a b = Some Lt \/ dec_compare a b = Some Eq.

(** [a == b] *)
Definition dec_eq (a b : Decimal) : Prop := dec_compare a b = Some Eq.

(* ================================================================== *)
(** * Pricing *)
(* ================================================================== *)

(** [price_with_pix_discount(price)], with the configured
    [PIX_DISCOUNT_PERCENT] passed as [pct]. *)
Definition price_with_pix_discount (pct : Z) (price : Decimal)
  : result Decimal :=
  if pct <=? 0 then Ok price
  else
    d <- dec_sub (dec_of_int 100) (dec_of_int pct) ;;
    factor <- dec_div d (dec_of_int 100) ;;
    p <- dec_mul price factor ;;
    dec_quantize p cent.

(** The rounding the specification names, ROUND_HALF_UP of [n / d] for
    [0 < d]: the nearest integer, a tie going away from zero. *)
Definition spec_round_half_up (n d : Z) : Z :=
  Z.sgn n * ((2 * Z.abs n + d) / (2 * d)).

(** The discount as the specification words it, for a price of [m] at
    exponent [e]: unchanged when [pct <= 0], otherwise the product with
    [(100 - pct)/100] rounded half-up to two decimals. *)
Definition spec_price_with_discount (pct : Z) (price : Decimal) : Decimal :=
  if pct <=? 0 then price
  else
    match price with
    | Dec m e =>
        let n := m * (100 - pct) in
        Dec (if 0 <=? e then n * 10 ^ e
             else spec_round_half_up n (10 ^ (- e))) (-2)
    | other => other
    end.

(* ================================================================== *)
(** * Python strings *)
(* ================================================================== *)

Definition ascii_code (c : ascii) : Z := Z.of_N (N_of_ascii c).

(** [c.isspace()], the characters [str.strip] and the Decimal constructor
    drop: TAB, LF, VT, FF, CR, FS, GS, RS, US, space, NEL, NBSP. *)
Definition is_space (c : ascii) : bool :=
  let n := ascii_code c in
  ((9 <=? n) && (n <=? 13)) || ((28 <=? n) && (n <=? 32))
  || (n =? 133) || (n =? 160).

(** The blanks [int(s)] skips around the literal: it does not count FS, GS,
    RS and US. *)
Definition is_int_space (c : ascii) : bool :=
  let n := ascii_code c in
  ((9 <=? n) && (n <=? 13)) || (n =? 32) || (n =? 133) || (n =? 160).

Definition is_digit (c : ascii) : bool :=
  let n := ascii_code c in (48 <=? n) && (n <=? 57).

Definition digit_val (c : ascii) : Z := ascii_code c - 48.

Definition is_empty (s : string) : bool :=
  match s with EmptyString => true | _ => false end.

Fixpoint lstrip_by (sp : ascii -> bool) (s : string) : string :=
  match s with
  | EmptyString => EmptyString
  | String c r => if sp c then lstrip_by sp r else s
  end.

Fixpoint rstrip_by (sp : ascii -> bool) (s : string) : string :=
  match s with
  | EmptyString => EmptyString
  | String c r =>
      let r' := rstrip_by sp r in
      if sp c && is_empty r' then EmptyString else String c r'
  end.

(** [s.strip()] *)
Definition strip (s : string) : string :=
  rstrip_by is_space (lstrip_by is_space s).

Definition lower_char (c : ascii) : ascii :=
  let n := ascii_code c in
  if ((65 <=? n) && (n <=? 90))
     || ((192 <=? n) && (n <=? 222) && negb (n =? 215))
  then ascii_of_N (Z.to_N (n + 32)) else c.

(** [s.lower()] *)
Fixpoint lower (s : string) : string :=
  match s with
  | EmptyString => EmptyString
  | String c r => String (lower_char c) (lower r)
  end.

(** [sep in s] for a one-character [sep]. *)
Fixpoint contains_char (sep : ascii) (s : string) : bool :=
  match s with
  | EmptyString => false
  | String c r => Ascii.eqb c sep || contains_char sep r
  end.

(** [s.rsplit(sep, 1)] for a one-character [sep]: the string cut at its
    last [sep], or the string alone when it has none. *)
Fixpoint rsplit1 (sep : ascii) (s : string) : list string :=
  match s with
  | EmptyString => [EmptyString]
  | String c r =>
      match rsplit1 sep r with
      | [h; t] => [String c h; t]
      | _ => if Ascii.eqb c sep then [EmptyString; r] else [s]
      end
  end.

(** [s.replace(a, b)] for one-character [a] and [b]. *)
Fixpoint replace_char (a b : ascii) (s : string) : string :=
  match s with
  | EmptyString => EmptyString
  | String c r =>
      String (if Ascii.eqb c a then b else c) (replace_char a b r)
  end.

(** [s[len(pat):]] when [s] starts with [pat]. *)
Fixpoint strip_prefix (pat s : string) : option string :=
  match pat, s with
  | EmptyString, _ => Some s
  | String a p, String c r => if Ascii.eqb a c then strip_prefix p r else None
  | String _ _, EmptyString => None
  end.

Fixpoint remove_all_aux (fuel : nat) (pat s : string) : string :=
  match fuel with
  | O => s
  | S f =>
      match strip_prefix pat s with
      | Some rest => remove_all_aux f pat rest
      | None =>
          match s with
          | EmptyString => EmptyString
          | String c r => String c (remove_all_aux f pat r)
          end
      end
  end.

(** [s.replace(pat, "")] for a non-empty [pat]: every occurrence found
    scanning from the left is dropped. *)
Definition remove_all (pat s : string) : string :=
  remove_all_aux (String.length s) pat s.

(** [s.startswith(pat)] *)
Definition startswith (pat s : string) : bool :=
  match strip_prefix pat s with Some _ => true | None => false end.

(** ** [int(s)] *)

(** The digits of an integer literal, with single underscores allowed
    between digits; [prev] tells whether the previous character was a
    digit. *)
Fixpoint int_digits (acc : Z) (prev : bool) (s : string) : option Z :=
  match s with
  | EmptyString => if prev then Some acc else None
  | String c r =>
      if is_digit c then int_digits (10 * acc + digit_val c) true r
      else if Ascii.eqb c "_" then
        if prev then int_digits acc false r else None
      else None
  end.

(** [sys.get_int_max_str_digits()]: the longest run of decimal digits that
    [int] converts (and [str] prints). *)
Definition int_max_str_digits : Z := 4300.

(** How many digit characters a text holds; signs, blanks and underscores
    do not count, leading zeros do. *)
Fixpoint count_digits (s : string) : Z :=
  match s with
  | EmptyString => 0
  | String c r => (if is_digit c then 1 else 0) + count_digits r
  end.

(** [int(s)] for a string: surrounding blanks dropped, an optional sign,
    then the digits; ValueError otherwise, also for a well-formed literal
    of more than [int_max_str_digits] digits. *)
Definition py_int (s : string) : result Z :=
  let t := rstrip_by is_int_space (lstrip_by is_int_space s) in
  let body :=
    match t with
    | String "+" r => int_digits 0 false r
    | String "-" r => option_map Z.opp (int_digits 0 false r)
    | _ => int_digits 0 false t
    end in
  match body with
  | Some n =>
      if int_max_str_digits <? count_digits t then Raise ValueError else Ok n
  | None => Raise ValueError
  end.

Fixpoint nat_digits (fuel : nat) (n : Z) (acc : string) : string :=
  match fuel with
  | O => acc
  | S f =>
      let acc' := String (ascii_of_N (Z.to_N (48 + n mod 10))) acc in
      if n / 10 =? 0 then acc' else nat_digits f (n / 10) acc'
  end.

(** [str(n)] for a Python int of at most [int_max_str_digits] digits (the
    ids, quantities and amounts printed here; beyond that [str] raises). *)
Definition py_str (n : Z) : string :=
  let body := nat_digits (S (Z.to_nat (Z.log2 (Z.abs n)))) (Z.abs n) "" in
  if n <? 0 then String "-" body else body.

(** ** [Decimal(s)] *)

(** Reads a run of digits: the value accumulated onto [acc], how many were
    read, and what follows. *)
Fixpoint take_digits (acc count : Z) (s : string) : Z * Z * string :=
  match s with
  | String c r =>
      if is_digit c then take_digits (10 * acc + digit_val c) (count + 1) r
      else (acc, count, s)
  | EmptyString => (acc, count, s)
  end.

(** The exponent part [E[+-]digits] up to the end of the string, or
    nothing at all. *)
Definition parse_exponent (s : string) : option Z :=
  match s with
  | EmptyString => Some 0
  | String c r =>
      if Ascii.eqb (lower_char c) "e" then
        let '(neg, digits) :=
          match r with
          | String "+" d => (false, d)
          | String "-" d => (true, d)
          | d => (false, d)
          end in
        match take_digits 0 0 digits with
        | (v, n, EmptyString) =>
            if 0 <? n then Some (if neg then - v else v) else None
        | _ => None
        end
      else None
  end.

(** A finite numeric string: digits, an optional fraction, an optional
    exponent, with at least one digit before the exponent. *)
Definition parse_number (s : string) : option (Z * Z) :=
  let '(iv, ic, r1) := take_digits 0 0 s in
  let '(cv, fc, r2) :=
    match r1 with
    | String "." r => take_digits iv 0 r
    | _ => (iv, 0, r1)
    end in
  if (0 <? ic) || (0 <? fc) then
    match parse_exponent r2 with
    | Some e => Some (cv, e - fc)
    | None => None
    end
  else None.

(** [Decimal(s)] for a string: whitespace around and underscores anywhere
    dropped, an optional sign, then a number, [Inf], [Infinity], [NaN] or
    [sNaN] (letters in any case, a NaN with optional digits after it);
    InvalidOperation otherwise. *)
Definition parse_decimal (s : string) : result Decimal :=
  let t := remove_all "_" (strip s) in
  let '(neg, body) :=
    match t with
    | String "+" r => (false, r)
    | String "-" r => (true, r)
    | r => (false, r)
    end in
  match parse_number body with
  | Some (m, e) => Ok (Dec (if neg then - m else m) e)
  | None =>
      let l := lower body in
      if String.eqb l "inf" || String.eqb l "infinity" then Ok (DInf neg)
      else
        match strip_prefix "nan" l, strip_prefix "snan" l with
        | Some d, _ =>
            match take_digits 0 0 d with
            | (_, _, EmptyString) => Ok (DNaN false)
            | _ => Raise InvalidOperation
            end
        | None, Some d =>
            match take_digits 0 0 d with
            | (_, _, EmptyString) => Ok (DNaN true)
            | _ => Raise InvalidOperation
            end
        | None, None => Raise InvalidOperation
        end
  end.

(* ================================================================== *)
(** * Data model *)
(* ================================================================== *)

Record Product : Type := mkProduct {
  product_id : Z;
  product_name : string;
  product_description : string;
  product_price : Decimal;
  product_is_active : bool
}.

Record ProductImage : Type := mkProductImage {
  image_id : Z;
  image_product_id : Z;
  image_url : string
}.

Record Order : Type := mkOrder {
  order_id : Z;
  customer_name : string;
  whatsapp : string;
  city_state : string;
  address : string;
  notes : string;
  payment_method : string;
  amount : Decimal;
  amount_original : Decimal;
  status : string
}.

Record OrderItem : Type := mkOrderItem {
  item_order_id : Z;
  item_product_id : Z;
  product_name_snapshot : string;
  unit_price : Decimal;
  item_qty : Z
}.

(** The committed rows of the relational store. *)
Record Database : Type := mkDatabase {
  products : list Product;
  images : list ProductImage;
  orders : list Order;
  order_items : list OrderItem
}.

(** [Product.query.get(pid)] *)
Definition product_get (db : Database) (pid : Z) : option Product :=
  find (fun p => product_id p =? pid) (products db).

(** The next value of an autoincrement primary key. *)
Definition next_id (ids : list Z) : Z := 1 + fold_right Z.max 0 ids.

(** ** The session cart: a Python dict from product id (as a string) to
    quantity, in insertion order. An absent [session["cart"]] reads as the
    empty dict ([session.setdefault("cart", {})]). *)
Definition Cart : Type := list (string * Z).

(** [c.get(key)] *)
Fixpoint dict_get (c : Cart) (key : string) : option Z :=
  match c with
  | [] => None
  | (k, v) :: rest => if String.eqb k key then Some v else dict_get rest key
  end.

(** [c.get(key, d)] *)
Definition dict_get_default (c : Cart) (key : string) (d : Z) : Z :=
  match dict_get c key with
  | Some v => v
  | None => d
  end.

(** [c[key] = v]: an existing key keeps its place, a new one goes last. *)
Fixpoint dict_set (c : Cart) (key : string) (v : Z) : Cart :=
  match c with
  | [] => [(key, v)]
  | (k, w) :: rest =>
      if String.eqb k key then (k, v) :: rest
      else (k, w) :: dict_set rest key v
  end.

(** [c.pop(key, None)] *)
Fixpoint dict_pop (c : Cart) (key : string) : Cart :=
  match c with
  | [] => []
  | (k, w) :: rest =>
      if String.eqb k key then rest else (k, w) :: dict_pop rest key
  end.

(** ** Request forms: the submitted fields in order, a name possibly
    repeated. *)
Definition Form : Type := list (string * string).

(** [request.form.get(key)]: the first value of the field. *)
Fixpoint form_get (f : Form) (key : string) : option string :=
  match f with
  | [] => None
  | (k, v) :: rest => if String.eqb k key then Some v else form_get rest key
  end.

Fixpoint form_items_aux (seen : list string) (f : Form) : Form :=
  match f with
  | [] => []
  | (k, v) :: rest =>
      if existsb (String.eqb k) seen then form_items_aux seen rest
      else (k, v) :: form_items_aux (k :: seen) rest
  end.

(** [request.form.items()]: each field name once, with its first value. *)
Definition form_items (f : Form) : Form := form_items_aux [] f.

(** [request.form.get(key, d)] *)
Definition form_get_default (f : Form) (key d : string) : string :=
  match form_get f key with
  | Some v => v
  | None => d
  end.

(** [x or d] for a string: [d] when [x] is empty. *)
Definition str_or (x d : string) : string :=
  if is_empty x then d else x.

(** [x or d] for an optional string: [d] when [x] is [None] or empty. *)
Definition or_default (x : option string) (d : string) : string :=
  match x with
  | Some v => str_or v d
  | None => d
  end.

(** ** Responses *)

Inductive Endpoint : Type :=
| ep_index
| ep_cart_view
| ep_checkout
| ep_order_success (order : Z)
| ep_admin_products
| ep_admin_products_new
| ep_admin_products_edit (product : Z).

Inductive Category : Type := success | warning | danger.

Inductive Response : Type :=
| Redirect (target : Endpoint) (flashes : list (string * Category))
| NotFound.

(* ================================================================== *)
(** * Cart handlers *)
(* ================================================================== *)

(** One priced line of the cart page. *)
Record Line : Type := mkLine {
  line_product : Product;
  line_qty : Z;
  line_subtotal : Decimal
}.

(** The loop shared by [cart_view], [checkout] and [create_order]:
    [for pid_str, qty in c.items(): ...], from the running [items] and
    [total]. *)
Fixpoint price_lines (db : Database) (c : Cart)
  (items : list Line) (total : Decimal) : result (list Line * Decimal) :=
  match c with
  | [] => Ok (items, total)
  | (pid_str, qty) :: rest =>
      pid <- py_int pid_str ;;
      match product_get db pid with
      | Some product =>
          if product_is_active product then
            raw <- dec_mul (product_price product) (dec_of_int qty) ;;
            subtotal <- dec_quantize raw cent ;;
            total' <- dec_add total subtotal ;;
            price_lines db rest
              (items ++ [mkLine product qty subtotal]) total'
          else price_lines db rest items total
      | None => price_lines db rest items total
      end
  end.

(** [cart_view()]: the lines and the total handed to the template. *)
Definition cart_view (db : Database) (c : Cart)
  : result (list Line * Decimal) :=
  price_lines db c [] (Dec 0 (-2)).

(** [max(1, min(qty, 99))] *)
Definition clamp_qty (q : Z) : Z := Z.max 1 (Z.min q 99).

(** [cart_add(product_id)]: the response and the cart it leaves. *)
Definition cart_add (db : Database) (pid : Z) (form : Form) (c : Cart)
  : result (Response * Cart) :=
  match product_get db pid with
  | None => Ok (NotFound, c)
  | Some product =>
      if negb (product_is_active product) then Ok (NotFound, c)
      else
        qty <- py_int (str_or (form_get_default form "qty" "1") "1") ;;
        let qty := clamp_qty qty in
        let key := py_str pid in
        Ok (Redirect ep_cart_view [("Adicionado ao carrinho", success)],
            dict_set c key (dict_get_default c key 0 + qty))
  end.

(** The body of the loop of [cart_update] for one form field. *)
Definition cart_update_entry (c : Cart) (entry : string * string) : Cart :=
  let '(key, val) := entry in
  if negb (startswith "qty_" key) then c
  else
    let pid := remove_all "qty_" key in
    let q := match py_int val with Ok n => n | Raise _ => 1 end in
    if q <=? 0 then dict_pop c pid
    else dict_set c pid (clamp_qty q).

(** [cart_update()] *)
Definition cart_update (form : Form) (c : Cart) : Response * Cart :=
  (Redirect ep_cart_view [("Carrinho atualizado", success)],
   fold_left cart_update_entry (form_items form) c).

(** [cart_clear()] *)
Definition cart_clear (c : Cart) : Response * Cart :=
  (Redirect ep_index [("Carrinho esvaziado", success)], []).

(* ================================================================== *)
(** * Checkout *)
(* ================================================================== *)

(** The state a request can change: the committed rows and the visitor's
    cart. *)
Record State : Type := mkState {
  st_db : Database;
  st_cart : Cart
}.

Definition order_item_of (oid : Z) (l : Line) : OrderItem :=
  mkOrderItem oid (product_id (line_product l))
    (product_name (line_product l)) (product_price (line_product l))
    (line_qty l).

(** [create_order()], with the configured discount percent [pct]. A raised
    exception leaves the handler before any row is added, so it carries no
    state. *)
Definition create_order (pct : Z) (form : Form) (st : State)
  : result (Response * State) :=
  let c := st_cart st in
  let db := st_db st in
  if match c with [] => true | _ => false end then
    Ok (Redirect ep_index [("Carrinho vazio.", warning)], st)
  else
    let payment_method := form_get_default form "payment_method" "pix" in
    let payment_method :=
      if String.eqb payment_method "pix" || String.eqb payment_method "card"
      then payment_method else "pix" in
    let customer_name := strip (or_default (form_get form "customer_name") "") in
    let whatsapp := strip (or_default (form_get form "whatsapp") "") in
    let city_state := strip (or_default (form_get form "city_state") "") in
    let address := strip (or_default (form_get form "address") "") in
    let notes := strip (or_default (form_get form "notes") "") in
    if is_empty customer_name || is_empty whatsapp then
      Ok (Redirect ep_checkout
            [("Informe seu nome e WhatsApp para finalizar.", danger)], st)
    else
      '(items, total) <- price_lines db c [] (Dec 0 (-2)) ;;
      if match items with [] => true | _ => false end then
        Ok (Redirect ep_index [("Carrinho vazio.", warning)], st)
      else
        total_pix <- price_with_pix_discount pct total ;;
        let amount :=
          if String.eqb payment_method "pix" then total_pix else total in
        let oid := next_id (map order_id (orders db)) in
        let order :=
          mkOrder oid customer_name whatsapp city_state address notes
            payment_method amount total "Aguardando pagamento" in
        let db' :=
          mkDatabase (products db) (images db)
            (orders db ++ [order])
            (order_items db ++ map (order_item_of oid) items) in
        Ok (Redirect (ep_order_success oid) [], mkState db' []).

(* ================================================================== *)
(** * Admin catalog manager *)
(* ================================================================== *)

Definition ALLOWED_EXTENSIONS : list string := ["jpg"; "jpeg"; "png"; "webp"].

(** [allowed_file(filename)]. The index [[1]] is only reached behind the
    test for a dot, where [rsplit] gives two parts. *)
Definition allowed_file (filename : string) : bool :=
  contains_char "." filename &&
  match rsplit1 "." filename with
  | _ :: ext :: _ => existsb (String.eqb (lower ext)) ALLOWED_EXTENSIONS
  | _ => false
  end.

(** An entry of [request.files]: what the handlers read of it is its
    file name. *)
Record FileStorage : Type := mkFile { filename : string }.

(** The price field of the product form, as both handlers read it:
    [Decimal((form.get("price") or "0").replace(",", ".").strip())
       .quantize(Decimal("0.01"))]. *)
Definition parse_price (form : Form) : result Decimal :=
  let price := strip (replace_char "," "." (or_default (form_get form "price") "0")) in
  d <- parse_decimal price ;;
  dec_quantize d cent.

Definition form_checked (form : Form) (key : string) : bool :=
  match form_get form key with
  | Some v => String.eqb v "on"
  | None => false
  end.

Section Uploads.

(** [werkzeug.utils.secure_filename] and the successive values of
    [uuid.uuid4().hex[:12]], both outside the repository. *)
Variable secure_filename : string -> string.
Variable uuid_hex : nat -> string.

(** The column [Product.price], [db.Column(db.Numeric(10, 2),
    nullable=False)]: the value a later query reads back once the price
    has been written, or [None] when the store refuses the row (a NaN
    under SQLite, an amount beyond the column under PostgreSQL). *)
Variable price_column : Decimal -> option Decimal.

(** [save_upload(file_storage)] at the [k]-th draw of a uuid: the URL
    the file is stored under. *)
Definition save_upload (f : FileStorage) (k : nat) : string :=
  let original := secure_filename (str_or (filename f) "") in
  let ext :=
    if contains_char "." original then
      match rsplit1 "." original with
      | _ :: e :: _ => lower e
      | _ => "jpg"
      end
    else "jpg" in
  "/static/img/uploads/" ++ "produto_" ++ uuid_hex k ++ "." ++ ext.

(** The URLs [save_upload] gives a list of files, one uuid drawn per file
    from the [k]-th on. *)
Fixpoint stored_urls (files : list FileStorage) (k : nat) : list string :=
  match files with
  | [] => []
  | f :: rest => save_upload f k :: stored_urls rest (S k)
  end.

(** The loop over [request.files.getlist("image_files")] shared by the
    create and edit handlers: the image rows, the flashed warnings and
    the number of uuids drawn so far. *)
Fixpoint add_images (pid : Z) (files : list FileStorage)
  (imgs : list ProductImage) (flashes : list (string * Category))
  (k : nat) : list ProductImage * list (string * Category) * nat :=
  match files with
  | [] => (imgs, flashes, k)
  | f :: rest =>
      if is_empty (filename f) then add_images pid rest imgs flashes k
      else if negb (allowed_file (filename f)) then
        add_images pid rest imgs
          (flashes ++ [("Formato de foto invalido (use JPG/PNG/WEBP).",
                        warning)])%list k
      else
        let url := save_upload f k in
        add_images pid rest
          (imgs ++ [mkProductImage (next_id (map image_id imgs)) pid url])
          flashes (S k)
  end.

(** [admin_products_new_post()], for a logged-in admin: the response and
    the committed rows, or the error of the store, and the number of
    uuids drawn. The product is written by [db.session.flush()], ahead of
    the upload loop: a price the store refuses ends the request there,
    with nothing committed and no file saved. *)
Definition admin_products_new_post (form : Form)
  (files : list FileStorage) (db : Database) (k : nat)
  : result (Response * Database) * nat :=
  let name := strip (or_default (form_get form "name") "") in
  let description := strip (or_default (form_get form "description") "") in
  let is_active := form_checked form "is_active" in
  match parse_price form with
  | Raise _ =>
      (Ok (Redirect ep_admin_products_new [("Preco invalido.", danger)], db),
       k)
  | Ok price_d =>
      if is_empty name then
        (Ok (Redirect ep_admin_products_new [("Informe o nome.", danger)], db),
         k)
      else
        match price_column price_d with
        | None => (Raise DatabaseError, k)
        | Some stored =>
            let pid := next_id (map product_id (products db)) in
            let p := mkProduct pid name description stored is_active in
            let '(imgs, flashes, k') :=
              add_images pid files (images db) [] k in
            (Ok (Redirect ep_admin_products
                   (flashes ++ [("Produto criado", success)]),
                 mkDatabase (products db ++ [p]) imgs (orders db)
                   (order_items db)),
             k')
        end
  end.

(** [admin_products_edit_post(product_id)], for a logged-in admin. The
    fields assigned before the price is parsed live in the request's
    unit of work, which is dropped when the handler returns without a
    commit. The row is written by [db.session.commit()], after the upload
    loop: a price the store refuses rolls everything back, the uploads
    having been saved. *)
Definition admin_products_edit_post (pid : Z) (form : Form)
  (files : list FileStorage) (db : Database) (k : nat)
  : result (Response * Database) * nat :=
  match product_get db pid with
  | None => (Ok (NotFound, db), k)
  | Some product =>
      let name := strip (or_default (form_get form "name") "") in
      let description := strip (or_default (form_get form "description") "") in
      let is_active := form_checked form "is_active" in
      match parse_price form with
      | Raise _ =>
          (Ok (Redirect (ep_admin_products_edit pid)
                 [("Preco invalido.", danger)], db), k)
      | Ok price_d =>
          let '(imgs, flashes, k') :=
            add_images (product_id product) files (images db) [] k in
          match price_column price_d with
          | None => (Raise DatabaseError, k')
          | Some stored =>
              let p := mkProduct (product_id product) name description
                         stored is_active in
              (Ok (Redirect (ep_admin_products_edit (product_id product))
                     (flashes ++ [("Produto atualizado", success)]),
                   mkDatabase
                     (map (fun q => if product_id q =? pid then p else q)
                        (products db))
                     imgs (orders db) (order_items db)),
               k')
          end
      end
  end.

End Uploads.

(* ================================================================== *)
(** * Vocabulary of the statements *)
(* ================================================================== *)

(** The coefficient of a finite decimal. *)
Definition coef_of (d : Decimal) : Z :=
  match d with
  | Dec m _ => m
  | _ => 0
  end.

(** A price as the column [Numeric(10, 2)] holds it: finite, with two
    decimals. *)
Definition in_cents (d : Decimal) : bool :=
  match d with
  | Dec _ e => e =? -2
  | _ => false
  end.

Definition catalog_in_cents (db : Database) : bool :=
  forallb (fun p => in_cents (product_price p)) (products db).

(** Every key of the cart reads as an integer, as the product ids written
    by [cart_add] do. *)
Definition keys_parse (c : Cart) : bool :=
  forallb (fun kv => match py_int (fst kv) with Ok _ => true | Raise _ => false end) c.

(** The surviving lines of a cart: the entries whose product exists and is
    active, in the order of the cart. *)
Fixpoint surviving (db : Database) (c : Cart) : list (Product * Z) :=
  match c with
  | [] => []
  | (k, q) :: rest =>
      match py_int k with
      | Ok pid =>
          match product_get db pid with
          | Some p =>
              if product_is_active p then (p, q) :: surviving db rest
              else surviving db rest
          | None => surviving db rest
          end
      | Raise _ => surviving db rest
      end
  end.

(** The size of the amounts of a list of lines, in cents: what has to stay
    within the context precision for the sums to be exact. *)
Fixpoint magnitude (l : list (Product * Z)) : Z :=
  match l with
  | [] => 0
  | (p, q) :: rest => Z.abs (coef_of (product_price p) * q) + magnitude rest
  end.

(** The sum of the amounts of a list of lines, in cents. *)
Fixpoint cents_sum (l : list (Product * Z)) : Z :=
  match l with
  | [] => 0
  | (p, q) :: rest => coef_of (product_price p) * q + cents_sum rest
  end.

(** The line the cart page shows for a surviving entry. *)
Definition line_of (pq : Product * Z) : Line :=
  mkLine (fst pq) (snd pq) (Dec (coef_of (product_price (fst pq)) * snd pq) (-2)).

(** The total as the specification words it:
    [sum(product.price * qty for surviving lines)], rounded once. *)
Fixpoint spec_sum (l : list (Product * Z)) (acc : Decimal) : result Decimal :=
  match l with
  | [] => Ok acc
  | (p, q) :: rest =>
      raw <- dec_mul (product_price p) (dec_of_int q) ;;
      acc' <- dec_add acc raw ;;
      spec_sum rest acc'
  end.

Definition spec_cart_total (db : Database) (c : Cart) : result Decimal :=
  s <- spec_sum (surviving db c) (dec_of_int 0) ;;
  dec_quantize s cent.

(** [sum(item.unit_price * item.qty for item in items)] over order items. *)
Fixpoint items_sum (l : list OrderItem) (acc : Decimal) : result Decimal :=
  match l with
  | [] => Ok acc
  | it :: rest =>
      raw <- dec_mul (unit_price it) (dec_of_int (item_qty it)) ;;
      acc' <- dec_add acc raw ;;
      items_sum rest acc'
  end.

(** A response that sends the visitor back with one message that is not a
    success, the state untouched. *)
Definition rejected (r : result (Response * State)) (st : State) : Prop :=
  exists target msg cat,
    r = Ok (Redirect target [(msg, cat)], st) /\ cat <> success.

(** A text field of a form as the handlers read it:
    [(request.form.get(key) or "").strip()]. *)
Definition field (form : Form) (key : string) : string :=
  strip (or_default (form_get form key) "").

(** The order item written for a surviving line. *)
Definition snapshot (oid : Z) (pq : Product * Z) : OrderItem :=
  mkOrderItem oid (product_id (fst pq)) (product_name (fst pq))
    (product_price (fst pq)) (snd pq).

(** ** Sample data: the seeded bag at 120.00, a five-cent product, an
    inactive product; a visitor with two bags, the inactive product and a
    product that is gone. *)

Definition sample_db : Database :=
  mkDatabase
    [ mkProduct 1 "Bolsa Floral" "Bolsa artesanal" (Dec 12000 (-2)) true;
      mkProduct 2 "Amostra" "" (Dec 5 (-2)) true;
      mkProduct 3 "Bolsa Lua" "" (Dec 9990 (-2)) false ]
    [] [] [].

Definition sample_cart : Cart := [("1", 2); ("3", 1); ("7", 4)].

Definition sample_form : Form :=
  [ ("payment_method", "pix"); ("customer_name", " Ana "); ("whatsapp", "11 99999");
    ("city_state", "SP"); ("address", ""); ("notes", "") ].

Definition sample_state : State := mkState sample_db sample_cart.

(** The sample state after the visitor checks out at a discount of 10
    percent. *)
Definition sample_state_after : State :=
  mkState
    (mkDatabase (products sample_db) (images sample_db)
       [mkOrder 1 "Ana" "11 99999" "SP" "" "" "pix" (Dec 21600 (-2))
          (Dec 24000 (-2)) "Aguardando pagamento"]
       [mkOrderItem 1 1 "Bolsa Floral" (Dec 12000 (-2)) 2])
    [].

(** A cart is a dict: no key twice. *)
Definition dict_wf (c : Cart) : Prop := NoDup (map fst c).

(** The files of a batch that pass [allowed_file], and those that carry a
    file name and fail it. *)
Definition accepted (files : list FileStorage) : list FileStorage :=
  filter (fun f => allowed_file (filename f)) files.

Definition warned (files : list FileStorage) : list FileStorage :=
  filter (fun f => negb (is_empty (filename f))
                   && negb (allowed_file (filename f))) files.

Definition invalid_format : string * Category :=
  ("Formato de foto invalido (use JPG/PNG/WEBP).", warning).


(** A stand-in for the store in the sample runs: it keeps an amount within
    the column as it is, and refuses a NaN (as SQLite does, which has no
    such number) and an amount beyond the column (as PostgreSQL does). *)
Definition strict_price_column (d : Decimal) : option Decimal :=
  match d with
  | Dec m e => if (e =? -2) && (Z.abs m <? 10 ^ 10) then Some d else None
  | _ => None
  end.

(** Stand-ins for the two outside functions, for the sample runs. *)
Definition sample_secure_filename (s : string) : string := s.
Definition sample_uuid_hex (k : nat) : string :=
  match k with
  | O => "0a1b2c3d4e5f"
  | _ => "6a7b8c9d0e1f"
  end.

(* ================================================================== *)
(** * The remaining handlers *)
(* ================================================================== *)

(** [cart_count()]: [sum(int(q) for q in cart().values())]. *)
Definition cart_count (c : Cart) : Z :=
  fold_left (fun acc kv => acc + snd kv) c 0.

(** ** [money_br] *)

Definition digit_char_of (n : Z) : ascii := ascii_of_N (Z.to_N (48 + n)).

(** [f"{value:.2f}"] for a Decimal: the value rescaled to two decimals
    under the context rounding, written in positional notation behind the
    sign of the value. *)
Definition format_2f (value : Decimal) : string :=
  match value with
  | Dec m e =>
      let r := Z.abs (rescale m e (-2)) in
      let sign := if m <? 0 then "-" else "" in
      let cents :=
        String (digit_char_of (r mod 100 / 10))
          (String (digit_char_of (r mod 10)) "") in
      (sign ++ py_str (r / 100) ++ "." ++ cents)%string
  | DInf s => ((if s then "-" else "") ++ "Infinity")%string
  | DNaN s => if s then "sNaN" else "NaN"
  end.

(** [money_br(value)] *)
Definition money_br (value : Decimal) : string :=
  ("R$ " ++ replace_char "." "," (format_2f value))%string.

(** ** [checkout] *)

Inductive CheckoutResponse : Type :=
| CheckoutRedirect (r : Response)
| CheckoutPage (items : list Line) (total total_pix : Decimal).

(** [checkout()], with the configured discount percent [pct]. *)
Definition checkout (pct : Z) (db : Database) (c : Cart)
  : result CheckoutResponse :=
  '(items, total) <- price_lines db c [] (Dec 0 (-2)) ;;
  if match items with [] => true | _ => false end then
    Ok (CheckoutRedirect
          (Redirect ep_index [("Seu carrinho esta vazio.", warning)]))
  else
    total_pix <- price_with_pix_discount pct total ;;
    Ok (CheckoutPage items total total_pix).

(** ** [product_detail] *)



(** ** [order_success] *)

(** [Order.query.get(oid)] *)
Definition order_get (db : Database) (oid : Z) : option Order :=
  find (fun o => order_id o =? oid) (orders db).

(** [sep.join(lines)] *)
Fixpoint join (sep : string) (lines : list string) : string :=
  match lines with
  | [] => ""
  | [l] => l
  | l :: rest => (l ++ sep ++ join sep rest)%string
  end.

Definition newline : string := String (ascii_of_nat 10) "".

(** The line of the message for one order item. *)
Definition item_line (it : OrderItem) : string :=
  ("- " ++ py_str (item_qty it) ++ "x " ++ product_name_snapshot it
   ++ " (R$ " ++ format_2f (unit_price it) ++ ")")%string.

Inductive SuccessResponse : Type :=
| SuccessNotFound
| SuccessPage (order : Order) (items : list OrderItem)
    (whatsapp_message : string).

(** The lines of the message [order_success] composes. *)
Definition message_lines (store_name pix_key : string) (order : Order)
  (items : list OrderItem) : list string :=
  ([ ("Ol" ++ String (ascii_of_nat 225) "! Fiz um pedido na loja "
      ++ store_name ++ ".")%string;
     ("Pedido: #" ++ py_str (order_id order))%string ]
   ++ map item_line items
   ++ [ ("Total: R$ " ++ format_2f (amount order))%string;
        ("Pagamento: "
         ++ (if String.eqb (payment_method order) "pix" then "Pix"
             else ("Cart" ++ String (ascii_of_nat 227) "o")))%string ]
   ++ (if String.eqb (payment_method order) "pix"
       then [("Chave Pix: " ++ pix_key)%string] else []))%list.

(** [order_success(order_id)], with the configured store name and Pix
    key. *)
Definition order_success (store_name pix_key : string) (db : Database)
  (oid : Z) : SuccessResponse :=
  match order_get db oid with
  | None => SuccessNotFound
  | Some order =>
      let items :=
        filter (fun it => item_order_id it =? order_id order)
          (order_items db) in
      SuccessPage order items
        (join newline (message_lines store_name pix_key order items))
  end.

(** ** [admin_order_status] *)

(** Assigning to the row a query returned: the first row that matches is
    replaced. *)
Fixpoint update_first {A : Type} (test : A -> bool) (f : A -> A)
  (l : list A) : list A :=
  match l with
  | [] => []
  | x :: rest => if test x then f x :: rest else x :: update_first test f rest
  end.

Definition set_status (s : string) (o : Order) : Order :=
  mkOrder (order_id o) (customer_name o) (whatsapp o) (city_state o)
    (address o) (notes o) (payment_method o) (amount o) (amount_original o) s.

Inductive StatusResponse : Type :=
| StatusNotFound
| StatusRedirect (flashes : list (string * Category)).

(** [admin_order_status(order_id)], for a logged-in admin: it always
    returns to the dashboard, and writes only a status that is not blank. *)
Definition admin_order_status (oid : Z) (form : Form) (db : Database)
  : StatusResponse * Database :=
  match order_get db oid with
  | None => (StatusNotFound, db)
  | Some order =>
      let status := strip (or_default (form_get form "status") "") in
      if is_empty status then (StatusRedirect [], db)
      else
        (StatusRedirect [("Status atualizado", success)],
         mkDatabase (products db) (images db)
           (update_first (fun o => order_id o =? oid) (set_status status)
              (orders db))
           (order_items db))
  end.

(** ** [admin_product_image_delete] *)

Fixpoint remove_first {A : Type} (test : A -> bool) (l : list A) : list A :=
  match l with
  | [] => []
  | x :: rest => if test x then rest else x :: remove_first test rest
  end.

(** [admin_product_image_delete(image_id)], for a logged-in admin, on the
    rows: whatever happens to the file, the failure is swallowed and the row
    is deleted. *)
Definition admin_product_image_delete (iid : Z) (db : Database)
  : Response * Database :=
  match find (fun i => image_id i =? iid) (images db) with
  | None => (NotFound, db)
  | Some img =>
      (Redirect (ep_admin_products_edit (image_product_id img))
         [("Foto removida", success)],
       mkDatabase (products db)
         (remove_first (fun i => image_id i =? iid) (images db))
         (orders db) (order_items db))
  end.

(** ** [bootstrap_db] *)

Record User : Type := mkUser {
  user_id : Z;
  user_email : string;
  user_password_hash : string
}.

Definition seed_names : list string :=
  [ "Bolsa Floral"; "Bolsa Girassol";
    ("Bolsa Ver" ++ String (ascii_of_nat 227) "o")%string; "Bolsa Boho";
    "Bolsa Elegance";
    ("Bolsa P" ++ String (ascii_of_nat 233) "rola")%string;
    "Bolsa Primavera"; "Bolsa Mandala"; "Bolsa Natural"; "Bolsa Color Mix";
    "Bolsa Aurora"; "Bolsa Sol"; "Bolsa Areia"; "Bolsa Romance";
    "Bolsa Jardim"; "Bolsa Lua"; "Bolsa Doce"; "Bolsa Serena"; "Bolsa Charm";
    ("Bolsa Cl" ++ String (ascii_of_nat 225) "ssica")%string ].

Definition seed_description : string :=
  ("Bolsa artesanal em croch" ++ String (ascii_of_nat 234)
     ". Personalize cores e tamanho sob encomenda.")%string.

(** [for n in names: db.session.add(Product(...))] *)
Fixpoint add_seed (names : list string) (ps : list Product) : list Product :=
  match names with
  | [] => ps
  | n :: rest =>
      add_seed rest
        (ps ++ [mkProduct (next_id (map product_id ps)) n seed_description
                  (Dec 12000 (-2)) true])%list
  end.

Section Bootstrap.

(** [werkzeug.security.generate_password_hash], outside the repository: the
    hash of a password under a freshly drawn salt. *)
Variable generate_password_hash : string -> string -> string.

(** [bootstrap_db(seed)], with the admin email and password read from the
    environment and the salt the hash draws. *)
Definition bootstrap_db (admin_email admin_password salt : string)
  (seed : bool) (users : list User) (db : Database)
  : list User * Database :=
  let users' :=
    match find (fun u => String.eqb (user_email u) admin_email) users with
    | Some _ => users
    | None =>
        (users ++ [mkUser (next_id (map user_id users)) admin_email
                     (generate_password_hash salt admin_password)])%list
    end in
  let db' :=
    if seed && (Z.of_nat (List.length (products db)) =? 0) then
      mkDatabase (add_seed seed_names (products db)) (images db)
        (orders db) (order_items db)
    else db in
  (users', db').

End Bootstrap.

(** ** The database URL of [create_app] *)

(** [pat in s] *)
Fixpoint contains_str (pat s : string) : bool :=
  match strip_prefix pat s with
  | Some _ => true
  | None =>
      match s with
      | EmptyString => false
      | String _ r => contains_str pat r
      end
  end.

(** [s.replace(old, new, 1)] *)
Fixpoint replace_first (old new s : string) : string :=
  match strip_prefix old s with
  | Some rest => (new ++ rest)%string
  | None =>
      match s with
      | EmptyString => EmptyString
      | String c r => String c (replace_first old new r)
      end
  end.

(** The value [create_app] gives [SQLALCHEMY_DATABASE_URI], from
    [os.getenv("DATABASE_URL")]. *)
Definition database_uri (env : option string) : string :=
  match env with
  | Some db_url =>
      if is_empty db_url then "sqlite:///sonhos.db"
      else if startswith "postgres://" db_url then
        replace_first "postgres://" "postgresql+psycopg2://" db_url
      else if startswith "postgresql://" db_url
              && negb (contains_str "postgresql+psycopg2://" db_url) then
        replace_first "postgresql://" "postgresql+psycopg2://" db_url
      else db_url
  | None => "sqlite:///sonhos.db"
  end.

(** ** Vocabulary of the further statements *)

(** Every quantity of the cart is at least 1. *)
Definition cart_positive (c : Cart) : Prop :=
  Forall (fun kv => 1 <= snd kv) c.

(** Every quantity of the cart is in [1,99]. *)
Definition cart_bounded (c : Cart) : Prop :=
  Forall (fun kv => 1 <= snd kv <= 99) c.

(** Primary keys are below the next key to be given. *)
Definition ids_below (ids : list Z) (n : Z) : Prop :=
  Forall (fun i => i < n) ids.

(** Every order item belongs to an order of the table. *)
Definition items_have_orders (db : Database) : Prop :=
  Forall (fun it => In (item_order_id it) (map order_id (orders db)))
    (order_items db).


(** No two products share an id. *)
Definition product_ids_unique (db : Database) : Prop :=
  NoDup (map product_id (products db)).

(** Every character of the string passes the test. *)
Fixpoint string_forall (test : ascii -> bool) (s : string) : bool :=
  match s with
  | EmptyString => true
  | String c r => test c && string_forall test r
  end.

(** A character that is no blank, no underscore and no comma. *)
Definition plain_char (c : ascii) : bool :=
  negb (is_space c) && negb (Ascii.eqb c "_") && negb (Ascii.eqb c ",").

(** Every character of the string is a decimal digit. *)
Fixpoint all_digits (s : string) : bool :=
  match s with
  | EmptyString => true
  | String c r => is_digit c && all_digits r
  end.

(** [c * n]: a character repeated [n] times. *)
Fixpoint replicate (n : nat) (c : ascii) : string :=
  match n with
  | O => EmptyString
  | S k => String c (replicate k c)
  end.

(* ================================================================== *)
(** * Sample evaluations of the runtime model *)
(* ================================================================== *)

Example parse_examples :
  parse_decimal "12.5" = Ok (Dec 125 (-1)) /\
  parse_decimal " -5 " = Ok (Dec (-5) 0) /\
  parse_decimal ".5" = Ok (Dec 5 (-1)) /\
  parse_decimal "5." = Ok (Dec 5 0) /\
  parse_decimal "." = Raise InvalidOperation /\
  parse_decimal "" = Raise InvalidOperation /\
  parse_decimal "1e3" = Ok (Dec 1 3) /\
  parse_decimal "1.50E-2" = Ok (Dec 150 (-4)) /\
  parse_decimal "1_000.00" = Ok (Dec 100000 (-2)) /\
  parse_decimal "NaN" = Ok (DNaN false) /\
  parse_decimal "-Infinity" = Ok (DInf true) /\
  parse_decimal "abc" = Raise InvalidOperation /\
  parse_decimal "1,5" = Raise InvalidOperation /\
  parse_decimal "1e" = Raise InvalidOperation /\
  parse_decimal "e5" = Raise InvalidOperation.
Proof. vm_compute. repeat split; reflexivity. Qed.

Example int_examples :
  py_int " 12 " = Ok 12 /\ py_int "-3" = Ok (-3) /\ py_int "+7" = Ok 7 /\
  py_int "1_000" = Ok 1000 /\ py_int "1__0" = Raise ValueError /\
  py_int "_1" = Raise ValueError /\ py_int "1_" = Raise ValueError /\
  py_int "" = Raise ValueError /\ py_int "abc" = Raise ValueError /\
  py_int "2.5" = Raise ValueError /\ py_int "007" = Ok 7 /\
  py_str 0 = "0" /\ py_str 120 = "120" /\ py_str (-45) = "-45" /\
  remove_all "qty_" "qty_qty_5" = "5" /\ remove_all "qty_" "qty_12" = "12" /\
  strip "  a b  " = "a b" /\ lower "Photo.GIF" = "photo.gif" /\
  rsplit1 "." "a.b.c" = ["a.b"; "c"] /\ rsplit1 "." "abc" = ["abc"] /\
  rsplit1 "." "abc." = ["abc"; ""] /\ rsplit1 "." ".x" = [""; "x"].
Proof. vm_compute. repeat split; reflexivity. Qed.

(** [int] converts 4300 digits and no more, leading zeros counted, sign
    and blanks not. *)
Example int_digit_limit :
  py_int (replicate 4300 "9") = Ok (10 ^ 4300 - 1) /\
  py_int (" +" ++ replicate 4300 "9" ++ " ") = Ok (10 ^ 4300 - 1) /\
  py_int (replicate 4301 "9") = Raise ValueError /\
  py_int (replicate 4301 "0") = Raise ValueError /\
  py_int (String "-" (replicate 4301 "1")) = Raise ValueError.
Proof. vm_compute. repeat split; reflexivity. Qed.

Example price_column_examples :
  strict_price_column (Dec 9999999999 (-2)) = Some (Dec 9999999999 (-2)) /\
  strict_price_column (Dec (-500) (-2)) = Some (Dec (-500) (-2)) /\
  strict_price_column (DNaN false) = None.
Proof. vm_compute. repeat split; reflexivity. Qed.

Example pwd_examples :
  price_with_pix_discount 10 (Dec 24000 (-2)) = Ok (Dec 21600 (-2)) /\
  price_with_pix_discount 0 (Dec 24000 (-2)) = Ok (Dec 24000 (-2)) /\
  price_with_pix_discount 10 (Dec 5 (-2)) = Ok (Dec 4 (-2)) /\
  price_with_pix_discount 10 (Dec 15 (-2)) = Ok (Dec 14 (-2)) /\
  price_with_pix_discount 100 (Dec 24000 (-2)) = Ok (Dec 0 (-2)).
Proof. vm_compute. repeat split; reflexivity. Qed.

Example div_examples :
  dec_div (Dec 90 0) (Dec 100 0) = Ok (Dec 9 (-1)) /\
  dec_div (Dec 75 0) (Dec 100 0) = Ok (Dec 75 (-2)) /\
  dec_div (Dec 1 0) (Dec 3 0) = Ok (Dec 3333333333333333333333333333 (-28)) /\
  dec_div (Dec 2 0) (Dec 3 0) = Ok (Dec 6666666666666666666666666667 (-28)) /\
  dec_div (Dec (-50) 0) (Dec 100 0) = Ok (Dec (-5) (-1)) /\
  dec_div (Dec 1000 0) (Dec 10 0) = Ok (Dec 100 0).
Proof. vm_compute. repeat split; reflexivity. Qed.

Example context_rounding_examples :
  dec_div (Dec 1 0) (Dec 7 0) = Ok (Dec 1428571428571428571428571429 (-28)) /\
  dec_div (Dec 1 3) (Dec 5 0) = Ok (Dec 2 2) /\
  dec_div (Dec 7 0) (Dec (-100) 0) = Ok (Dec (-7) (-2)) /\
  dec_add (Dec 0 (-40)) (Dec 15 (-1))
  = Ok (Dec 1500000000000000000000000000 (-27)) /\
  dec_add (Dec 9999999999999999999999999999 0) (Dec 1 0)
  = Ok (Dec 1000000000000000000000000000 1) /\
  dec_mul (Dec 12345678901234567890123456789 0) (Dec 1 0)
  = Ok (Dec 1234567890123456789012345679 1) /\
  dec_quantize (Dec 9999999999999999999999999995 (-3)) cent
  = Ok (Dec 1000000000000000000000000000 (-2)) /\
  dec_quantize (Dec 99999999999999999999999999995 (-3)) cent
  = Raise InvalidOperation /\
  dec_quantize (Dec 150 (-4)) cent = Ok (Dec 2 (-2)) /\
  dec_quantize (Dec (-45) (-3)) cent = Ok (Dec (-4) (-2)) /\
  dec_quantize (DInf false) cent = Raise InvalidOperation /\
  dec_quantize (DNaN false) cent = Ok (DNaN false).
Proof. vm_compute. repeat split; reflexivity. Qed.

(* ================================================================== *)
(** * Rounding *)
(* ================================================================== *)

Lemma pow10_pos (k : Z) : 0 <= k -> 0 < 10 ^ k.
Proof. intros; apply Z.pow_pos_nonneg; lia. Qed.

Lemma div_eucl_div_mod (a b : Z) : Z.div_eucl a b = (a / b, a mod b).
Proof.
  unfold Z.div, Z.modulo. destruct (Z.div_eucl a b); reflexivity.
Qed.

(** A multiple of the divisor is not rounded. *)
Lemma round_half_even_exact (a d : Z) :
  0 < d -> round_half_even (a * d) d = a.
Proof.
  intros Hd. unfold round_half_even.
  rewrite Z.div_mul by lia. rewrite Z.mod_mul by lia.
  destruct (2 * 0 <? d) eqn:E; [reflexivity|].
  apply Z.ltb_ge in E. lia.
Qed.

(** Rounding sees the quotient only: a common factor cancels. *)
Lemma round_half_even_scale (n d c : Z) :
  0 < d -> 0 < c -> round_half_even (n * c) (d * c) = round_half_even n d.
Proof.
  intros Hd Hc. unfold round_half_even.
  rewrite Z.div_mul_cancel_r by lia.
  rewrite Z.mul_mod_distr_r by lia.
  assert (H1 : (2 * (n mod d * c) <? d * c) = (2 * (n mod d) <? d)).
  { destruct (2 * (n mod d) <? d) eqn:E.
    - apply Z.ltb_lt in E. apply Z.ltb_lt. nia.
    - apply Z.ltb_ge in E. apply Z.ltb_ge. nia. }
  assert (H2 : (d * c <? 2 * (n mod d * c)) = (d <? 2 * (n mod d))).
  { destruct (d <? 2 * (n mod d)) eqn:E.
    - apply Z.ltb_lt in E. apply Z.ltb_lt. nia.
    - apply Z.ltb_ge in E. apply Z.ltb_ge. nia. }
  rewrite H1, H2. reflexivity.
Qed.

(** [round_half_even] is a nearest integer, and on a tie the even one. *)
Lemma round_half_even_nearest (n d : Z) :
  0 < d ->
  let q := round_half_even n d in
  Z.abs (2 * (n - q * d)) <= d /\
  (Z.abs (2 * (n - q * d)) = d -> Z.even q = true).
Proof.
  intros Hd. cbv zeta. unfold round_half_even.
  pose proof (Z.div_mod n d ltac:(lia)) as Hdm.
  pose proof (Z.mod_pos_bound n d Hd) as Hr.
  destruct (2 * (n mod d) <? d) eqn:E1.
  - apply Z.ltb_lt in E1. split; [nia|intros; nia].
  - apply Z.ltb_ge in E1.
    destruct (d <? 2 * (n mod d)) eqn:E2.
    + apply Z.ltb_lt in E2. split; [nia|intros; nia].
    + apply Z.ltb_ge in E2.
      destruct (Z.even (n / d)) eqn:E3.
      * split; [nia|auto].
      * split; [nia|]. intros _.
        rewrite Z.even_add, E3. reflexivity.
Qed.

(** The specification's rounding is a nearest integer too, a tie going
    away from zero. *)
Lemma spec_round_half_up_nearest (n d : Z) :
  0 < d ->
  let q := spec_round_half_up n d in
  Z.abs (2 * (n - q * d)) <= d /\
  (Z.abs (2 * (n - q * d)) = d -> Z.abs n < Z.abs (q * d)).
Proof.
  intros Hd. cbv zeta. unfold spec_round_half_up.
  pose proof (Z.div_mod (2 * Z.abs n + d) (2 * d) ltac:(lia)) as Hdm.
  pose proof (Z.mod_pos_bound (2 * Z.abs n + d) (2 * d) ltac:(lia)) as Hr.
  set (k := (2 * Z.abs n + d) / (2 * d)) in *.
  set (r := (2 * Z.abs n + d) mod (2 * d)) in *.
  assert (Hk : 0 <= k) by (subst k; apply Z.div_pos; lia).
  destruct (Z.sgn_spec n) as [[Hn Hs]|[[Hn Hs]|[Hn Hs]]]; rewrite Hs.
  - split; [nia|intros; nia].
  - subst n. assert (k = 0) by nia. subst. split; [nia|intros; nia].
  - split; [nia|intros; nia].
Qed.

Lemma rescale_exact (m e : Z) : rescale m e e = m.
Proof.
  unfold rescale. rewrite Z.leb_refl, Z.sub_diag. change (10 ^ 0) with 1. lia.
Qed.

(** Rescaling depends on the value only: trailing zeros of the coefficient
    can be moved into the exponent. *)
Lemma rescale_scale (m e eq k : Z) :
  0 <= k -> rescale (m * 10 ^ k) e eq = rescale m (e + k) eq.
Proof.
  intros Hk. unfold rescale.
  destruct (eq <=? e) eqn:E1.
  - apply Z.leb_le in E1.
    assert (E2 : (eq <=? e + k) = true) by (apply Z.leb_le; lia).
    rewrite E2. replace (e + k - eq) with (k + (e - eq)) by lia.
    rewrite Z.pow_add_r by lia. ring.
  - apply Z.leb_gt in E1.
    destruct (eq <=? e + k) eqn:E2.
    + apply Z.leb_le in E2.
      replace k with ((e + k - eq) + (eq - e)) at 1 by lia.
      rewrite Z.pow_add_r by lia. rewrite Z.mul_assoc.
      apply round_half_even_exact. apply pow10_pos; lia.
    + apply Z.leb_gt in E2.
      replace (eq - e) with ((eq - (e + k)) + k) by lia.
      rewrite Z.pow_add_r by lia.
      apply round_half_even_scale; apply pow10_pos; lia.
Qed.

Lemma in_prec_lt (m : Z) : in_prec m = true <-> Z.abs m < 10 ^ prec.
Proof. unfold in_prec. apply Z.ltb_lt. Qed.

Lemma dec_fix_in_prec (m e : Z) : in_prec m = true -> dec_fix m e = Dec m e.
Proof. intros H. unfold dec_fix. rewrite H. reflexivity. Qed.

(* ================================================================== *)
(** * The discount factor *)
(* ================================================================== *)

Lemma ndigits_aux_bound (fuel : nat) :
  forall (k : nat) (m : Z),
    0 <= m < 10 ^ Z.of_nat k -> 0 <= ndigits_aux fuel m <= Z.of_nat k.
Proof.
  induction fuel as [|fuel IH]; intros k m Hm; cbn [ndigits_aux]; [lia|].
  destruct (m =? 0) eqn:E; [lia|].
  apply Z.eqb_neq in E.
  destruct k as [|k].
  - change (10 ^ Z.of_nat 0) with 1 in Hm. lia.
  - assert (Hq : 0 <= m / 10 < 10 ^ Z.of_nat k).
    { split; [apply Z.div_pos; lia|].
      apply Z.div_lt_upper_bound; [lia|].
      rewrite Nat2Z.inj_succ, Z.pow_succ_r in Hm by lia. lia. }
    specialize (IH k (m / 10) Hq). lia.
Qed.

Lemma ndigits_bound (m : Z) :
  Z.abs m < 10 ^ prec -> 0 <= ndigits m <= prec.
Proof.
  intros H. unfold ndigits.
  change prec with (Z.of_nat 28).
  apply ndigits_aux_bound. change (Z.of_nat 28) with prec. lia.
Qed.

(** What the zero-stripping loop of the division leaves: the same value,
    an exponent not above the ideal one, and, with fuel enough, no zero
    left to strip. *)
Lemma strip_zeros_spec (fuel : nat) :
  forall ideal coeff exp c' e',
    strip_zeros fuel ideal coeff exp = (c', e') ->
    exp <= ideal ->
    exp <= e' <= ideal /\
    coeff = c' * 10 ^ (e' - exp) /\
    (ideal - exp <= Z.of_nat fuel -> e' = ideal \/ c' mod 10 <> 0).
Proof.
  induction fuel as [|fuel IH]; intros ideal coeff exp c' e' H Hle; simpl in H.
  - inversion H; subst. rewrite Z.sub_diag. change (10 ^ 0) with 1.
    repeat split; try lia.
  - destruct ((exp <? ideal) && (coeff mod 10 =? 0)) eqn:E.
    + apply andb_prop in E. destruct E as [E1 E2].
      apply Z.ltb_lt in E1. apply Z.eqb_eq in E2.
      specialize (IH ideal (coeff / 10) (exp + 1) c' e' H ltac:(lia)).
      destruct IH as (Hb & Hv & Hs).
      split; [lia|]. split.
      * replace (e' - exp) with (1 + (e' - (exp + 1))) by lia.
        rewrite Z.pow_add_r by lia. change (10 ^ 1) with 10.
        pose proof (Z.div_mod coeff 10 ltac:(lia)). lia.
      * intros Hf. apply Hs. lia.
    + inversion H; subst. rewrite Z.sub_diag. change (10 ^ 0) with 1.
      split; [lia|]. split; [lia|]. intros _.
      apply andb_false_iff in E. destruct E as [E|E].
      * apply Z.ltb_ge in E. left; lia.
      * apply Z.eqb_neq in E. right; exact E.
Qed.

(** [Decimal(n) / Decimal(100)] for an integer [n] within the precision:
    the exact quotient, written with at most two decimals. *)
Lemma dec_div_100 (n : Z) :
  Z.abs n < 10 ^ prec ->
  exists f fe,
    dec_div (dec_of_int n) (dec_of_int 100) = Ok (Dec f fe) /\
    -2 <= fe <= 0 /\ f * 10 ^ (fe + 2) = n /\ Z.abs f <= Z.abs n.
Proof.
  intros Hn. unfold dec_div, dec_of_int. cbn [check_nans].
  change (100 =? 0) with false. cbv iota.
  destruct (n =? 0) eqn:E0.
  - apply Z.eqb_eq in E0. subst n. exists 0, 0.
    split; [reflexivity|]. cbn. lia.
  - apply Z.eqb_neq in E0.
    pose proof (ndigits_bound n Hn) as Hd.
    change (ndigits 100) with 3.
    set (shift := 3 - ndigits n + prec + 1).
    assert (Hs : 4 <= shift) by (unfold shift, prec in *; lia).
    assert (E1 : (0 <=? shift) = true) by (apply Z.leb_le; lia).
    rewrite E1. change (Z.abs 100) with 100.
    rewrite div_eucl_div_mod.
    assert (Hsplit : Z.abs n * 10 ^ shift = (Z.abs n * 10 ^ (shift - 2)) * 100).
    { replace shift with ((shift - 2) + 2) at 1 by lia.
      rewrite Z.pow_add_r by lia. change (10 ^ 2) with 100. ring. }
    rewrite Hsplit, Z.div_mul, Z.mod_mul by lia.
    change (0 =? 0) with true. cbv iota.
    replace (0 - 0 - (0 - 0 - shift)) with shift by lia.
    replace (0 - 0 - shift) with (- shift) by lia.
    change (0 - 0) with 0.
    destruct (strip_zeros (Z.to_nat shift) 0 (Z.abs n * 10 ^ (shift - 2))
                (- shift)) as [c' e'] eqn:Es.
    apply strip_zeros_spec in Es; [|lia].
    destruct Es as (Hb & Hv & Hstop).
    specialize (Hstop ltac:(lia)).
    assert (Hp : 0 < 10 ^ (shift - 2)) by (apply pow10_pos; lia).
    assert (He' : -2 <= e').
    { destruct (Z_lt_le_dec e' (-2)) as [Hlt|]; [|lia].
      exfalso. destruct Hstop as [?|Hm]; [lia|]. apply Hm.
      replace (shift - 2) with ((1 + (-3 - e')) + (e' - - shift)) in Hv by lia.
      rewrite (Z.pow_add_r 10 (1 + (-3 - e'))) in Hv by lia.
      rewrite Z.mul_assoc in Hv.
      apply Z.mul_reg_r in Hv;
        [|pose proof (pow10_pos (e' - - shift) ltac:(lia)); lia].
      rewrite <- Hv, Z.pow_add_r by lia. change (10 ^ 1) with 10.
      rewrite (Z.mul_comm 10), Z.mul_assoc. apply Z.mod_mul. lia. }
    assert (Hval : c' * 10 ^ (e' + 2) = Z.abs n).
    { replace (e' - - shift) with ((e' + 2) + (shift - 2)) in Hv by lia.
      rewrite Z.pow_add_r, Z.mul_assoc in Hv by lia.
      apply Z.mul_reg_r in Hv; lia. }
    assert (Hq : 0 < 10 ^ (e' + 2)) by (apply pow10_pos; lia).
    assert (Hc : 0 <= c' <= Z.abs n) by nia.
    change (Z.sgn 100) with 1.
    rewrite dec_fix_in_prec.
    + exists (Z.sgn n * 1 * c'), e'. split; [reflexivity|].
      split; [lia|]. split.
      * replace (Z.sgn n * 1 * c' * 10 ^ (e' + 2))
          with (Z.sgn n * (c' * 10 ^ (e' + 2))) by ring.
        rewrite Hval.
        destruct (Z.sgn_spec n) as [[? Hsg]|[[? Hsg]|[? Hsg]]];
          rewrite Hsg; lia.
      * destruct (Z.sgn_spec n) as [[? Hsg]|[[? Hsg]|[? Hsg]]];
          rewrite Hsg; lia.
    + apply in_prec_lt.
      destruct (Z.sgn_spec n) as [[? Hsg]|[[? Hsg]|[? Hsg]]];
        rewrite Hsg; lia.
Qed.

(* ================================================================== *)
(** * [price_with_pix_discount] *)
(* ================================================================== *)

Lemma dec_sub_ints (a b : Z) :
  a <> 0 -> b <> 0 -> Z.abs (a - b) < 10 ^ prec ->
  dec_sub (dec_of_int a) (dec_of_int b) = Ok (dec_of_int (a - b)).
Proof.
  intros Ha Hb Hp. unfold dec_sub, dec_of_int. cbn [check_nans dec_neg].
  unfold dec_add. cbn [check_nans].
  destruct (a =? 0) eqn:E1; [apply Z.eqb_eq in E1; lia|].
  destruct (- b =? 0) eqn:E2; [apply Z.eqb_eq in E2; lia|].
  cbn [andb]. rewrite Z.min_id, Z.sub_diag. change (10 ^ 0) with 1.
  rewrite dec_fix_in_prec; [f_equal; f_equal; lia|].
  apply in_prec_lt. replace (a * 1 + - b * 1) with (a - b) by lia. exact Hp.
Qed.

Lemma round_half_even_abs_le (n d : Z) :
  0 < d -> Z.abs (round_half_even n d) <= Z.abs n.
Proof.
  intros Hd. unfold round_half_even.
  pose proof (Z.div_mod n d ltac:(lia)) as Hdm.
  pose proof (Z.mod_pos_bound n d Hd) as Hr.
  destruct (2 * (n mod d) <? d) eqn:E1;
    [apply Z.ltb_lt in E1|apply Z.ltb_ge in E1].
  - nia.
  - destruct (d <? 2 * (n mod d)) eqn:E2;
      [apply Z.ltb_lt in E2|apply Z.ltb_ge in E2].
    + nia.
    + destruct (Z.even (n / d)) eqn:E3; [nia|].
      assert (n / d <> 0) by (intros H0; rewrite H0 in E3; discriminate).
      nia.
Qed.

(** The discount of a finite price, for a positive percent and operands
    within the context precision: the exact product with [(100 - pct)/100]
    put through [quantize]. *)
Lemma price_with_pix_discount_exact (pct m e : Z) :
  0 < pct ->
  Z.abs (100 - pct) < 10 ^ prec ->
  Z.abs (m * (100 - pct)) < 10 ^ prec ->
  price_with_pix_discount pct (Dec m e)
  = dec_quantize (Dec (m * (100 - pct)) (e - 2)) cent.
Proof.
  intros Hpct Hn Hmn. unfold price_with_pix_discount.
  destruct (pct <=? 0) eqn:E; [apply Z.leb_le in E; lia|].
  rewrite dec_sub_ints by lia. cbn [bind].
  destruct (dec_div_100 (100 - pct) Hn) as (f & fe & Hdiv & Hfe & Hval & Hf).
  rewrite Hdiv. cbn [bind].
  unfold dec_mul. cbn [check_nans].
  rewrite dec_fix_in_prec by (apply in_prec_lt; nia).
  cbn [bind]. unfold dec_quantize, cent. cbn [check_nans].
  assert (Hr : rescale (m * (100 - pct)) (e - 2) (-2)
               = rescale (m * f) (e + fe) (-2)).
  { rewrite <- Hval, Z.mul_assoc, rescale_scale by lia.
    f_equal. lia. }
  rewrite Hr. reflexivity.
Qed.

(** The discount of a price in cents: the cents times [100 - pct], over
    100, rounded half-even. *)
Lemma price_with_pix_discount_cents (pct m : Z) :
  0 < pct ->
  Z.abs (100 - pct) < 10 ^ prec ->
  Z.abs (m * (100 - pct)) < 10 ^ prec ->
  price_with_pix_discount pct (Dec m (-2))
  = Ok (Dec (round_half_even (m * (100 - pct)) 100) (-2)).
Proof.
  intros Hpct Hn Hmn.
  rewrite price_with_pix_discount_exact by assumption.
  unfold dec_quantize, cent. cbn [check_nans].
  unfold rescale. change (-2 <=? -2 - 2) with false.
  change (10 ^ (-2 - (-2 - 2))) with 100. cbv iota.
  assert (Hp : in_prec (round_half_even (m * (100 - pct)) 100) = true).
  { apply in_prec_lt.
    pose proof (round_half_even_abs_le (m * (100 - pct)) 100 ltac:(lia)).
    lia. }
  rewrite Hp. reflexivity.
Qed.

(** C1 (amended): the discount leaves the price unchanged for a percent of
    zero or less; for a positive percent, with operands within the 28
    digits of the context, it is the exact product of the price with
    [(100 - pct)/100] quantized to two decimals under ROUND_HALF_EVEN (a tie
    goes to the even cent), so a price in cents [c] becomes
    [round_half_even (c * (100 - pct)) 100] cents. *)
Theorem price_with_pix_discount_half_even (pct : Z) (price : Decimal) :
  (pct <= 0 -> price_with_pix_discount pct price = Ok price) /\
  (forall m e,
      price = Dec m e -> 0 < pct ->
      Z.abs (100 - pct) < 10 ^ prec ->
      Z.abs (m * (100 - pct)) < 10 ^ prec ->
      price_with_pix_discount pct price
      = dec_quantize (Dec (m * (100 - pct)) (e - 2)) cent /\
      (e = -2 ->
       price_with_pix_discount pct price
       = Ok (Dec (round_half_even (m * (100 - pct)) 100) (-2)))).
Proof.
  split.
  - intros H. unfold price_with_pix_discount.
    destruct (pct <=? 0) eqn:E; [reflexivity|apply Z.leb_gt in E; lia].
  - intros m e -> Hpct Hn Hmn. split.
    + apply price_with_pix_discount_exact; assumption.
    + intros ->. apply price_with_pix_discount_cents; assumption.
Qed.

Lemma price_with_pix_discount_half_even_witness :
  0 < 10 /\
  Z.abs (100 - 10) < 10 ^ prec /\
  Z.abs (24000 * (100 - 10)) < 10 ^ prec /\
  price_with_pix_discount 10 (Dec 24000 (-2)) = Ok (Dec 21600 (-2)).
Proof.
  assert (H1 : 0 < 10) by lia.
  assert (H2 : Z.abs (100 - 10) < 10 ^ prec) by (vm_compute; reflexivity).
  assert (H3 : Z.abs (24000 * (100 - 10)) < 10 ^ prec)
    by (vm_compute; reflexivity).
  split; [exact H1|]. split; [exact H2|]. split; [exact H3|].
  destruct (price_with_pix_discount_half_even 10 (Dec 24000 (-2))) as [_ H].
  destruct (H 24000 (-2) eq_refl H1 H2 H3) as [_ H4].
  rewrite (H4 eq_refl). vm_compute. reflexivity.
Defined.

(** C1 as the specification words it (half-up) fails: 0.05 at 10 percent is
    0.045, which the code rounds to 0.04 and half-up rounds to 0.05. *)
Lemma price_with_pix_discount_not_half_up :
  price_with_pix_discount 10 (Dec 5 (-2)) = Ok (Dec 4 (-2)) /\
  spec_price_with_discount 10 (Dec 5 (-2)) = Dec 5 (-2) /\
  price_with_pix_discount 10 (Dec 5 (-2))
  <> Ok (spec_price_with_discount 10 (Dec 5 (-2))).
Proof.
  vm_compute. repeat split; try reflexivity. discriminate.
Qed.

Lemma dec_compare_cents (a b : Z) :
  dec_compare (Dec a (-2)) (Dec b (-2)) = Some (a ?= b).
Proof.
  unfold dec_compare. rewrite Z.min_id, Z.sub_diag.
  change (10 ^ 0) with 1. rewrite !Z.mul_1_r. reflexivity.
Qed.

Lemma dec_le_cents (a b : Z) : dec_le (Dec a (-2)) (Dec b (-2)) <-> a <= b.
Proof.
  unfold dec_le. rewrite dec_compare_cents. split.
  - intros [H|H]; injection H as H1.
    + change (a < b) in H1. lia.
    + apply Z.compare_eq_iff in H1. lia.
  - intros H. destruct (Z.compare_spec a b); auto. lia.
Qed.

Lemma dec_eq_cents (a b : Z) : dec_eq (Dec a (-2)) (Dec b (-2)) <-> a = b.
Proof.
  unfold dec_eq. rewrite dec_compare_cents. split.
  - intros H. injection H as H1. apply Z.compare_eq_iff in H1. exact H1.
  - intros ->. rewrite Z.compare_refl. reflexivity.
Qed.

(** Rounding a discounted amount of cents: never above the amount, and
    equal to it exactly when the discount [c * d / 100] is below half a
    cent, or is half a cent with [c] even. *)
Lemma round_discount_cents (c d : Z) :
  0 <= c -> 0 <= d <= 100 ->
  let r := round_half_even (c * (100 - d)) 100 in
  r <= c /\
  (r = c <-> c * d < 50 \/ (c * d = 50 /\ Z.even c = true)).
Proof.
  intros Hc Hd. cbv zeta. unfold round_half_even.
  pose proof (Z.div_mod (c * (100 - d)) 100 ltac:(lia)) as Hdm.
  pose proof (Z.mod_pos_bound (c * (100 - d)) 100 ltac:(lia)) as Hr.
  set (q := c * (100 - d) / 100) in *.
  set (rm := c * (100 - d) mod 100) in *.
  assert (Hx : 0 <= c * d <= 100 * c) by nia.
  set (x := c * d) in *.
  assert (Hn : c * (100 - d) = 100 * c - x) by (subst x; ring).
  rewrite Hn in Hdm. clear Hn.
  destruct (2 * rm <? 100) eqn:E1;
    [apply Z.ltb_lt in E1|apply Z.ltb_ge in E1].
  - split; [lia|]. split; [intros; lia|].
    intros [Hx1|[Hx1 _]]; lia.
  - destruct (100 <? 2 * rm) eqn:E2;
      [apply Z.ltb_lt in E2|apply Z.ltb_ge in E2].
    + split; [lia|]. split; [intros; lia|].
      intros [Hx1|[Hx1 _]]; lia.
    + assert (Hrm : rm = 50) by lia.
      destruct (Z.even q) eqn:E3.
      * split; [lia|]. split; [intros; lia|].
        intros [Hx1|[Hx1 He]]; [lia|].
        assert (Hcq : c = q + 1) by lia.
        rewrite Hcq, Z.even_add, E3 in He. discriminate.
      * split; [lia|]. split.
        -- intros Hx1. right. split; [lia|]. rewrite <- Hx1.
           rewrite Z.even_add, E3. reflexivity.
        -- intros [Hx1|[Hx1 _]]; lia.
Qed.

(** C7 (amended): for a non-negative price of [c] cents within the context
    precision and a percent [d] in [0,100], the discounted price exists and
    is at most the price; it equals the price when [d = 0], and in general
    exactly when the discount [c * d / 100] rounds away: it is below half a
    cent, or it is half a cent and [c] is even. *)
Theorem price_with_pix_discount_le (c d : Z) :
  0 <= c < 10 ^ 26 -> 0 <= d <= 100 ->
  exists r,
    price_with_pix_discount d (Dec c (-2)) = Ok r /\
    dec_le r (Dec c (-2)) /\
    (d = 0 -> dec_eq r (Dec c (-2))) /\
    (dec_eq r (Dec c (-2)) <->
     c * d < 50 \/ (c * d = 50 /\ Z.even c = true)).
Proof.
  intros Hc Hd.
  destruct (Z.eq_dec d 0) as [->|Hd0].
  - exists (Dec c (-2)). split; [reflexivity|].
    split; [apply dec_le_cents; lia|].
    split; [intros _; apply dec_eq_cents; reflexivity|].
    split; [intros _; left; lia|intros _; apply dec_eq_cents; reflexivity].
  - assert (Hp : (10 : Z) ^ prec = 100 * 10 ^ 26) by reflexivity.
    exists (Dec (round_half_even (c * (100 - d)) 100) (-2)).
    split; [apply price_with_pix_discount_cents; [lia|lia|rewrite Hp; nia]|].
    pose proof (round_discount_cents c d ltac:(lia) Hd) as [Hle Heq].
    split; [apply dec_le_cents; exact Hle|].
    split; [intros; lia|].
    rewrite dec_eq_cents. exact Heq.
Qed.

Lemma price_with_pix_discount_le_witness :
  0 <= 24000 < 10 ^ 26 /\ 0 <= 10 <= 100 /\
  exists r,
    price_with_pix_discount 10 (Dec 24000 (-2)) = Ok r /\
    dec_le r (Dec 24000 (-2)) /\
    (10 = 0 -> dec_eq r (Dec 24000 (-2))) /\
    (dec_eq r (Dec 24000 (-2)) <->
     24000 * 10 < 50 \/ (24000 * 10 = 50 /\ Z.even 24000 = true)).
Proof.
  assert (H1 : 0 <= 24000 < 10 ^ 26) by (split; [lia|vm_compute; reflexivity]).
  assert (H2 : 0 <= 10 <= 100) by lia.
  split; [exact H1|]. split; [exact H2|].
  exact (price_with_pix_discount_le 24000 10 H1 H2).
Defined.

(** C7 as stated fails: one cent at 10 percent is 0.009, which rounds back
    to one cent, so the discounted price equals the price although the
    percent is not zero. *)
Lemma price_with_pix_discount_equal_at_10_percent :
  price_with_pix_discount 10 (Dec 1 (-2)) = Ok (Dec 1 (-2)) /\
  ~ (dec_eq (Dec 1 (-2)) (Dec 1 (-2)) <-> 10 = 0).
Proof.
  split; [vm_compute; reflexivity|].
  intros [H _]. assert (10 = 0) by (apply H; vm_compute; reflexivity).
  discriminate.
Qed.

(* ================================================================== *)
(** * The cart total *)
(* ================================================================== *)

Lemma in_cents_inv (d : Decimal) :
  in_cents d = true -> d = Dec (coef_of d) (-2).
Proof.
  destruct d as [m e| |]; simpl; try discriminate.
  intros H. apply Z.eqb_eq in H. subst. reflexivity.
Qed.

Lemma product_get_in (db : Database) (pid : Z) (p : Product) :
  product_get db pid = Some p -> In p (products db) /\ product_id p = pid.
Proof.
  unfold product_get. intros H. apply find_some in H.
  destruct H as [Hin Hid]. apply Z.eqb_eq in Hid. auto.
Qed.

Lemma product_get_cents (db : Database) (pid : Z) (p : Product) :
  catalog_in_cents db = true -> product_get db pid = Some p ->
  product_price p = Dec (coef_of (product_price p)) (-2).
Proof.
  intros Hc Hg. apply product_get_in in Hg. destruct Hg as [Hin _].
  unfold catalog_in_cents in Hc. rewrite forallb_forall in Hc.
  apply in_cents_inv. apply Hc. exact Hin.
Qed.

Lemma surviving_cents (db : Database) (c : Cart) :
  catalog_in_cents db = true ->
  Forall (fun pq => product_price (fst pq)
                    = Dec (coef_of (product_price (fst pq))) (-2))
    (surviving db c).
Proof.
  intros Hc. induction c as [|[k q] rest IH]; simpl; [constructor|].
  destruct (py_int k) as [pid|]; [|exact IH].
  destruct (product_get db pid) as [p|] eqn:Hg; [|exact IH].
  destruct (product_is_active p); [|exact IH].
  constructor; [|exact IH]. simpl. eapply product_get_cents; eauto.
Qed.

Lemma dec_mul_cents_int (m q : Z) :
  Z.abs (m * q) < 10 ^ prec ->
  dec_mul (Dec m (-2)) (dec_of_int q) = Ok (Dec (m * q) (-2)).
Proof.
  intros H. unfold dec_mul, dec_of_int. cbn [check_nans].
  rewrite dec_fix_in_prec by (apply in_prec_lt; exact H).
  reflexivity.
Qed.

Lemma dec_quantize_cents (m : Z) :
  Z.abs m < 10 ^ prec -> dec_quantize (Dec m (-2)) cent = Ok (Dec m (-2)).
Proof.
  intros H. unfold dec_quantize, cent. cbn [check_nans].
  rewrite rescale_exact. apply in_prec_lt in H. rewrite H. reflexivity.
Qed.

(** Adding two decimals of the same exponent, the sum within the
    precision. *)
Lemma dec_add_same_exp (a b e : Z) :
  Z.abs (a + b) < 10 ^ prec ->
  dec_add (Dec a e) (Dec b e) = Ok (Dec (a + b) e).
Proof.
  intros H. unfold dec_add. cbn [check_nans].
  rewrite Z.min_id.
  assert (Hmax : Z.max e (e - prec - 1) = e) by (unfold prec; lia).
  rewrite Hmax, !rescale_exact, Z.sub_diag.
  change (10 ^ 0) with 1. rewrite !Z.mul_1_r.
  destruct (a =? 0) eqn:Ea; destruct (b =? 0) eqn:Eb; cbn [andb];
    try apply Z.eqb_eq in Ea; try apply Z.eqb_eq in Eb; subst;
    rewrite dec_fix_in_prec;
    try (apply in_prec_lt; first [exact H | simpl in H; exact H]);
    try (rewrite ?Z.add_0_l, ?Z.add_0_r; reflexivity).
  apply in_prec_lt. rewrite Z.add_0_r in H. exact H.
Qed.

(** [0 + x] for the integer zero [sum] starts from. *)
Lemma dec_add_zero_cents (b : Z) :
  Z.abs b < 10 ^ prec ->
  dec_add (dec_of_int 0) (Dec b (-2)) = Ok (Dec b (-2)).
Proof.
  intros H. unfold dec_add, dec_of_int. cbn [check_nans].
  change (0 =? 0) with true. cbn [andb].
  change (Z.min 0 (-2)) with (-2).
  change (Z.max (-2) (-2 - prec - 1)) with (-2).
  rewrite rescale_exact.
  destruct (b =? 0) eqn:Eb.
  - apply Z.eqb_eq in Eb. subst. reflexivity.
  - rewrite dec_fix_in_prec by (apply in_prec_lt; exact H). reflexivity.
Qed.

Lemma magnitude_nonneg (l : list (Product * Z)) : 0 <= magnitude l.
Proof. induction l as [|[p q] l IH]; simpl; lia. Qed.

(** The pricing loop on a well-formed cart: it appends the surviving lines
    and adds their amounts, exactly. *)
Lemma price_lines_exact (db : Database) :
  catalog_in_cents db = true ->
  forall (c : Cart) (items : list Line) (t : Z),
    keys_parse c = true ->
    Z.abs t + magnitude (surviving db c) < 10 ^ prec ->
    price_lines db c items (Dec t (-2))
    = Ok ((items ++ map line_of (surviving db c))%list,
          Dec (t + cents_sum (surviving db c)) (-2)).
Proof.
  intros Hcat. induction c as [|[k q] rest IH]; intros items t Hk Hm.
  - cbn. rewrite app_nil_r, Z.add_0_r. reflexivity.
  - unfold keys_parse in Hk. cbn [forallb fst] in Hk.
    apply andb_prop in Hk. destruct Hk as [Hk1 Hk2].
    cbn [surviving price_lines] in Hm |- *.
    destruct (py_int k) as [pid|]; [|discriminate]. cbn [bind].
    destruct (product_get db pid) as [p|] eqn:Hg;
      [|apply IH; assumption].
    destruct (product_is_active p); [|apply IH; assumption].
    pose proof (product_get_cents db pid p Hcat Hg) as Hp.
    cbn [magnitude cents_sum map] in Hm |- *.
    set (m := coef_of (product_price p)) in *.
    pose proof (magnitude_nonneg (surviving db rest)) as Hmag.
    rewrite Hp, dec_mul_cents_int by lia. cbn [bind].
    rewrite dec_quantize_cents by lia. cbn [bind].
    rewrite dec_add_same_exp by lia. cbn [bind].
    rewrite IH by (try assumption; lia).
    rewrite <- app_assoc. cbn [app].
    unfold line_of at 2. cbn [fst snd]. fold m.
    f_equal. f_equal. f_equal. lia.
Qed.

Lemma cents_sum_bound (l : list (Product * Z)) :
  Z.abs (cents_sum l) <= magnitude l.
Proof. induction l as [|[p q] l IH]; simpl; lia. Qed.

(** Summing the raw products first, from a running sum in cents. *)
Lemma spec_sum_exact (l : list (Product * Z)) :
  Forall (fun pq => product_price (fst pq)
                    = Dec (coef_of (product_price (fst pq))) (-2)) l ->
  forall t,
    Z.abs t + magnitude l < 10 ^ prec ->
    spec_sum l (Dec t (-2)) = Ok (Dec (t + cents_sum l) (-2)).
Proof.
  induction 1 as [|[p q] l Hp Hl IH]; intros t Hm;
    cbn [spec_sum magnitude cents_sum fst] in *.
  - rewrite Z.add_0_r. reflexivity.
  - pose proof (magnitude_nonneg l).
    set (m := coef_of (product_price p)) in *.
    rewrite Hp, dec_mul_cents_int by lia. cbn [bind].
    rewrite dec_add_same_exp by lia. cbn [bind].
    rewrite IH by lia. f_equal. f_equal. lia.
Qed.

(** The total worded by the specification, on a well-formed cart. *)
Lemma spec_cart_total_exact (db : Database) (c : Cart) :
  catalog_in_cents db = true ->
  magnitude (surviving db c) < 10 ^ prec ->
  spec_cart_total db c = Ok (Dec (cents_sum (surviving db c)) (-2)).
Proof.
  intros Hcat Hm. unfold spec_cart_total.
  pose proof (surviving_cents db c Hcat) as Hf.
  pose proof (cents_sum_bound (surviving db c)) as Hb.
  destruct (surviving db c) as [|[p q] l] eqn:Hs.
  - vm_compute. reflexivity.
  - inversion Hf as [|x y Hp Hl]; subst.
    cbn [spec_sum magnitude cents_sum fst] in Hp, Hm, Hb |- *.
    pose proof (magnitude_nonneg l). pose proof (cents_sum_bound l).
    set (m := coef_of (product_price p)) in *.
    rewrite Hp, dec_mul_cents_int by lia. cbn [bind].
    rewrite dec_add_zero_cents by lia. cbn [bind].
    rewrite spec_sum_exact by (try assumption; lia). cbn [bind].
    apply dec_quantize_cents. lia.
Qed.

Lemma py_int_raises (s : string) (e : exn) :
  py_int s = Raise e -> e = ValueError.
Proof.
  unfold py_int. cbv zeta.
  match goal with
  | |- match ?b with Some _ => _ | None => _ end = _ -> _ => destruct b
  end; [destruct (int_max_str_digits <? _); [|discriminate]|];
    intros H; injection H as <-; reflexivity.
Qed.

(** On a cart with a key that is not an integer literal the loop raises
    ValueError at that key. *)
Lemma price_lines_foreign_key (db : Database) :
  catalog_in_cents db = true ->
  forall (c : Cart) (items : list Line) (t : Z),
    keys_parse c = false ->
    Z.abs t + magnitude (surviving db c) < 10 ^ prec ->
    price_lines db c items (Dec t (-2)) = Raise ValueError.
Proof.
  intros Hcat. induction c as [|[k q] rest IH]; intros items t Hk Hm.
  - discriminate.
  - unfold keys_parse in Hk. cbn [forallb fst] in Hk.
    cbn [surviving price_lines] in Hm |- *.
    destruct (py_int k) as [pid|e] eqn:Hp; cbn [bind].
    + cbn [andb] in Hk.
      destruct (product_get db pid) as [p|] eqn:Hg;
        [|apply IH; assumption].
      destruct (product_is_active p); [|apply IH; assumption].
      pose proof (product_get_cents db pid p Hcat Hg) as Hpr.
      cbn [magnitude] in Hm.
      set (m := coef_of (product_price p)) in *.
      pose proof (magnitude_nonneg (surviving db rest)) as Hmag.
      rewrite Hpr, dec_mul_cents_int by lia. cbn [bind].
      rewrite dec_quantize_cents by lia. cbn [bind].
      rewrite dec_add_same_exp by lia. cbn [bind].
      apply IH; [exact Hk|lia].
    + rewrite (py_int_raises k e Hp). reflexivity.
Qed.

(** X16: over a catalog priced in cents, with amounts within the context
    precision, the cart view of a cart whose keys all read as integers
    returns the surviving lines and a total that is the sum of
    [price * qty] over them, and that total is the very value obtained by
    summing the unrounded products first and rounding the sum once; on a
    cart with a key that does not read as an integer the view raises
    ValueError and there is no total. *)
Theorem cart_view_total (db : Database) (c : Cart) :
  catalog_in_cents db = true ->
  magnitude (surviving db c) < 10 ^ prec ->
  (keys_parse c = true ->
   exists items total,
     cart_view db c = Ok (items, total) /\
     items = map line_of (surviving db c) /\
     total = Dec (cents_sum (surviving db c)) (-2) /\
     spec_cart_total db c = Ok total) /\
  (keys_parse c = false -> cart_view db c = Raise ValueError).
Proof.
  intros Hcat Hm. split.
  - intros Hk.
    exists (map line_of (surviving db c)),
           (Dec (cents_sum (surviving db c)) (-2)).
    split.
    + unfold cart_view.
      rewrite price_lines_exact by (try assumption; rewrite Z.abs_0; lia).
      reflexivity.
    + split; [reflexivity|]. split; [reflexivity|].
      apply spec_cart_total_exact; assumption.
  - intros Hk. unfold cart_view.
    apply price_lines_foreign_key; first [assumption | rewrite Z.abs_0; lia].
Qed.

Lemma cart_view_total_witness :
  catalog_in_cents sample_db = true /\
  magnitude (surviving sample_db sample_cart) < 10 ^ prec /\
  keys_parse sample_cart = true /\
  exists items total,
    cart_view sample_db sample_cart = Ok (items, total) /\
    items = map line_of (surviving sample_db sample_cart) /\
    total = Dec (cents_sum (surviving sample_db sample_cart)) (-2) /\
    spec_cart_total sample_db sample_cart = Ok total.
Proof.
  assert (H1 : catalog_in_cents sample_db = true) by reflexivity.
  assert (H2 : magnitude (surviving sample_db sample_cart) < 10 ^ prec)
    by (vm_compute; reflexivity).
  assert (H3 : keys_parse sample_cart = true) by reflexivity.
  split; [exact H1|]. split; [exact H2|]. split; [exact H3|].
  destruct (cart_view_total sample_db sample_cart H1 H2) as [H _].
  exact (H H3).
Defined.

(** C2: the total of the cart page is not the sum over the surviving
    lines on every cart. The form field [qty_abc] of a cart update leaves
    the key ["abc"] in the cart; the only surviving line is then product 1
    twice, whose sum rounded once is 240.00, while the cart page, which
    reads every key with an unguarded [int(pid_str)] before it looks the
    product up, raises ValueError and shows no total. *)
Theorem cart_view_total_foreign_key :
  cart_update [("qty_abc", "2")] [("1", 2)]
  = (Redirect ep_cart_view [("Carrinho atualizado", success)],
     [("1", 2); ("abc", 2)]) /\
  surviving sample_db [("1", 2); ("abc", 2)]
  = [(mkProduct 1 "Bolsa Floral" "Bolsa artesanal" (Dec 12000 (-2)) true, 2)] /\
  spec_cart_total sample_db [("1", 2); ("abc", 2)] = Ok (Dec 24000 (-2)) /\
  cart_view sample_db [("1", 2); ("abc", 2)] = Raise ValueError /\
  cart_view sample_db [("1", 2)]
  = Ok ([mkLine (mkProduct 1 "Bolsa Floral" "Bolsa artesanal"
                   (Dec 12000 (-2)) true) 2 (Dec 24000 (-2))],
        Dec 24000 (-2)).
Proof. repeat split; vm_compute; reflexivity. Qed.

Example cart_view_sample :
  cart_view sample_db sample_cart
  = Ok ([mkLine (mkProduct 1 "Bolsa Floral" "Bolsa artesanal"
                   (Dec 12000 (-2)) true) 2 (Dec 24000 (-2))],
        Dec 24000 (-2)).
Proof. vm_compute. reflexivity. Qed.

(* ================================================================== *)
(** * [create_order] *)
(* ================================================================== *)

Lemma items_sum_snapshot (oid : Z) (l : list (Product * Z)) :
  forall acc, items_sum (map (snapshot oid) l) acc = spec_sum l acc.
Proof.
  induction l as [|[p q] l IH]; intros acc; cbn [map items_sum spec_sum].
  - reflexivity.
  - cbn [snapshot unit_price item_qty fst snd].
    destruct (dec_mul (product_price p) (dec_of_int q)) as [raw|];
      cbn [bind]; [|reflexivity].
    destruct (dec_add acc raw) as [acc'|]; cbn [bind]; [apply IH|reflexivity].
Qed.

(** Summing from the integer zero, over at least one line. *)
Lemma spec_sum_from_zero (l : list (Product * Z)) :
  l <> [] ->
  Forall (fun pq => product_price (fst pq)
                    = Dec (coef_of (product_price (fst pq))) (-2)) l ->
  magnitude l < 10 ^ prec ->
  spec_sum l (dec_of_int 0) = Ok (Dec (cents_sum l) (-2)).
Proof.
  intros Hne Hf Hm. destruct l as [|[p q] l]; [congruence|].
  inversion Hf as [|x y Hp Hl]; subst.
  cbn [spec_sum magnitude cents_sum fst] in Hp, Hm |- *.
  pose proof (magnitude_nonneg l).
  set (m := coef_of (product_price p)) in *.
  rewrite Hp, dec_mul_cents_int by lia. cbn [bind].
  rewrite dec_add_zero_cents by lia. cbn [bind].
  apply spec_sum_exact; [assumption|lia].
Qed.

Lemma price_lines_none_survive (db : Database) :
  forall (c : Cart) (items : list Line) (total : Decimal),
    keys_parse c = true -> surviving db c = [] ->
    price_lines db c items total = Ok (items, total).
Proof.
  induction c as [|[k q] rest IH]; intros items total Hk Hs; [reflexivity|].
  unfold keys_parse in Hk. cbn [forallb fst] in Hk.
  apply andb_prop in Hk. destruct Hk as [Hk1 Hk2].
  cbn [surviving price_lines] in Hs |- *.
  destruct (py_int k) as [pid|]; [|discriminate]. cbn [bind].
  destruct (product_get db pid) as [p|]; [|apply IH; assumption].
  destruct (product_is_active p); [discriminate|apply IH; assumption].
Qed.

Lemma surviving_current (db : Database) (c : Cart) :
  Forall (fun pq => product_get db (product_id (fst pq)) = Some (fst pq))
    (surviving db c).
Proof.
  induction c as [|[k q] rest IH]; cbn [surviving]; [constructor|].
  destruct (py_int k) as [pid|]; [|exact IH].
  destruct (product_get db pid) as [p|] eqn:Hg; [|exact IH].
  destruct (product_is_active p); [|exact IH].
  constructor; [|exact IH]. cbn [fst].
  pose proof (product_get_in db pid p Hg) as [_ Hid].
  rewrite Hid. exact Hg.
Qed.

Lemma price_lines_keys (db : Database) :
  forall (c : Cart) (items : list Line) (total : Decimal) r,
    price_lines db c items total = Ok r -> keys_parse c = true.
Proof.
  induction c as [|[k q] rest IH]; intros items total r H; [reflexivity|].
  unfold keys_parse. cbn [forallb fst]. cbn [price_lines] in H.
  destruct (py_int k) as [pid|]; [|discriminate]. cbn [bind andb] in H |- *.
  destruct (product_get db pid) as [p|]; [|eapply IH; eassumption].
  destruct (product_is_active p); [|eapply IH; eassumption].
  destruct (dec_mul (product_price p) (dec_of_int q)) as [raw|];
    [|discriminate]. cbn [bind] in H.
  destruct (dec_quantize raw cent) as [sub|]; [|discriminate].
  cbn [bind] in H.
  destruct (dec_add total sub) as [t'|]; [|discriminate]. cbn [bind] in H.
  eapply IH; eassumption.
Qed.

(** What a successful checkout did, read off the handler. *)
Lemma create_order_success_inv (pct : Z) (form : Form) (st st' : State)
  (oid : Z) (fl : list (string * Category)) :
  create_order pct form st = Ok (Redirect (ep_order_success oid) fl, st') ->
  exists items total total_pix pm,
    price_lines (st_db st) (st_cart st) [] (Dec 0 (-2)) = Ok (items, total) /\
    items <> [] /\
    price_with_pix_discount pct total = Ok total_pix /\
    st' = mkState
            (mkDatabase (products (st_db st)) (images (st_db st))
               (orders (st_db st) ++
                [mkOrder oid (field form "customer_name")
                   (field form "whatsapp") (field form "city_state")
                   (field form "address") (field form "notes") pm
                   (if String.eqb pm "pix" then total_pix else total)
                   total "Aguardando pagamento"])
               (order_items (st_db st) ++ map (order_item_of oid) items))
            [].
Proof.
  unfold create_order, field. intros H.
  destruct (st_cart st) as [|kv rest] eqn:Hc; [discriminate|].
  destruct (is_empty (strip (or_default (form_get form "customer_name") ""))
            || is_empty (strip (or_default (form_get form "whatsapp") "")));
    [discriminate|].
  destruct (price_lines (st_db st) (kv :: rest) [] (Dec 0 (-2)))
    as [[items total]|] eqn:Hp; [|discriminate].
  cbn [bind] in H.
  destruct items as [|l ls]; [discriminate|].
  destruct (price_with_pix_discount pct total) as [total_pix|] eqn:Hd;
    [|discriminate].
  cbn [bind] in H. injection H as Hoid _ Hst. subst oid.
  eexists (l :: ls), total, total_pix, _.
  split; [reflexivity|].
  split; [discriminate|]. split; [exact Hd|].
  symmetry. exact Hst.
Qed.

(** C3: a successful checkout, over a catalog priced in cents and with
    amounts within the context precision, appends one order and one item
    per surviving cart line; each item carries the name and price the
    product has at that moment; [amount_original] is the sum of
    [unit_price * qty] over those items; [amount] is that sum put through
    the configured discount when the payment method is pix, and the sum
    itself otherwise. *)
Theorem create_order_amounts (pct : Z) (form : Form) (st st' : State)
  (oid : Z) (fl : list (string * Category)) :
  catalog_in_cents (st_db st) = true ->
  magnitude (surviving (st_db st) (st_cart st)) < 10 ^ prec ->
  create_order pct form st = Ok (Redirect (ep_order_success oid) fl, st') ->
  exists order,
    orders (st_db st') = (orders (st_db st) ++ [order])%list /\
    order_items (st_db st')
    = (order_items (st_db st)
       ++ map (snapshot oid) (surviving (st_db st) (st_cart st)))%list /\
    Forall (fun pq => product_get (st_db st) (product_id (fst pq))
                      = Some (fst pq))
      (surviving (st_db st) (st_cart st)) /\
    order_id order = oid /\
    items_sum (map (snapshot oid) (surviving (st_db st) (st_cart st)))
      (dec_of_int 0) = Ok (amount_original order) /\
    (payment_method order = "pix" ->
     price_with_pix_discount pct (amount_original order)
     = Ok (amount order)) /\
    (payment_method order <> "pix" ->
     amount order = amount_original order).
Proof.
  intros Hcat Hm H.
  apply create_order_success_inv in H.
  destruct H as (items & total & total_pix & pm & Hp & Hne & Hd & ->).
  pose proof (price_lines_keys _ _ _ _ _ Hp) as Hk.
  rewrite price_lines_exact in Hp
    by (try assumption; rewrite Z.abs_0; lia).
  cbn [app] in Hp. injection Hp as Hitems Htotal.
  try rewrite Z.add_0_l in Htotal.
  eexists. cbn [st_db orders order_items].
  split; [reflexivity|]. split.
  { f_equal. rewrite <- Hitems, map_map. reflexivity. }
  split; [apply surviving_current|].
  split; [reflexivity|].
  cbn [amount_original amount payment_method].
  split.
  { rewrite items_sum_snapshot, <- Htotal.
    apply spec_sum_from_zero.
    - intros He. apply Hne. rewrite <- Hitems, He. reflexivity.
    - apply surviving_cents. exact Hcat.
    - exact Hm. }
  split.
  - intros ->. exact Hd.
  - intros Hpm. destruct (String.eqb pm "pix") eqn:E; [|reflexivity].
    apply String.eqb_eq in E. contradiction.
Qed.

Lemma create_order_amounts_witness :
  catalog_in_cents (st_db sample_state) = true /\
  magnitude (surviving (st_db sample_state) (st_cart sample_state))
  < 10 ^ prec /\
  create_order 10 sample_form sample_state
  = Ok (Redirect (ep_order_success 1) [], sample_state_after) /\
  exists order,
    orders (st_db sample_state_after)
    = (orders (st_db sample_state) ++ [order])%list /\
    order_items (st_db sample_state_after)
    = (order_items (st_db sample_state)
       ++ map (snapshot 1)
            (surviving (st_db sample_state) (st_cart sample_state)))%list /\
    Forall (fun pq => product_get (st_db sample_state) (product_id (fst pq))
                      = Some (fst pq))
      (surviving (st_db sample_state) (st_cart sample_state)) /\
    order_id order = 1 /\
    items_sum (map (snapshot 1)
                 (surviving (st_db sample_state) (st_cart sample_state)))
      (dec_of_int 0) = Ok (amount_original order) /\
    (payment_method order = "pix" ->
     price_with_pix_discount 10 (amount_original order)
     = Ok (amount order)) /\
    (payment_method order <> "pix" ->
     amount order = amount_original order).
Proof.
  assert (H1 : catalog_in_cents (st_db sample_state) = true) by reflexivity.
  assert (H2 : magnitude (surviving (st_db sample_state)
                            (st_cart sample_state)) < 10 ^ prec)
    by (vm_compute; reflexivity).
  assert (H3 : create_order 10 sample_form sample_state
               = Ok (Redirect (ep_order_success 1) [], sample_state_after))
    by (vm_compute; reflexivity).
  split; [exact H1|]. split; [exact H2|]. split; [exact H3|].
  exact (create_order_amounts 10 sample_form sample_state sample_state_after
           1 [] H1 H2 H3).
Defined.

(** X17: checkout answers with a single warning or error message and
    returns the state it was given (no order row, same cart) whenever the
    cart is empty, the customer name or the contact handle is blank, or
    every key of the cart reads as an integer and no line survives (each
    product is gone or inactive). *)
Theorem create_order_rejects (pct : Z) (form : Form) (st : State) :
  st_cart st = []
  \/ field form "customer_name" = ""
  \/ field form "whatsapp" = ""
  \/ (keys_parse (st_cart st) = true
      /\ surviving (st_db st) (st_cart st) = []) ->
  rejected (create_order pct form st) st.
Proof.
  intros H. unfold rejected, create_order. fold (field form "customer_name").
  fold (field form "whatsapp").
  destruct (st_cart st) as [|kv rest] eqn:Hc.
  { eexists _, _, _. split; [reflexivity|discriminate]. }
  destruct (is_empty (field form "customer_name")
            || is_empty (field form "whatsapp")) eqn:Hb.
  { eexists _, _, _. split; [reflexivity|discriminate]. }
  apply orb_false_iff in Hb. destruct Hb as [Hb1 Hb2].
  destruct H as [H|[H|[H|[Hk Hs]]]].
  - discriminate.
  - rewrite H in Hb1. discriminate.
  - rewrite H in Hb2. discriminate.
  - rewrite price_lines_none_survive by assumption. cbn [bind].
    eexists _, _, _. split; [reflexivity|discriminate].
Qed.

Lemma create_order_rejects_witness :
  (keys_parse [("3", 1); ("7", 4)] = true /\
   surviving sample_db [("3", 1); ("7", 4)] = []) /\
  rejected (create_order 10 sample_form (mkState sample_db [("3", 1); ("7", 4)]))
    (mkState sample_db [("3", 1); ("7", 4)]).
Proof.
  assert (H : keys_parse [("3", 1); ("7", 4)] = true /\
              surviving sample_db [("3", 1); ("7", 4)] = [])
    by (split; reflexivity).
  split; [exact H|].
  apply (create_order_rejects 10 sample_form
           (mkState sample_db [("3", 1); ("7", 4)])).
  right. right. right. exact H.
Defined.

(** C4: checkout does not answer every cart without a surviving line
    with a validation message. The form field [qty_abc] of a cart update
    leaves the key ["abc"] in an empty cart; no line of that cart
    survives, and [create_order], with a name and a contact given, raises
    ValueError at the unguarded [int(pid_str)] of its loop, which runs
    before the test for an empty list of items: no message, no redirect.
    The same cart with a product id that is gone is answered with the
    warning. *)
Theorem create_order_foreign_key :
  cart_update [("qty_abc", "2")] []
  = (Redirect ep_cart_view [("Carrinho atualizado", success)], [("abc", 2)]) /\
  surviving sample_db [("abc", 2)] = [] /\
  field sample_form "customer_name" = "Ana" /\
  field sample_form "whatsapp" = "11 99999" /\
  create_order 10 sample_form (mkState sample_db [("abc", 2)])
  = Raise ValueError /\
  ~ rejected (create_order 10 sample_form (mkState sample_db [("abc", 2)]))
      (mkState sample_db [("abc", 2)]) /\
  create_order 10 sample_form (mkState sample_db [("7", 2)])
  = Ok (Redirect ep_index [("Carrinho vazio.", warning)],
        mkState sample_db [("7", 2)]).
Proof.
  assert (H : create_order 10 sample_form (mkState sample_db [("abc", 2)])
              = Raise ValueError) by (vm_compute; reflexivity).
  split; [vm_compute; reflexivity|].
  split; [vm_compute; reflexivity|].
  split; [vm_compute; reflexivity|].
  split; [vm_compute; reflexivity|].
  split; [exact H|].
  split; [|vm_compute; reflexivity].
  intros (target & msg & cat & Hr & _). rewrite H in Hr. discriminate.
Qed.

Example create_order_blank_name :
  create_order 10 [("customer_name", "   "); ("whatsapp", "11 9")] sample_state
  = Ok (Redirect ep_checkout
          [("Informe seu nome e WhatsApp para finalizar.", danger)],
        sample_state).
Proof. vm_compute. reflexivity. Qed.

(* ================================================================== *)
(** * The cart as a dict *)
(* ================================================================== *)

Lemma dict_get_set_same (c : Cart) (k : string) (v : Z) :
  dict_get (dict_set c k v) k = Some v.
Proof.
  induction c as [|[k' w] rest IH]; cbn [dict_set dict_get].
  - rewrite String.eqb_refl. reflexivity.
  - destruct (String.eqb k' k) eqn:E; cbn [dict_get]; rewrite E; auto.
Qed.

Lemma dict_get_set_other (c : Cart) (k k' : string) (v : Z) :
  k' <> k -> dict_get (dict_set c k v) k' = dict_get c k'.
Proof.
  intros Hne. induction c as [|[k0 w] rest IH]; cbn [dict_set dict_get].
  - destruct (String.eqb k k') eqn:E; [|reflexivity].
    apply String.eqb_eq in E. congruence.
  - destruct (String.eqb k0 k) eqn:E; cbn [dict_get].
    + apply String.eqb_eq in E. subst k0.
      destruct (String.eqb k k') eqn:E'; [|reflexivity].
      apply String.eqb_eq in E'. congruence.
    + rewrite IH. reflexivity.
Qed.

Lemma dict_get_none_notin (c : Cart) (k : string) :
  ~ In k (map fst c) -> dict_get c k = None.
Proof.
  induction c as [|[k' w] rest IH]; cbn [map fst dict_get In]; intros H.
  - reflexivity.
  - destruct (String.eqb k' k) eqn:E.
    + apply String.eqb_eq in E. tauto.
    + apply IH. tauto.
Qed.

Lemma dict_get_pop_same (c : Cart) (k : string) :
  dict_wf c -> dict_get (dict_pop c k) k = None.
Proof.
  unfold dict_wf. induction c as [|[k' w] rest IH];
    cbn [map fst dict_pop]; intros Hwf; [reflexivity|].
  inversion Hwf as [|x l Hnotin Hnd]; subst.
  destruct (String.eqb k' k) eqn:E.
  - apply String.eqb_eq in E. subst k'. apply dict_get_none_notin. exact Hnotin.
  - cbn [dict_get]. rewrite E. apply IH. exact Hnd.
Qed.

Lemma dict_get_pop_other (c : Cart) (k k' : string) :
  k' <> k -> dict_get (dict_pop c k) k' = dict_get c k'.
Proof.
  intros Hne. induction c as [|[k0 w] rest IH]; cbn [dict_pop dict_get].
  - reflexivity.
  - destruct (String.eqb k0 k) eqn:E; cbn [dict_get].
    + apply String.eqb_eq in E. subst k0.
      destruct (String.eqb k k') eqn:E'; [|reflexivity].
      apply String.eqb_eq in E'. congruence.
    + rewrite IH. reflexivity.
Qed.

Lemma dict_set_keys (c : Cart) (k : string) (v : Z) (x : string) :
  In x (map fst (dict_set c k v)) -> x = k \/ In x (map fst c).
Proof.
  induction c as [|[k0 w] rest IH]; cbn [dict_set map fst In].
  - intuition auto.
  - destruct (String.eqb k0 k) eqn:E; cbn [map fst In]; tauto.
Qed.

Lemma dict_set_wf (c : Cart) (k : string) (v : Z) :
  dict_wf c -> dict_wf (dict_set c k v).
Proof.
  unfold dict_wf. induction c as [|[k0 w] rest IH];
    cbn [dict_set map fst]; intros Hwf.
  - constructor; [intros []|constructor].
  - inversion Hwf as [|x l Hnotin Hnd]; subst.
    destruct (String.eqb k0 k) eqn:E; cbn [map fst].
    + constructor; assumption.
    + constructor; [|apply IH; exact Hnd].
      intros Hin. apply dict_set_keys in Hin. destruct Hin as [->|Hin].
      * rewrite String.eqb_refl in E. discriminate.
      * contradiction.
Qed.

Lemma dict_pop_keys (c : Cart) (k x : string) :
  In x (map fst (dict_pop c k)) -> In x (map fst c).
Proof.
  induction c as [|[k0 w] rest IH]; cbn [dict_pop map fst In]; [tauto|].
  destruct (String.eqb k0 k); cbn [map fst In]; tauto.
Qed.

Lemma dict_pop_wf (c : Cart) (k : string) :
  dict_wf c -> dict_wf (dict_pop c k).
Proof.
  unfold dict_wf. induction c as [|[k0 w] rest IH];
    cbn [dict_pop map fst]; intros Hwf; [constructor|].
  inversion Hwf as [|x l Hnotin Hnd]; subst.
  destruct (String.eqb k0 k); cbn [map fst]; [exact Hnd|].
  constructor; [|apply IH; exact Hnd].
  intros Hin. apply dict_pop_keys in Hin. contradiction.
Qed.

Lemma clamp_qty_range (q : Z) : 1 <= clamp_qty q <= 99.
Proof. unfold clamp_qty. lia. Qed.

Lemma clamp_qty_id (q : Z) : 1 <= q <= 99 -> clamp_qty q = q.
Proof. unfold clamp_qty. lia. Qed.

(* ================================================================== *)
(** * [cart_update] *)
(* ================================================================== *)

(** C5 (amended): for a form field [qty_<pid>] of a cart-update request, a
    quantity that parses to zero or less removes the line; a quantity that
    parses to a positive number is clamped to [1,99] (itself up to 99, and
    99 beyond) and replaces the previous value; a quantity that does not
    parse, which includes a literal of more than 4300 digits, is taken as
    1, so the line is set to 1 (not removed). No other line changes, and
    the cart stays a dict. *)
Theorem cart_update_entry_spec (c : Cart) (key val : string) :
  dict_wf c ->
  startswith "qty_" key = true ->
  let pid := remove_all "qty_" key in
  let c' := cart_update_entry c (key, val) in
  dict_wf c' /\
  (forall k, k <> pid -> dict_get c' k = dict_get c k) /\
  (forall q, py_int val = Ok q -> q <= 0 -> dict_get c' pid = None) /\
  (forall q, py_int val = Ok q -> 0 < q ->
             dict_get c' pid = Some (Z.min q 99) /\ 1 <= Z.min q 99 <= 99) /\
  (forall e, py_int val = Raise e -> dict_get c' pid = Some 1) /\
  (py_int "abc" = Raise ValueError /\
   py_int (replicate 4301 "9") = Raise ValueError /\
   py_int (replicate 4300 "9") = Ok (10 ^ 4300 - 1)).
Proof.
  intros Hwf Hs. cbv zeta. unfold cart_update_entry. rewrite Hs. cbn [negb].
  set (pid := remove_all "qty_" key).
  destruct (py_int val) as [q|e] eqn:Hq.
  - destruct (q <=? 0) eqn:E;
      [apply Z.leb_le in E|apply Z.leb_gt in E].
    + split; [apply dict_pop_wf; exact Hwf|].
      split; [intros k Hk; apply dict_get_pop_other; exact Hk|].
      split; [intros; apply dict_get_pop_same; exact Hwf|].
      split; [intros q' Hq' Hpos; injection Hq' as <-; lia|].
      split; [intros e He; discriminate|].
      split; [|split]; vm_compute; reflexivity.
    + split; [apply dict_set_wf; exact Hwf|].
      split; [intros k Hk; apply dict_get_set_other; exact Hk|].
      split; [intros q' Hq' Hle; injection Hq' as <-; lia|].
      split; [|split; [intros e He; discriminate
                      |split; [|split]; vm_compute; reflexivity]].
      intros q' Hq' _. injection Hq' as <-.
      replace (Z.min q 99) with (clamp_qty q) by (unfold clamp_qty; lia).
      split; [apply dict_get_set_same|apply clamp_qty_range].
  - change (1 <=? 0) with false. cbv iota.
    split; [apply dict_set_wf; exact Hwf|].
    split; [intros k Hk; apply dict_get_set_other; exact Hk|].
    split; [intros q Hq'; discriminate|].
    split; [intros q Hq'; discriminate|].
    split; [intros e' _; apply dict_get_set_same|].
    split; [|split]; vm_compute; reflexivity.
Qed.

Lemma cart_update_entry_spec_witness :
  dict_wf [("1", 5); ("2", 3)] /\
  startswith "qty_" "qty_1" = true /\
  dict_get (cart_update_entry [("1", 5); ("2", 3)] ("qty_1", "250")) "1"
  = Some 99 /\
  dict_get (cart_update_entry [("1", 5); ("2", 3)] ("qty_1", "7")) "1"
  = Some 7 /\
  dict_get (cart_update_entry [("1", 5); ("2", 3)] ("qty_1", "0")) "1"
  = None /\
  dict_get
    (cart_update_entry [("1", 5); ("2", 3)] ("qty_1", replicate 4301 "9")) "1"
  = Some 1.
Proof.
  assert (H1 : dict_wf [("1", 5); ("2", 3)]).
  { unfold dict_wf. cbn. repeat constructor; cbn; intuition discriminate. }
  assert (H2 : startswith "qty_" "qty_1" = true) by reflexivity.
  split; [exact H1|]. split; [exact H2|].
  split; [|split; [|split]].
  - destruct (cart_update_entry_spec [("1", 5); ("2", 3)] "qty_1" "250" H1 H2)
      as (_ & _ & _ & H & _).
    destruct (H 250 eq_refl ltac:(lia)) as [Hget _].
    exact Hget.
  - destruct (cart_update_entry_spec [("1", 5); ("2", 3)] "qty_1" "7" H1 H2)
      as (_ & _ & _ & H & _).
    destruct (H 7 eq_refl ltac:(lia)) as [Hget _].
    exact Hget.
  - destruct (cart_update_entry_spec [("1", 5); ("2", 3)] "qty_1" "0" H1 H2)
      as (_ & _ & H & _).
    exact (H 0 eq_refl ltac:(lia)).
  - destruct (cart_update_entry_spec [("1", 5); ("2", 3)] "qty_1"
                (replicate 4301 "9") H1 H2)
      as (_ & _ & _ & _ & H & Hlong).
    exact (H ValueError (proj1 (proj2 Hlong))).
Defined.

(** C5 as stated fails: an unparsable quantity does not remove the line, it
    sets it to 1. *)
Lemma cart_update_unparsable_keeps_line :
  py_int "abc" = Raise ValueError /\
  cart_update [("qty_1", "abc")] [("1", 5); ("2", 3)]
  = (Redirect ep_cart_view [("Carrinho atualizado", success)],
     [("1", 1); ("2", 3)]) /\
  dict_get (snd (cart_update [("qty_1", "abc")] [("1", 5); ("2", 3)])) "1"
  <> None.
Proof.
  split; [reflexivity|]. split; [reflexivity|]. cbn. discriminate.
Qed.

(* ================================================================== *)
(** * [cart_add] *)
(* ================================================================== *)

(** C8: adding an active product whose submitted quantity reads as [q]
    stores the previous quantity of that product plus [q] clamped to
    [1,99], that is plus [max(1, min(q, 99))], and just the clamped [q]
    when the product was not in the cart; the sum is stored as it is, and
    it can exceed 99: 60 added onto 60 leaves 120, 250 added onto 98
    leaves 197. No other line changes. *)
Theorem cart_add_accumulates :
  (forall (db : Database) (pid : Z) (form : Form) (c : Cart)
          (p : Product) (q : Z),
      product_get db pid = Some p ->
      product_is_active p = true ->
      py_int (str_or (form_get_default form "qty" "1") "1") = Ok q ->
      exists c',
        cart_add db pid form c
        = Ok (Redirect ep_cart_view [("Adicionado ao carrinho", success)],
              c') /\
        (forall old,
            dict_get c (py_str pid) = Some old ->
            dict_get c' (py_str pid) = Some (old + Z.max 1 (Z.min q 99))) /\
        (dict_get c (py_str pid) = None ->
         dict_get c' (py_str pid) = Some (Z.max 1 (Z.min q 99))) /\
        (forall k, k <> py_str pid -> dict_get c' k = dict_get c k)) /\
  (cart_add sample_db 1 [("qty", "60")] [("1", 60)]
   = Ok (Redirect ep_cart_view [("Adicionado ao carrinho", success)],
         [("1", 120)]) /\
   cart_add sample_db 1 [("qty", "250")] [("1", 98)]
   = Ok (Redirect ep_cart_view [("Adicionado ao carrinho", success)],
         [("1", 197)]) /\
   cart_add sample_db 1 [("qty", "-4")] [("2", 3)]
   = Ok (Redirect ep_cart_view [("Adicionado ao carrinho", success)],
         [("2", 3); ("1", 1)]) /\
   99 < 120).
Proof.
  split.
  - intros db pid form c p q Hg Ha Hq. unfold cart_add.
    rewrite Hg, Ha. cbn [negb]. rewrite Hq. cbn [bind].
    eexists. split; [reflexivity|].
    unfold clamp_qty, dict_get_default. rewrite dict_get_set_same.
    split; [intros old Ho; rewrite Ho; reflexivity|].
    split; [intros Ho; rewrite Ho; reflexivity|].
    intros k Hk. apply dict_get_set_other. exact Hk.
  - split; [vm_compute; reflexivity|].
    split; [vm_compute; reflexivity|].
    split; [vm_compute; reflexivity|lia].
Qed.

Lemma cart_add_accumulates_witness :
  product_get sample_db 1
  = Some (mkProduct 1 "Bolsa Floral" "Bolsa artesanal" (Dec 12000 (-2)) true) /\
  py_int (str_or (form_get_default [("qty", "250")] "qty" "1") "1") = Ok 250 /\
  exists c',
    cart_add sample_db 1 [("qty", "250")] [("1", 2); ("3", 1)]
    = Ok (Redirect ep_cart_view [("Adicionado ao carrinho", success)], c') /\
    dict_get c' "1" = Some 101 /\
    dict_get c' "3" = Some 1.
Proof.
  split; [reflexivity|]. split; [reflexivity|].
  destruct cart_add_accumulates as [H _].
  destruct (H sample_db 1 [("qty", "250")] [("1", 2); ("3", 1)]
              (mkProduct 1 "Bolsa Floral" "Bolsa artesanal" (Dec 12000 (-2))
                 true)
              250 eq_refl eq_refl eq_refl)
    as (c' & Hrun & Hget & _ & Hother).
  exists c'. split; [exact Hrun|].
  split; [exact (Hget 2 eq_refl)|].
  rewrite (Hother "3") by discriminate. reflexivity.
Defined.

(** C10: for an active product, an absent or empty [qty] field adds 1; a
    non-empty [qty] that is not an integer literal makes [cart_add] raise
    ValueError, with no clamping and no cart written (["abc"] is such a
    value), whereas [cart_update] reads the same value as 1. *)
Theorem cart_add_qty_partial (db : Database) (pid : Z) (p : Product)
  (c : Cart) :
  product_get db pid = Some p ->
  product_is_active p = true ->
  (forall form,
      form_get form "qty" = None \/ form_get form "qty" = Some "" ->
      exists resp,
        cart_add db pid form c
        = Ok (resp, dict_set c (py_str pid)
                      (dict_get_default c (py_str pid) 0 + 1))) /\
  (forall form v,
      form_get form "qty" = Some v -> v <> "" ->
      py_int v = Raise ValueError ->
      cart_add db pid form c = Raise ValueError) /\
  (forall key v,
      startswith "qty_" key = true ->
      py_int v = Raise ValueError ->
      cart_update_entry c (key, v) = dict_set c (remove_all "qty_" key) 1) /\
  ("abc" <> "" /\ py_int "abc" = Raise ValueError).
Proof.
  intros Hg Ha. split; [|split; [|split]].
  - intros form H. unfold cart_add, form_get_default.
    rewrite Hg, Ha. cbn [negb].
    destruct H as [-> | ->]; eexists; reflexivity.
  - intros form v Hv Hne Hr. unfold cart_add, form_get_default.
    rewrite Hg, Ha, Hv. cbn [negb].
    destruct v as [|a v']; [congruence|].
    cbn [str_or is_empty]. rewrite Hr. reflexivity.
  - intros key v Hs Hr. unfold cart_update_entry.
    rewrite Hs, Hr. reflexivity.
  - split; [discriminate|reflexivity].
Qed.

Lemma cart_add_qty_partial_witness :
  product_get sample_db 1
  = Some (mkProduct 1 "Bolsa Floral" "Bolsa artesanal" (Dec 12000 (-2)) true) /\
  cart_add sample_db 1 [("qty", "abc")] [("1", 2)] = Raise ValueError /\
  cart_update_entry [("1", 2)] ("qty_1", "abc") = [("1", 1)].
Proof.
  destruct (cart_add_qty_partial sample_db 1
              (mkProduct 1 "Bolsa Floral" "Bolsa artesanal"
                 (Dec 12000 (-2)) true)
              [("1", 2)] eq_refl eq_refl) as (_ & H1 & H2 & _).
  split; [reflexivity|]. split.
  - apply (H1 [("qty", "abc")] "abc"); [reflexivity|discriminate|reflexivity].
  - apply (H2 "qty_1" "abc"); reflexivity.
Defined.

(* ================================================================== *)
(** * [allowed_file] and the upload loop *)
(* ================================================================== *)

Lemma rsplit1_no_sep (sep : ascii) (s : string) :
  contains_char sep s = false -> rsplit1 sep s = [s].
Proof.
  induction s as [|c r IH]; cbn [contains_char rsplit1]; [reflexivity|].
  intros H. apply orb_false_iff in H. destruct H as [Hc Hr].
  rewrite (IH Hr), Hc. reflexivity.
Qed.

Lemma rsplit1_last (sep : ascii) (h t : string) :
  contains_char sep t = false ->
  rsplit1 sep (h ++ String sep t) = [h; t].
Proof.
  intros Ht. induction h as [|c h IH]; cbn [append rsplit1].
  - rewrite (rsplit1_no_sep sep t Ht), Ascii.eqb_refl. reflexivity.
  - rewrite IH. reflexivity.
Qed.

Lemma contains_char_split (sep : ascii) (s : string) :
  contains_char sep s = true ->
  exists h t, s = h ++ String sep t /\ contains_char sep t = false.
Proof.
  induction s as [|c r IH]; cbn [contains_char]; [discriminate|].
  intros H. destruct (contains_char sep r) eqn:Hr.
  - destruct (IH eq_refl) as (h & t & -> & Ht).
    exists (String c h), t. split; [reflexivity|exact Ht].
  - rewrite orb_false_r in H. apply Ascii.eqb_eq in H. subst c.
    exists "", r. split; [reflexivity|exact Hr].
Qed.

Lemma contains_char_app (sep : ascii) (h t : string) :
  contains_char sep (h ++ String sep t) = true.
Proof.
  induction h as [|c h IH]; cbn [append contains_char].
  - rewrite Ascii.eqb_refl. reflexivity.
  - rewrite IH. apply orb_true_r.
Qed.

Lemma allowed_extension_in (ext : string) :
  existsb (String.eqb (lower ext)) ALLOWED_EXTENSIONS = true
  <-> In (lower ext) ALLOWED_EXTENSIONS.
Proof.
  rewrite existsb_exists. split.
  - intros (x & Hin & Heq). apply String.eqb_eq in Heq. subst. exact Hin.
  - intros Hin. exists (lower ext). split; [exact Hin|apply String.eqb_refl].
Qed.

(** [allowed_file]: the name has a dot, and what follows its last dot is,
    in lower case, one of the four extensions. *)
Lemma allowed_file_iff (f : string) :
  allowed_file f = true <->
  exists stem ext,
    f = stem ++ "." ++ ext /\ contains_char "." ext = false /\
    In (lower ext) ALLOWED_EXTENSIONS.
Proof.
  unfold allowed_file. split.
  - intros H. apply andb_prop in H. destruct H as [Hdot Hext].
    destruct (contains_char_split _ _ Hdot) as (h & t & -> & Ht).
    rewrite (rsplit1_last _ h t Ht) in Hext.
    exists h, t. split; [reflexivity|]. split; [exact Ht|].
    apply allowed_extension_in. exact Hext.
  - intros (stem & ext & -> & Ht & Hin).
    change (stem ++ "." ++ ext) with (stem ++ String "." ext).
    rewrite contains_char_app, (rsplit1_last _ stem ext Ht). cbn [andb].
    apply allowed_extension_in. exact Hin.
Qed.

Section UploadLoop.

Variable secure_filename : string -> string.
Variable uuid_hex : nat -> string.

(** The loop treats a batch as the batch of its accepted files, and
    flashes one warning per named file that fails the check. *)
Lemma add_images_accepted (pid : Z) (files : list FileStorage) :
  forall imgs flashes k,
    add_images secure_filename uuid_hex pid files imgs flashes k
    = let '(imgs', _, k') :=
        add_images secure_filename uuid_hex pid (accepted files) imgs [] k in
      (imgs', (flashes ++ map (fun _ => invalid_format) (warned files))%list,
       k').
Proof.
  unfold accepted, warned.
  induction files as [|f rest IH]; intros imgs flashes k.
  - cbn. rewrite app_nil_r. reflexivity.
  - cbn [add_images filter].
    destruct (is_empty (filename f)) eqn:He.
    + assert (Ha : allowed_file (filename f) = false).
      { destruct (filename f); [reflexivity|discriminate]. }
      rewrite Ha. cbn [negb andb]. apply IH.
    + destruct (allowed_file (filename f)) eqn:Ha; cbn [negb andb].
      * cbn [add_images]. rewrite He, Ha. cbn [negb].
        rewrite IH. reflexivity.
      * rewrite IH. cbn [map]. rewrite <- app_assoc. reflexivity.
Qed.

(** On accepted files only, one row is appended per file, for the given
    product, and one uuid is drawn per file. *)
Lemma add_images_all_accepted (pid : Z) (files : list FileStorage) :
  Forall (fun f => allowed_file (filename f) = true) files ->
  forall imgs flashes k,
  exists rows,
    add_images secure_filename uuid_hex pid files imgs flashes k
    = ((imgs ++ rows)%list, flashes, (k + List.length files)%nat) /\
    map image_url rows = stored_urls secure_filename uuid_hex files k /\
    Forall (fun r => image_product_id r = pid) rows.
Proof.
  induction 1 as [|f rest Hf Hrest IH]; intros imgs flashes k.
  - exists []. cbn. rewrite app_nil_r, Nat.add_0_r.
    repeat split; constructor.
  - cbn [add_images].
    assert (He : is_empty (filename f) = false).
    { destruct (filename f); [discriminate|reflexivity]. }
    rewrite He, Hf. cbn [negb].
    destruct (IH (imgs ++ [mkProductImage (next_id (map image_id imgs)) pid
                             (save_upload secure_filename uuid_hex f k)])%list
                flashes (S k)) as (rows & Hr & Hl & Hp).
    eexists (_ :: rows). rewrite Hr, <- app_assoc. cbn [app List.length].
    rewrite Nat.add_succ_r. split; [reflexivity|].
    split; [cbn [map stored_urls image_url]; rewrite Hl; reflexivity|].
    constructor; [reflexivity|exact Hp].
Qed.

End UploadLoop.

Lemma accepted_allowed (files : list FileStorage) :
  Forall (fun f => allowed_file (filename f) = true) (accepted files).
Proof.
  unfold accepted. apply Forall_forall. intros f Hf.
  apply filter_In in Hf. tauto.
Qed.

Lemma accepted_idem (files : list FileStorage) :
  accepted (accepted files) = accepted files.
Proof.
  unfold accepted. induction files as [|f rest IH]; cbn [filter];
    [reflexivity|].
  destruct (allowed_file (filename f)) eqn:E; cbn [filter];
    [rewrite E, IH; reflexivity|exact IH].
Qed.

Lemma warned_accepted (files : list FileStorage) :
  warned (accepted files) = [].
Proof.
  unfold warned, accepted. induction files as [|f rest IH]; cbn [filter];
    [reflexivity|].
  destruct (allowed_file (filename f)) eqn:E; cbn [filter]; [|exact IH].
  rewrite E, andb_false_r. exact IH.
Qed.

(** C9 (amended): a file name passes [allowed_file] exactly when it has a
    dot and the part after its last dot is, in lower case, jpg, jpeg, png
    or webp. The upload loop stores each passing file and adds one image
    row for it, the rows being those of the batch with every other entry
    taken out; it flashes
    one warning per entry that has a file name and fails the check, and
    none for an entry without a file name. [photo.GIF] fails the check and
    the files around it are stored. *)
Theorem upload_batch_validation
  (secure_filename : string -> string) (uuid_hex : nat -> string) :
  (forall f,
      allowed_file f = true <->
      exists stem ext,
        f = stem ++ "." ++ ext /\ contains_char "." ext = false /\
        In (lower ext) ALLOWED_EXTENSIONS) /\
  (forall pid files imgs flashes k,
      exists rows,
        add_images secure_filename uuid_hex pid files imgs flashes k
        = ((imgs ++ rows)%list,
           (flashes ++ map (fun _ => invalid_format) (warned files))%list,
           (k + List.length (accepted files))%nat) /\
        add_images secure_filename uuid_hex pid (accepted files) imgs flashes k
        = ((imgs ++ rows)%list, flashes,
           (k + List.length (accepted files))%nat) /\
        map image_url rows
        = stored_urls secure_filename uuid_hex (accepted files) k /\
        Forall (fun r => image_product_id r = pid) rows) /\
  (allowed_file "photo.GIF" = false /\
   accepted [mkFile "a.jpg"; mkFile "photo.GIF"; mkFile ""; mkFile "b.PNG"]
   = [mkFile "a.jpg"; mkFile "b.PNG"] /\
   warned [mkFile "a.jpg"; mkFile "photo.GIF"; mkFile ""; mkFile "b.PNG"]
   = [mkFile "photo.GIF"]).
Proof.
  split; [exact allowed_file_iff|]. split; [|repeat split; reflexivity].
  intros pid files imgs flashes k.
  destruct (add_images_all_accepted secure_filename uuid_hex pid
              (accepted files) (accepted_allowed files) imgs [] k)
    as (rows & Hr & Hl & Hp).
  exists rows. split; [|split; [|split; assumption]].
  - rewrite add_images_accepted, Hr. reflexivity.
  - rewrite add_images_accepted, accepted_idem, Hr, warned_accepted.
    cbn [map]. rewrite app_nil_r. reflexivity.
Qed.

(** C9 as stated fails for an entry without a file name (what a browser
    sends for an empty file input): it fails the check and is skipped, but
    no warning is flashed. *)
Lemma upload_empty_name_no_warning :
  allowed_file (filename (mkFile "")) = false /\
  add_images sample_secure_filename sample_uuid_hex 1 [mkFile ""] [] [] 0
  = ([], [], 0%nat).
Proof. split; reflexivity. Qed.

Example upload_batch_sample :
  add_images sample_secure_filename sample_uuid_hex 1
    [mkFile "a.jpg"; mkFile "photo.GIF"; mkFile ""; mkFile "b.PNG"] [] [] 0
  = ([mkProductImage 1 1 "/static/img/uploads/produto_0a1b2c3d4e5f.jpg";
      mkProductImage 2 1 "/static/img/uploads/produto_6a7b8c9d0e1f.png"],
     [invalid_format], 2%nat).
Proof. vm_compute. reflexivity. Qed.

(* ================================================================== *)
(** * The product form *)
(* ================================================================== *)




Lemma replace_char_empty (a b : ascii) (s : string) :
  is_empty (replace_char a b s) = is_empty s.
Proof. destruct s; reflexivity. Qed.




(** The update handler has no test of the name: a blank name is stored. *)
Example product_update_blank_name :
  admin_products_edit_post sample_secure_filename sample_uuid_hex
    strict_price_column 2
    [("name", "  "); ("price", "0,05"); ("is_active", "on")] [] sample_db 0
  = (Ok (Redirect (ep_admin_products_edit 2)
           [("Produto atualizado", success)],
         mkDatabase
           [ mkProduct 1 "Bolsa Floral" "Bolsa artesanal" (Dec 12000 (-2)) true;
             mkProduct 2 "" "" (Dec 5 (-2)) true;
             mkProduct 3 "Bolsa Lua" "" (Dec 9990 (-2)) false ]
           [] [] []),
     0%nat).
Proof. vm_compute. reflexivity. Qed.

(** A quiet NaN passes the price test and is refused by a store that has
    no such number: the create request ends in an error with nothing
    committed, and so does the update, its uploads already saved. *)
Example product_nan_price :
  parse_price [("name", "Bolsa Azul"); ("price", "nan")] = Ok (DNaN false) /\
  admin_products_new_post sample_secure_filename sample_uuid_hex
    strict_price_column
    [("name", "Bolsa Azul"); ("price", "nan")] [mkFile "a.jpg"] sample_db 0
  = (Raise DatabaseError, 0%nat) /\
  admin_products_edit_post sample_secure_filename sample_uuid_hex
    strict_price_column 2
    [("name", "Bolsa Azul"); ("price", "nan")] [mkFile "a.jpg"] sample_db 0
  = (Raise DatabaseError, 1%nat).
Proof. repeat split; vm_compute; reflexivity. Qed.

(* ================================================================== *)
(** * Cart keys *)
(* ================================================================== *)

Lemma digit_char (r : Z) :
  0 <= r < 10 ->
  is_digit (ascii_of_N (Z.to_N (48 + r))) = true /\
  digit_val (ascii_of_N (Z.to_N (48 + r))) = r.
Proof.
  intros H.
  assert (Hc : r = 0 \/ r = 1 \/ r = 2 \/ r = 3 \/ r = 4 \/ r = 5 \/ r = 6
               \/ r = 7 \/ r = 8 \/ r = 9) by lia.
  repeat (destruct Hc as [->|Hc]; [split; reflexivity|]).
  subst r. split; reflexivity.
Qed.

Lemma digit_not_blank_or_sign (c : ascii) :
  is_digit c = true ->
  is_int_space c = false /\ Ascii.eqb c "+" = false /\ Ascii.eqb c "-" = false.
Proof.
  destruct c as [b0 b1 b2 b3 b4 b5 b6 b7].
  destruct b0, b1, b2, b3, b4, b5, b6, b7; cbv;
    intros H; try discriminate H; repeat split; reflexivity.
Qed.

(** The digits [str] writes are read back by the digit loop of [int]. *)
Lemma nat_digits_read (f : nat) :
  forall (n : Z) (s : string),
    0 <= n < 2 ^ Z.of_nat (S f) ->
    all_digits (nat_digits (S f) n s) = all_digits s /\
    nat_digits (S f) n s <> "" /\
    exists k, 0 <= k /\
      forall a prev,
        int_digits a prev (nat_digits (S f) n s)
        = int_digits (a * 10 ^ k + n) true s.
Proof.
  induction f as [|f IH]; intros n s Hn.
  - assert (Hlt : 0 <= n < 10).
    { change (2 ^ Z.of_nat 1) with 2 in Hn. lia. }
    destruct (digit_char (n mod 10) ltac:(apply Z.mod_pos_bound; lia))
      as [Hd Hv].
    cbn [nat_digits].
    assert (Hq : n / 10 = 0) by (apply Z.div_small; lia).
    rewrite Hq. change (0 =? 0) with true. cbv iota.
    split; [cbn [all_digits]; rewrite Hd; reflexivity|].
    split; [discriminate|].
    exists 1. split; [lia|]. intros a prev. cbn [int_digits].
    rewrite Hd, Hv, Z.mod_small by lia. f_equal. lia.
  - destruct (digit_char (n mod 10) ltac:(apply Z.mod_pos_bound; lia))
      as [Hd Hv].
    change (nat_digits (S (S f)) n s)
      with (let acc' := String (ascii_of_N (Z.to_N (48 + n mod 10))) s in
            if n / 10 =? 0 then acc' else nat_digits (S f) (n / 10) acc').
    cbv zeta.
    destruct (n / 10 =? 0) eqn:Eq.
    + apply Z.eqb_eq in Eq.
      split; [cbn [all_digits]; rewrite Hd; reflexivity|].
      split; [discriminate|].
      exists 1. split; [lia|]. intros a prev. cbn [int_digits].
      rewrite Hd, Hv. f_equal.
      pose proof (Z.div_mod n 10 ltac:(lia)). lia.
    + assert (Hn' : 0 <= n / 10 < 2 ^ Z.of_nat (S f)).
      { split; [apply Z.div_pos; lia|].
        apply Z.div_lt_upper_bound; [lia|].
        rewrite (Nat2Z.inj_succ (S f)), Z.pow_succ_r in Hn by lia. lia. }
      destruct (IH (n / 10)
                  (String (ascii_of_N (Z.to_N (48 + n mod 10))) s) Hn')
        as (Hall & Hne & k & Hk & Hread).
      split; [rewrite Hall; cbn [all_digits]; rewrite Hd; reflexivity|].
      split; [exact Hne|].
      exists (k + 1). split; [lia|]. intros a prev.
      rewrite Hread. cbn [int_digits]. rewrite Hd, Hv. f_equal.
      rewrite Z.pow_add_r by lia. change (10 ^ 1) with 10.
      pose proof (Z.div_mod n 10 ltac:(lia)). lia.
Qed.

Lemma rstrip_digits (s : string) :
  all_digits s = true -> rstrip_by is_int_space s = s.
Proof.
  induction s as [|c r IH]; cbn [all_digits rstrip_by]; [reflexivity|].
  intros H. apply andb_prop in H. destruct H as [Hc Hr].
  rewrite (IH Hr).
  destruct (digit_not_blank_or_sign c Hc) as [Hs _]. rewrite Hs.
  reflexivity.
Qed.

(** The digits [nat_digits] writes are as many as the number has. *)
Lemma nat_digits_count (f : nat) :
  forall (n : Z) (s : string),
    0 <= n < 2 ^ Z.of_nat (S f) ->
    exists k, 1 <= k /\ 10 ^ (k - 1) <= Z.max 1 n /\
      count_digits (nat_digits (S f) n s) = k + count_digits s.
Proof.
  induction f as [|f IH]; intros n s Hn.
  - assert (Hlt : 0 <= n < 10).
    { change (2 ^ Z.of_nat 1) with 2 in Hn. lia. }
    destruct (digit_char (n mod 10) ltac:(apply Z.mod_pos_bound; lia))
      as [Hd Hv].
    cbn [nat_digits].
    assert (Hq : n / 10 = 0) by (apply Z.div_small; lia).
    rewrite Hq. change (0 =? 0) with true. cbv iota.
    exists 1. split; [lia|]. split; [change (10 ^ (1 - 1)) with 1; lia|].
    cbn [count_digits]. rewrite Hd. reflexivity.
  - destruct (digit_char (n mod 10) ltac:(apply Z.mod_pos_bound; lia))
      as [Hd Hv].
    change (nat_digits (S (S f)) n s)
      with (let acc' := String (ascii_of_N (Z.to_N (48 + n mod 10))) s in
            if n / 10 =? 0 then acc' else nat_digits (S f) (n / 10) acc').
    cbv zeta.
    destruct (n / 10 =? 0) eqn:Eq.
    + exists 1. split; [lia|]. split; [change (10 ^ (1 - 1)) with 1; lia|].
      cbn [count_digits]. rewrite Hd. reflexivity.
    + apply Z.eqb_neq in Eq.
      assert (Hq : 0 <= n / 10) by (apply Z.div_pos; lia).
      assert (Hn' : 0 <= n / 10 < 2 ^ Z.of_nat (S f)).
      { split; [exact Hq|].
        apply Z.div_lt_upper_bound; [lia|].
        rewrite (Nat2Z.inj_succ (S f)), Z.pow_succ_r in Hn by lia. lia. }
      destruct (IH (n / 10)
                  (String (ascii_of_N (Z.to_N (48 + n mod 10))) s) Hn')
        as (k & Hk & Hpow & Hcount).
      exists (k + 1). split; [lia|]. split.
      * replace (k + 1 - 1) with (Z.succ (k - 1)) by lia.
        rewrite Z.pow_succ_r by lia.
        pose proof (Z.div_mod n 10 ltac:(lia)) as Hdm.
        pose proof (Z.mod_pos_bound n 10 ltac:(lia)) as Hmod.
        lia.
      * rewrite Hcount. cbn [count_digits]. rewrite Hd. lia.
Qed.

(** [int(str(n)) == n] for a non-negative integer that [str] prints. *)
Lemma py_int_py_str (n : Z) :
  0 <= n < 10 ^ int_max_str_digits -> py_int (py_str n) = Ok n.
Proof.
  intros [Hn Hmax]. unfold py_str.
  destruct (n <? 0) eqn:E; [apply Z.ltb_lt in E; lia|].
  rewrite Z.abs_eq by lia.
  assert (Hb : 0 <= n < 2 ^ Z.of_nat (S (Z.to_nat (Z.log2 n)))).
  { split; [lia|]. rewrite Nat2Z.inj_succ, Z2Nat.id by apply Z.log2_nonneg.
    destruct (Z.eq_dec n 0) as [->|Hz]; [reflexivity|].
    apply Z.log2_spec. lia. }
  destruct (nat_digits_read _ n "" Hb) as (Hall & Hne & k & Hk & Hread).
  destruct (nat_digits_count _ n "" Hb) as (j & Hj & Hpow & Hcount).
  cbn [all_digits] in Hall. cbn [count_digits] in Hcount.
  assert (Hlim : (int_max_str_digits <? j + 0) = false).
  { apply Z.ltb_ge. rewrite Z.add_0_r.
    assert (Hlt : 10 ^ (j - 1) < 10 ^ int_max_str_digits).
    { destruct (Z.max_spec 1 n) as [[_ Hm]|[_ Hm]]; rewrite Hm in Hpow.
      - lia.
      - apply Z.le_lt_trans with (m := 1); [exact Hpow|].
        apply Z.pow_gt_1; unfold int_max_str_digits; lia. }
    apply Z.pow_lt_mono_r_iff in Hlt; unfold int_max_str_digits in *; lia. }
  set (d := nat_digits (S (Z.to_nat (Z.log2 n))) n "") in *.
  unfold py_int. cbv zeta.
  destruct d as [|c r] eqn:Ed; [congruence|].
  pose proof Hall as Hall'. cbn [all_digits] in Hall'.
  apply andb_prop in Hall'. destruct Hall' as [Hc Hr].
  destruct (digit_not_blank_or_sign c Hc) as (Hs & Hplus & Hminus).
  cbn [lstrip_by]. rewrite Hs, (rstrip_digits _ Hall).
  assert (Hbody : int_digits 0 false (String c r) = Some n).
  { rewrite Hread. cbn [int_digits]. f_equal; lia. }
  rewrite Hcount, Hlim.
  destruct c as [b0 b1 b2 b3 b4 b5 b6 b7].
  destruct b0, b1, b2, b3, b4, b5, b6, b7;
    try discriminate Hplus; try discriminate Hminus; try discriminate Hc;
    rewrite Hbody; reflexivity.
Qed.

Lemma keys_parse_set (c : Cart) (k : string) (v n : Z) :
  py_int k = Ok n -> keys_parse c = true -> keys_parse (dict_set c k v) = true.
Proof.
  intros Hk. unfold keys_parse.
  induction c as [|[k0 w] rest IH]; cbn [dict_set forallb fst]; intros H.
  - rewrite Hk. reflexivity.
  - apply andb_prop in H. destruct H as [H0 Hrest].
    destruct (String.eqb k0 k); cbn [forallb fst]; rewrite H0; cbn [andb];
      [exact Hrest|apply IH; exact Hrest].
Qed.

(** The keys [cart_add] writes are product ids: they read back as the id,
    and the cart stays a dict whose keys all read as integers. *)
Lemma cart_add_keys (db : Database) (pid : Z) (form : Form) (c c' : Cart)
  (resp : Response) :
  0 <= pid < 10 ^ int_max_str_digits ->
  cart_add db pid form c = Ok (resp, c') ->
  (dict_wf c -> dict_wf c') /\ (keys_parse c = true -> keys_parse c' = true).
Proof.
  intros Hpid H. unfold cart_add in H.
  destruct (product_get db pid) as [p|];
    [|injection H as _ <-; tauto].
  destruct (negb (product_is_active p)); [injection H as _ <-; tauto|].
  destruct (py_int (str_or (form_get_default form "qty" "1") "1")) as [q|];
    [|discriminate].
  cbn [bind] in H. injection H as _ <-. split.
  - apply dict_set_wf.
  - apply (keys_parse_set c (py_str pid) _ pid). apply py_int_py_str. exact Hpid.
Qed.

(* ================================================================== *)
(** * Stale cart lines *)
(* ================================================================== *)

(** The pricing loop over two carts in a row is the loop over the first
    followed by the loop over the second. *)
Lemma price_lines_app (db : Database) (c1 c2 : Cart) :
  forall items total,
    price_lines db (c1 ++ c2)%list items total
    = bind (price_lines db c1 items total)
        (fun r => price_lines db c2 (fst r) (snd r)).
Proof.
  induction c1 as [|[k q] rest IH]; intros items total;
    cbn [app price_lines]; [reflexivity|].
  destruct (py_int k) as [pid|]; cbn [bind]; [|reflexivity].
  destruct (product_get db pid) as [p|]; [|apply IH].
  destruct (product_is_active p); [|apply IH].
  destruct (dec_mul (product_price p) (dec_of_int q)) as [raw|];
    cbn [bind]; [|reflexivity].
  destruct (dec_quantize raw cent) as [sub|]; cbn [bind]; [|reflexivity].
  destruct (dec_add total sub) as [t'|]; cbn [bind]; [apply IH|reflexivity].
Qed.

(** An entry whose product is gone or inactive is skipped by the cart
    page. *)
Lemma cart_view_skip (db : Database) (c1 c2 : Cart) (k : string)
  (q pid : Z) :
  py_int k = Ok pid ->
  (product_get db pid = None \/
   exists p, product_get db pid = Some p /\ product_is_active p = false) ->
  cart_view db (c1 ++ (k, q) :: c2)%list = cart_view db (c1 ++ c2)%list.
Proof.
  intros Hk Hstale. unfold cart_view. rewrite !price_lines_app.
  destruct (price_lines db c1 [] (Dec 0 (-2))) as [[items total]|];
    cbn [bind fst snd]; [|reflexivity].
  cbn [price_lines]. rewrite Hk. cbn [bind].
  destruct Hstale as [-> | (p & -> & ->)]; reflexivity.
Qed.

(** X1: a cart entry whose key reads as the id of a product that is gone
    or inactive changes nothing of the cart page: lines, total and failures
    are those of the cart without the entry. *)
Theorem cart_view_drops_stale (db : Database) (c1 c2 : Cart)
  (k : string) (q pid : Z) :
  py_int k = Ok pid ->
  (product_get db pid = None \/
   exists p, product_get db pid = Some p /\ product_is_active p = false) ->
  cart_view db (c1 ++ (k, q) :: c2)%list = cart_view db (c1 ++ c2)%list.
Proof. intros Hk Hstale. apply (cart_view_skip db c1 c2 k q pid Hk Hstale). Qed.

Lemma cart_view_drops_stale_witness :
  py_int "3" = Ok 3 /\
  (product_get sample_db 3 = None \/
   exists p, product_get sample_db 3 = Some p /\ product_is_active p = false) /\
  cart_view sample_db ([("1", 2)] ++ ("3", 1) :: [("7", 4)])%list
  = cart_view sample_db ([("1", 2)] ++ [("7", 4)])%list.
Proof.
  assert (H1 : py_int "3" = Ok 3) by reflexivity.
  assert (H2 : product_get sample_db 3 = None \/
               exists p, product_get sample_db 3 = Some p /\
                         product_is_active p = false).
  { right. eexists. split; reflexivity. }
  split; [exact H1|]. split; [exact H2|].
  exact (cart_view_drops_stale sample_db [("1", 2)] [("7", 4)] "3" 1 3 H1 H2).
Defined.

(* ================================================================== *)
(** * Checkout and order creation *)
(* ================================================================== *)

(** X2: what the checkout page shows is what the order is charged: when
    [checkout] renders a total and a Pix total, [create_order] on the same
    cart and catalog, with a name and a contact, creates the order with
    [amount_original] the total shown and [amount] the Pix total shown for
    pix and the total shown otherwise, and empties the cart; when
    [checkout] sends the visitor away for an empty cart, [create_order]
    creates nothing. *)
Theorem checkout_agrees_with_create_order (pct : Z) (db : Database)
  (c : Cart) (form : Form) :
  (forall items total total_pix,
      checkout pct db c = Ok (CheckoutPage items total total_pix) ->
      field form "customer_name" <> "" -> field form "whatsapp" <> "" ->
      exists oid order,
        create_order pct form (mkState db c)
        = Ok (Redirect (ep_order_success oid) [],
              mkState
                (mkDatabase (products db) (images db)
                   (orders db ++ [order])%list
                   (order_items db ++ map (order_item_of oid) items)%list)
                []) /\
        order_id order = oid /\
        amount_original order = total /\
        amount order
        = (if String.eqb (payment_method order) "pix"
           then total_pix else total)) /\
  (forall r,
      checkout pct db c = Ok (CheckoutRedirect r) ->
      rejected (create_order pct form (mkState db c)) (mkState db c)).
Proof.
  unfold checkout. split.
  - intros items total total_pix H Hn Hw.
    destruct (price_lines db c [] (Dec 0 (-2))) as [[its tot]|] eqn:Hp;
      [|discriminate].
    cbn [bind] in H.
    destruct its as [|l ls]; [discriminate|].
    destruct (price_with_pix_discount pct tot) as [tp|] eqn:Hd;
      [|discriminate].
    cbn [bind] in H. injection H as <- <- <-.
    unfold create_order. cbn [st_cart st_db].
    destruct c as [|kv rest]; [discriminate|].
    fold (field form "customer_name"). fold (field form "whatsapp").
    fold (field form "city_state"). fold (field form "address").
    fold (field form "notes").
    destruct (field form "customer_name") as [|a n] eqn:En; [congruence|].
    destruct (field form "whatsapp") as [|b w] eqn:Ew; [congruence|].
    cbn [is_empty orb]. rewrite Hp. cbn [bind]. rewrite Hd. cbn [bind].
    eexists _, _. split; [reflexivity|].
    cbn [order_id amount_original amount payment_method].
    repeat split; reflexivity.
  - intros r H.
    destruct (price_lines db c [] (Dec 0 (-2))) as [[its tot]|] eqn:Hp;
      [|discriminate].
    cbn [bind] in H.
    destruct its as [|l ls].
    + unfold rejected, create_order. cbn [st_cart st_db].
      destruct c as [|kv rest].
      * eexists _, _, _. split; [reflexivity|discriminate].
      * destruct (is_empty (strip (or_default (form_get form "customer_name") ""))
                  || is_empty (strip (or_default (form_get form "whatsapp") ""))).
        -- eexists _, _, _. split; [reflexivity|discriminate].
        -- rewrite Hp. cbn [bind].
           eexists _, _, _. split; [reflexivity|discriminate].
    + destruct (price_with_pix_discount pct tot); discriminate.
Qed.

Lemma checkout_agrees_with_create_order_witness :
  field sample_form "customer_name" <> "" /\
  field sample_form "whatsapp" <> "" /\
  checkout 10 sample_db sample_cart
  = Ok (CheckoutPage
          [mkLine (mkProduct 1 "Bolsa Floral" "Bolsa artesanal"
                     (Dec 12000 (-2)) true) 2 (Dec 24000 (-2))]
          (Dec 24000 (-2)) (Dec 21600 (-2))) /\
  exists oid order,
    create_order 10 sample_form (mkState sample_db sample_cart)
    = Ok (Redirect (ep_order_success oid) [],
          mkState
            (mkDatabase (products sample_db) (images sample_db)
               (orders sample_db ++ [order])%list
               (order_items sample_db
                ++ map (order_item_of oid)
                     [mkLine (mkProduct 1 "Bolsa Floral" "Bolsa artesanal"
                                (Dec 12000 (-2)) true) 2 (Dec 24000 (-2))])%list)
            []) /\
    order_id order = oid /\
    amount_original order = Dec 24000 (-2) /\
    amount order
    = (if String.eqb (payment_method order) "pix"
       then Dec 21600 (-2) else Dec 24000 (-2)).
Proof.
  assert (H1 : field sample_form "customer_name" <> "") by discriminate.
  assert (H2 : field sample_form "whatsapp" <> "") by discriminate.
  assert (H3 : checkout 10 sample_db sample_cart
               = Ok (CheckoutPage
                       [mkLine (mkProduct 1 "Bolsa Floral" "Bolsa artesanal"
                                  (Dec 12000 (-2)) true) 2 (Dec 24000 (-2))]
                       (Dec 24000 (-2)) (Dec 21600 (-2))))
    by (vm_compute; reflexivity).
  split; [exact H1|]. split; [exact H2|]. split; [exact H3|].
  destruct (checkout_agrees_with_create_order 10 sample_db sample_cart
              sample_form) as [H _].
  exact (H _ _ _ H3 H1 H2).
Defined.

Lemma next_id_above (ids : list Z) (i : Z) : In i ids -> i < next_id ids.
Proof.
  unfold next_id. induction ids as [|j rest IH]; cbn [In fold_right];
    [tauto|].
  intros [-> | H]; [lia|]. specialize (IH H). lia.
Qed.

Lemma next_id_fresh (ids : list Z) : ~ In (next_id ids) ids.
Proof. intros H. apply next_id_above in H. lia. Qed.

(** Every outcome of [create_order] that returns. *)
Lemma create_order_outcome (pct : Z) (form : Form) (st st' : State)
  (resp : Response) :
  create_order pct form st = Ok (resp, st') ->
  (st' = st /\ forall oid fl, resp <> Redirect (ep_order_success oid) fl) \/
  exists order items total,
    price_lines (st_db st) (st_cart st) [] (Dec 0 (-2)) = Ok (items, total) /\
    items <> [] /\
    resp = Redirect (ep_order_success (order_id order)) [] /\
    order_id order = next_id (map order_id (orders (st_db st))) /\
    status order = "Aguardando pagamento" /\
    amount_original order = total /\
    st' = mkState
            (mkDatabase (products (st_db st)) (images (st_db st))
               (orders (st_db st) ++ [order])
               (order_items (st_db st)
                ++ map (order_item_of (order_id order)) items))
            [].
Proof.
  unfold create_order. intros H.
  destruct (st_cart st) as [|kv rest] eqn:Hc;
    [injection H as <- <-; left; split; [reflexivity|discriminate]|].
  destruct (is_empty (strip (or_default (form_get form "customer_name") ""))
            || is_empty (strip (or_default (form_get form "whatsapp") "")));
    [injection H as <- <-; left; split; [reflexivity|discriminate]|].
  destruct (price_lines (st_db st) (kv :: rest) [] (Dec 0 (-2)))
    as [[items total]|] eqn:Hp; [|discriminate].
  cbn [bind] in H.
  destruct items as [|l ls];
    [injection H as <- <-; left; split; [reflexivity|discriminate]|].
  destruct (price_with_pix_discount pct total) as [total_pix|];
    [|discriminate].
  cbn [bind] in H. injection H as <- <-. right.
  eexists (mkOrder _ _ _ _ _ _ _ _ _ _), (l :: ls), total.
  cbn [order_id status amount_original].
  split; [reflexivity|]. split; [discriminate|].
  repeat split; reflexivity.
Qed.

(** X3: [create_order] never touches the catalog, the images, or an
    earlier order or order item. Either it leaves the whole state as it
    was, or it appends exactly one order, under an id no earlier order has
    and in the initial status, together with at least one item, every
    item carrying that order's id, and it empties the cart. *)
Theorem create_order_keeps_history (pct : Z) (form : Form) (st st' : State)
  (resp : Response) :
  create_order pct form st = Ok (resp, st') ->
  st' = st \/
  exists order new_items,
    resp = Redirect (ep_order_success (order_id order)) [] /\
    products (st_db st') = products (st_db st) /\
    images (st_db st') = images (st_db st) /\
    orders (st_db st') = (orders (st_db st) ++ [order])%list /\
    order_items (st_db st') = (order_items (st_db st) ++ new_items)%list /\
    st_cart st' = [] /\
    ~ In (order_id order) (map order_id (orders (st_db st))) /\
    status order = "Aguardando pagamento" /\
    new_items <> [] /\
    Forall (fun it => item_order_id it = order_id order) new_items.
Proof.
  intros H. apply create_order_outcome in H.
  destruct H as [[-> _]|(order & items & total & _ & Hne & -> & Hid & Hst & _ & ->)];
    [left; reflexivity|right].
  exists order, (map (order_item_of (order_id order)) items).
  cbn [st_db st_cart products images orders order_items].
  repeat split; try reflexivity.
  - rewrite Hid. apply next_id_fresh.
  - exact Hst.
  - destruct items; [congruence|discriminate].
  - apply Forall_forall. intros it Hin. apply in_map_iff in Hin.
    destruct Hin as (l & <- & _). reflexivity.
Qed.

Lemma create_order_keeps_history_witness :
  create_order 10 sample_form sample_state
  = Ok (Redirect (ep_order_success 1) [], sample_state_after) /\
  (sample_state_after = sample_state \/
   exists order new_items,
     Redirect (ep_order_success 1) []
     = Redirect (ep_order_success (order_id order)) [] /\
     products (st_db sample_state_after) = products (st_db sample_state) /\
     images (st_db sample_state_after) = images (st_db sample_state) /\
     orders (st_db sample_state_after)
     = (orders (st_db sample_state) ++ [order])%list /\
     order_items (st_db sample_state_after)
     = (order_items (st_db sample_state) ++ new_items)%list /\
     st_cart sample_state_after = [] /\
     ~ In (order_id order) (map order_id (orders (st_db sample_state))) /\
     status order = "Aguardando pagamento" /\
     new_items <> [] /\
     Forall (fun it => item_order_id it = order_id order) new_items).
Proof.
  assert (H : create_order 10 sample_form sample_state
              = Ok (Redirect (ep_order_success 1) [], sample_state_after))
    by (vm_compute; reflexivity).
  split; [exact H|].
  exact (create_order_keeps_history 10 sample_form sample_state
           sample_state_after _ H).
Defined.

Lemma find_app_last {A : Type} (test : A -> bool) (l : list A) (x : A) :
  Forall (fun y => test y = false) l -> test x = true ->
  find test (l ++ [x]) = Some x.
Proof.
  induction 1 as [|y l Hy Hl IH]; intros Hx; cbn [app find].
  - rewrite Hx. reflexivity.
  - rewrite Hy. apply IH. exact Hx.
Qed.

Lemma filter_none {A : Type} (test : A -> bool) (l : list A) :
  Forall (fun y => test y = false) l -> filter test l = [].
Proof.
  induction 1 as [|y l Hy Hl IH]; cbn [filter]; [reflexivity|].
  rewrite Hy. exact IH.
Qed.

Lemma filter_all {A : Type} (test : A -> bool) (l : list A) :
  Forall (fun y => test y = true) l -> filter test l = l.
Proof.
  induction 1 as [|y l Hy Hl IH]; cbn [filter]; [reflexivity|].
  rewrite Hy, IH. reflexivity.
Qed.

(** X4: the success page of a freshly created order shows that order and
    exactly the items created with it, when every earlier item belongs to
    an earlier order; and the new rows keep that property of the tables. *)
Theorem order_success_after_create_order (store_name pix_key : string)
  (pct : Z) (form : Form) (st st' : State) (oid : Z)
  (fl : list (string * Category)) :
  items_have_orders (st_db st) ->
  create_order pct form st = Ok (Redirect (ep_order_success oid) fl, st') ->
  exists order new_items,
    orders (st_db st') = (orders (st_db st) ++ [order])%list /\
    order_items (st_db st') = (order_items (st_db st) ++ new_items)%list /\
    new_items <> [] /\
    order_success store_name pix_key (st_db st') oid
    = SuccessPage order new_items
        (join newline (message_lines store_name pix_key order new_items)) /\
    items_have_orders (st_db st').
Proof.
  intros Hinv H. apply create_order_outcome in H.
  destruct H as [[_ Hno]|(order & items & total & _ & Hne & Hr & Hid & _ & _ & ->)];
    [exfalso; eapply Hno; reflexivity|].
  injection Hr as -> _.
  exists order, (map (order_item_of (order_id order)) items).
  cbn [st_db orders order_items].
  split; [reflexivity|]. split; [reflexivity|].
  split; [destruct items; [congruence|discriminate]|].
  assert (Hold : Forall (fun o => (order_id o =? order_id order) = false)
                   (orders (st_db st))).
  { apply Forall_forall. intros o Ho. apply Z.eqb_neq.
    assert (Hlt : order_id o < order_id order).
    { rewrite Hid. apply next_id_above. apply in_map. exact Ho. }
    lia. }
  assert (Hitems : Forall (fun it => (item_order_id it =? order_id order)
                                     = false) (order_items (st_db st))).
  { unfold items_have_orders in Hinv. rewrite Forall_forall in Hinv |- *.
    intros it Hit. apply Z.eqb_neq. specialize (Hinv it Hit).
    apply next_id_above in Hinv. rewrite <- Hid in Hinv. lia. }
  split.
  - unfold order_success, order_get. cbn [orders order_items].
    rewrite (find_app_last _ _ order Hold (Z.eqb_refl _)).
    rewrite filter_app, (filter_none _ _ Hitems). cbn [app].
    rewrite filter_all; [reflexivity|].
    apply Forall_forall. intros it Hin. apply in_map_iff in Hin.
    destruct Hin as (l & <- & _). cbn [order_item_of item_order_id].
    apply Z.eqb_refl.
  - unfold items_have_orders in *. cbn [orders order_items].
    rewrite map_app. apply Forall_app. split.
    + eapply Forall_impl; [|exact Hinv]. cbn beta. intros it Hin.
      apply in_or_app. left. exact Hin.
    + apply Forall_forall. intros it Hin. apply in_map_iff in Hin.
      destruct Hin as (l & <- & _). cbn [order_item_of item_order_id].
      apply in_or_app. right. left. reflexivity.
Qed.

Lemma order_success_after_create_order_witness :
  items_have_orders (st_db sample_state) /\
  create_order 10 sample_form sample_state
  = Ok (Redirect (ep_order_success 1) [], sample_state_after) /\
  exists order new_items,
    orders (st_db sample_state_after)
    = (orders (st_db sample_state) ++ [order])%list /\
    order_items (st_db sample_state_after)
    = (order_items (st_db sample_state) ++ new_items)%list /\
    new_items <> [] /\
    order_success "Sonhos" "chave" (st_db sample_state_after) 1
    = SuccessPage order new_items
        (join newline (message_lines "Sonhos" "chave" order new_items)) /\
    items_have_orders (st_db sample_state_after).
Proof.
  assert (H1 : items_have_orders (st_db sample_state)) by constructor.
  assert (H2 : create_order 10 sample_form sample_state
               = Ok (Redirect (ep_order_success 1) [], sample_state_after))
    by (vm_compute; reflexivity).
  split; [exact H1|]. split; [exact H2|].
  exact (order_success_after_create_order "Sonhos" "chave" 10 sample_form
           sample_state sample_state_after 1 [] H1 H2).
Defined.

(* ================================================================== *)
(** * Cart invariants *)
(* ================================================================== *)

Lemma dict_set_forall (P : Z -> Prop) (c : Cart) (k : string) (v : Z) :
  P v -> Forall (fun kv => P (snd kv)) c ->
  Forall (fun kv => P (snd kv)) (dict_set c k v).
Proof.
  intros Hv. induction 1 as [|[k0 w] rest Hw Hrest IH]; cbn [dict_set].
  - constructor; [exact Hv|constructor].
  - destruct (String.eqb k0 k); constructor; assumption.
Qed.

Lemma dict_pop_forall (P : Z -> Prop) (c : Cart) (k : string) :
  Forall (fun kv => P (snd kv)) c ->
  Forall (fun kv => P (snd kv)) (dict_pop c k).
Proof.
  induction 1 as [|[k0 w] rest Hw Hrest IH]; cbn [dict_pop];
    [constructor|].
  destruct (String.eqb k0 k); [exact Hrest|constructor; assumption].
Qed.

Lemma cart_update_entry_forall (P : Z -> Prop) (c : Cart)
  (entry : string * string) :
  (forall q, 1 <= q <= 99 -> P q) ->
  Forall (fun kv => P (snd kv)) c ->
  Forall (fun kv => P (snd kv)) (cart_update_entry c entry).
Proof.
  intros HP Hc. destruct entry as [key val]. unfold cart_update_entry.
  destruct (negb (startswith "qty_" key)); [exact Hc|].
  destruct (_ <=? 0).
  - apply dict_pop_forall. exact Hc.
  - apply dict_set_forall; [apply HP; apply clamp_qty_range|exact Hc].
Qed.

Lemma cart_update_entry_wf (c : Cart) (entry : string * string) :
  dict_wf c -> dict_wf (cart_update_entry c entry).
Proof.
  intros Hc. destruct entry as [key val]. unfold cart_update_entry.
  destruct (negb (startswith "qty_" key)); [exact Hc|].
  destruct (_ <=? 0); [apply dict_pop_wf|apply dict_set_wf]; exact Hc.
Qed.

(** X5: [cart_update] keeps the cart a dict with quantities of at least 1,
    whatever the form holds; and if every quantity was at most 99 before,
    every quantity is at most 99 after. *)
Theorem cart_update_keeps_invariants (form : Form) (c : Cart) :
  dict_wf c -> cart_positive c ->
  dict_wf (snd (cart_update form c)) /\
  cart_positive (snd (cart_update form c)) /\
  (cart_bounded c -> cart_bounded (snd (cart_update form c))).
Proof.
  unfold cart_update, cart_positive, cart_bounded. cbn [snd].
  generalize (form_items form). intros entries. revert c.
  induction entries as [|e rest IH]; intros c Hwf Hpos; cbn [fold_left].
  - auto.
  - destruct (IH (cart_update_entry c e)) as (H1 & H2 & H3).
    + apply cart_update_entry_wf. exact Hwf.
    + apply (cart_update_entry_forall (fun q => 1 <= q)); [lia|exact Hpos].
    + split; [exact H1|]. split; [exact H2|].
      intros Hb. apply H3.
      apply (cart_update_entry_forall (fun q => 1 <= q <= 99)); [lia|exact Hb].
Qed.

Lemma cart_update_keeps_invariants_witness :
  dict_wf [("1", 120); ("2", 3)] /\
  cart_positive [("1", 120); ("2", 3)] /\
  dict_wf (snd (cart_update [("qty_2", "0"); ("qty_5", "x")]
                  [("1", 120); ("2", 3)])) /\
  cart_positive (snd (cart_update [("qty_2", "0"); ("qty_5", "x")]
                        [("1", 120); ("2", 3)])).
Proof.
  assert (H1 : dict_wf [("1", 120); ("2", 3)]).
  { unfold dict_wf. cbn. repeat constructor; cbn; intuition discriminate. }
  assert (H2 : cart_positive [("1", 120); ("2", 3)]).
  { unfold cart_positive. repeat constructor; cbn; lia. }
  split; [exact H1|]. split; [exact H2|].
  destruct (cart_update_keeps_invariants [("qty_2", "0"); ("qty_5", "x")]
              [("1", 120); ("2", 3)] H1 H2) as (H3 & H4 & _).
  split; [exact H3|exact H4].
Defined.

Lemma cart_count_from (c : Cart) :
  forall a, fold_left (fun acc kv => acc + snd kv) c a = a + cart_count c.
Proof.
  unfold cart_count. induction c as [|kv rest IH]; intros a; cbn [fold_left].
  - lia.
  - rewrite IH, (IH (0 + snd kv)). lia.
Qed.

Lemma cart_count_cons (kv : string * Z) (c : Cart) :
  cart_count (kv :: c) = snd kv + cart_count c.
Proof.
  unfold cart_count at 1. cbn [fold_left]. rewrite cart_count_from. lia.
Qed.

Lemma cart_count_set (c : Cart) (k : string) (v : Z) :
  cart_count (dict_set c k (dict_get_default c k 0 + v)) = cart_count c + v.
Proof.
  unfold dict_get_default.
  induction c as [|[k0 w] rest IH]; cbn [dict_set dict_get].
  - rewrite cart_count_cons. cbn [snd]. unfold cart_count. cbn. lia.
  - destruct (String.eqb k0 k).
    + rewrite !cart_count_cons. cbn [snd]. lia.
    + rewrite !cart_count_cons, IH. cbn [snd]. lia.
Qed.

(** X6: a [cart_add] that is not answered by a 404 raises the badge count
    of the cart, [cart_count], by the clamped quantity, a number in [1,99],
    and keeps the cart a dict with quantities of at least 1; a 404 leaves
    the cart as it was. *)
Theorem cart_add_count (db : Database) (pid : Z) (form : Form)
  (c c' : Cart) (resp : Response) :
  cart_add db pid form c = Ok (resp, c') ->
  (resp = NotFound /\ c' = c) \/
  (exists q,
      1 <= q <= 99 /\
      cart_count c' = cart_count c + q /\
      dict_get c' (py_str pid) = Some (dict_get_default c (py_str pid) 0 + q) /\
      (dict_wf c -> dict_wf c') /\
      (cart_positive c -> cart_positive c')).
Proof.
  unfold cart_add. intros H.
  destruct (product_get db pid) as [p|];
    [|injection H as <- <-; left; split; reflexivity].
  destruct (negb (product_is_active p));
    [injection H as <- <-; left; split; reflexivity|].
  destruct (py_int (str_or (form_get_default form "qty" "1") "1")) as [q|];
    [|discriminate].
  cbn [bind] in H. injection H as _ <-. right.
  pose proof (clamp_qty_range q) as Hq.
  exists (clamp_qty q). split; [exact Hq|].
  split; [apply cart_count_set|].
  split; [apply dict_get_set_same|].
  split; [apply dict_set_wf|].
  intros Hpos. unfold cart_positive in *.
  apply (dict_set_forall (fun v => 1 <= v)); [|exact Hpos].
  unfold dict_get_default.
  destruct (dict_get c (py_str pid)) as [v|] eqn:Hg; [|lia].
  assert (Hv : 1 <= v); [|lia].
  clear - Hg Hpos. induction Hpos as [|[k0 w] rest Hw Hrest IH];
    cbn [dict_get] in Hg; [discriminate|].
  destruct (String.eqb k0 (py_str pid)); [injection Hg as <-; exact Hw|].
  apply IH. exact Hg.
Qed.

Lemma cart_add_count_witness :
  cart_add sample_db 1 [("qty", "250")] [("1", 2); ("3", 1)]
  = Ok (Redirect ep_cart_view [("Adicionado ao carrinho", success)],
        [("1", 101); ("3", 1)]) /\
  ((Redirect ep_cart_view [("Adicionado ao carrinho", success)] = NotFound /\
    [("1", 101); ("3", 1)] = [("1", 2); ("3", 1)]) \/
   (exists q,
       1 <= q <= 99 /\
       cart_count [("1", 101); ("3", 1)] = cart_count [("1", 2); ("3", 1)] + q /\
       dict_get [("1", 101); ("3", 1)] (py_str 1)
       = Some (dict_get_default [("1", 2); ("3", 1)] (py_str 1) 0 + q) /\
       (dict_wf [("1", 2); ("3", 1)] -> dict_wf [("1", 101); ("3", 1)]) /\
       (cart_positive [("1", 2); ("3", 1)] ->
        cart_positive [("1", 101); ("3", 1)]))).
Proof.
  assert (H : cart_add sample_db 1 [("qty", "250")] [("1", 2); ("3", 1)]
              = Ok (Redirect ep_cart_view [("Adicionado ao carrinho", success)],
                    [("1", 101); ("3", 1)])) by reflexivity.
  split; [exact H|].
  exact (cart_add_count sample_db 1 [("qty", "250")] [("1", 2); ("3", 1)]
           _ _ H).
Defined.

(** X7: a product put into an empty cart appears on the cart page: the
    key [cart_add] writes reads back as the product id, and the page shows
    one line with that product, the quantity submitted brought into
    [1,99], and price times that quantity, which is also the total. *)
Theorem cart_add_then_view (db : Database) (pid : Z) (form : Form)
  (p : Product) (m q : Z) :
  0 <= pid < 10 ^ int_max_str_digits ->
  product_get db pid = Some p ->
  product_is_active p = true ->
  product_price p = Dec m (-2) ->
  py_int (str_or (form_get_default form "qty" "1") "1") = Ok q ->
  Z.abs (m * Z.max 1 (Z.min q 99)) < 10 ^ prec ->
  exists resp c',
    cart_add db pid form [] = Ok (resp, c') /\
    cart_view db c'
    = Ok ([mkLine p (Z.max 1 (Z.min q 99))
             (Dec (m * Z.max 1 (Z.min q 99)) (-2))],
          Dec (m * Z.max 1 (Z.min q 99)) (-2)).
Proof.
  intros Hpid Hg Ha Hp Hq Hb. unfold cart_add.
  rewrite Hg, Ha. cbn [negb]. rewrite Hq. cbn [bind].
  eexists _, _. split; [reflexivity|].
  unfold clamp_qty.
  cbn [dict_set dict_get_default dict_get]. unfold cart_view.
  cbn [price_lines]. rewrite (py_int_py_str pid Hpid). cbn [bind].
  rewrite Hg, Ha, Hp. rewrite Z.add_0_l.
  rewrite dec_mul_cents_int by exact Hb. cbn [bind].
  rewrite dec_quantize_cents by exact Hb. cbn [bind].
  rewrite dec_add_same_exp by (rewrite Z.add_0_l; exact Hb). cbn [bind app].
  rewrite Z.add_0_l. reflexivity.
Qed.

Lemma cart_add_then_view_witness :
  (0 <= 1 < 10 ^ int_max_str_digits /\ Z.abs (12000 * 99) < 10 ^ prec) /\
  exists resp c',
    cart_add sample_db 1 [("qty", "250")] [] = Ok (resp, c') /\
    cart_view sample_db c'
    = Ok ([mkLine (mkProduct 1 "Bolsa Floral" "Bolsa artesanal"
                     (Dec 12000 (-2)) true)
             99 (Dec 1188000 (-2))],
          Dec 1188000 (-2)).
Proof.
  assert (H1 : 0 <= 1 < 10 ^ int_max_str_digits)
    by (split; [lia|vm_compute; reflexivity]).
  assert (H2 : Z.abs (12000 * 99) < 10 ^ prec)
    by (vm_compute; reflexivity).
  split; [split; [exact H1|exact H2]|].
  exact (cart_add_then_view sample_db 1 [("qty", "250")]
           (mkProduct 1 "Bolsa Floral" "Bolsa artesanal" (Dec 12000 (-2)) true)
           12000 250 H1 eq_refl eq_refl eq_refl eq_refl H2).
Defined.

(* ================================================================== *)
(** * Order status *)
(* ================================================================== *)

Lemma update_first_forall2 {A : Type} (test : A -> bool) (f : A -> A)
  (R : A -> A -> Prop) (l : list A) :
  (forall x, R x x) -> (forall x, R x (f x)) ->
  Forall2 R l (update_first test f l).
Proof.
  intros Hrefl Hf. induction l as [|x rest IH]; cbn [update_first];
    [constructor|].
  destruct (test x); constructor; auto.
  clear IH. induction rest; constructor; auto.
Qed.

Lemma find_update_first_same {A : Type} (test : A -> bool) (f : A -> A)
  (l : list A) (x : A) :
  find test l = Some x -> test (f x) = true ->
  find test (update_first test f l) = Some (f x).
Proof.
  intros H Hf. induction l as [|y rest IH]; cbn [find update_first] in *;
    [discriminate|].
  destruct (test y) eqn:E.
  - injection H as ->. cbn [find]. rewrite Hf. reflexivity.
  - cbn [find]. rewrite E. apply IH. exact H.
Qed.

Lemma find_update_first_other {A : Type} (test other : A -> bool)
  (f : A -> A) (l : list A) :
  (forall x, test x = true -> other x = false) ->
  (forall x, test x = true -> other (f x) = false) ->
  find other (update_first test f l) = find other l.
Proof.
  intros H1 H2. induction l as [|y rest IH]; cbn [find update_first];
    [reflexivity|].
  destruct (test y) eqn:E; cbn [find].
  - rewrite (H1 y E), (H2 y E). reflexivity.
  - rewrite IH. reflexivity.
Qed.

(** X8: [admin_order_status] can change nothing but the status of
    orders: products, images and order items are as before, and the
    orders are the same orders in the same places, each equal to what it
    was up to its status. An unknown order or a blank status changes
    nothing at all; otherwise the order found under the id carries the
    new, stripped status, and every other id finds what it found
    before. *)
Theorem admin_order_status_only_status (oid : Z) (form : Form)
  (db : Database) :
  let db' := snd (admin_order_status oid form db) in
  products db' = products db /\
  images db' = images db /\
  order_items db' = order_items db /\
  Forall2 (fun o o' => set_status (status o') o = o') (orders db) (orders db') /\
  (order_get db oid = None \/ field form "status" = "" -> db' = db) /\
  (forall order,
      order_get db oid = Some order -> field form "status" <> "" ->
      order_get db' oid = Some (set_status (field form "status") order)) /\
  (forall j, j <> oid -> order_get db' j = order_get db j).
Proof.
  cbv zeta. unfold admin_order_status. fold (field form "status").
  assert (Hsame : forall l : list Order,
             Forall2 (fun o o' => set_status (status o') o = o') l l).
  { induction l as [|o l IH]; constructor; [destruct o; reflexivity|exact IH]. }
  destruct (order_get db oid) as [order|] eqn:Hg; cbn [snd].
  - destruct (field form "status") as [|a s] eqn:Hs; cbn [is_empty snd].
    + repeat split; try reflexivity; try apply Hsame.
      intros o _ Hne. congruence.
    + cbn [products images order_items orders].
      split; [reflexivity|]. split; [reflexivity|]. split; [reflexivity|].
      split.
      { apply update_first_forall2; intros o; destruct o; reflexivity. }
      split; [intros [H|H]; discriminate|].
      split.
      * intros o Ho _. injection Ho as <-. unfold order_get in *.
        cbn [orders].
        apply find_update_first_same; [exact Hg|].
        apply find_some in Hg. destruct Hg as [_ Hid].
        destruct order; exact Hid.
      * intros j Hj. unfold order_get. cbn [orders].
        apply find_update_first_other.
        -- intros o Ho. apply Z.eqb_eq in Ho. apply Z.eqb_neq. lia.
        -- intros o Ho. apply Z.eqb_eq in Ho. apply Z.eqb_neq.
           destruct o; cbn in *; lia.
  - repeat split; try reflexivity; try apply Hsame.
    intros o Ho. discriminate.
Qed.

(* ================================================================== *)
(** * Database bootstrap *)
(* ================================================================== *)

Lemma add_seed_spec (names : list string) :
  forall ps,
  exists new,
    add_seed names ps = (ps ++ new)%list /\
    List.length new = List.length names /\
    Forall (fun p => product_price p = Dec 12000 (-2) /\
                     product_is_active p = true) new /\
    (NoDup (map product_id ps) -> NoDup (map product_id (ps ++ new))).
Proof.
  induction names as [|n rest IH]; intros ps; cbn [add_seed].
  - exists []. rewrite app_nil_r. repeat split; auto.
  - destruct (IH (ps ++ [mkProduct (next_id (map product_id ps)) n
                           seed_description (Dec 12000 (-2)) true])%list)
      as (new & Heq & Hlen & Hall & Hnd).
    eexists (_ :: new). rewrite Heq, <- app_assoc. cbn [app].
    split; [reflexivity|]. split; [cbn [List.length]; rewrite Hlen; reflexivity|].
    split; [constructor; [split; reflexivity|exact Hall]|].
    intros Hps. rewrite <- app_assoc in Hnd. cbn [app] in Hnd. apply Hnd.
    rewrite map_app. cbn [map product_id].
    apply NoDup_app.
    + exact Hps.
    + constructor; [intros []|constructor].
    + intros i Hi [<-|[]]. apply next_id_fresh in Hi. exact Hi.
Qed.

Lemma find_none_forall {A : Type} (test : A -> bool) (l : list A) :
  find test l = None -> Forall (fun x => test x = false) l.
Proof.
  induction l as [|x rest IH]; cbn [find]; [constructor|].
  destruct (test x) eqn:E; [discriminate|]. constructor; auto.
Qed.

(** X9: [bootstrap_db] is idempotent, whatever salt the password hash
    draws: run again on its own result it changes nothing. It adds the
    admin account only when no account has the configured email, and the
    twenty sample products only when asked to seed an empty product table;
    a catalog priced in cents stays priced in cents and product ids stay
    distinct. *)
Theorem bootstrap_db_idempotent
  (generate_password_hash : string -> string -> string)
  (admin_email admin_password salt salt' : string) (seed : bool)
  (users : list User) (db : Database) :
  let r := bootstrap_db generate_password_hash admin_email admin_password
             salt seed users db in
  bootstrap_db generate_password_hash admin_email admin_password salt' seed
    (fst r) (snd r) = r /\
  (exists u, find (fun u => String.eqb (user_email u) admin_email) (fst r)
             = Some u) /\
  (products db <> [] \/ seed = false -> snd r = db) /\
  (products db = [] -> seed = true ->
   List.length (products (snd r)) = 20%nat) /\
  (catalog_in_cents db = true -> catalog_in_cents (snd r) = true) /\
  (product_ids_unique db -> product_ids_unique (snd r)).
Proof.
  cbv zeta. unfold bootstrap_db. cbn [fst snd].
  set (is_admin := fun u => String.eqb (user_email u) admin_email).
  set (new_user := mkUser (next_id (map user_id users)) admin_email
                     (generate_password_hash salt admin_password)).
  assert (Husers :
    exists u,
      find is_admin
        (match find is_admin users with
         | Some _ => users
         | None => (users ++ [new_user])%list
         end) = Some u).
  { destruct (find is_admin users) as [u|] eqn:Hu.
    - exists u. exact Hu.
    - exists new_user. apply find_app_last.
      + apply find_none_forall. exact Hu.
      + subst is_admin new_user. cbn. apply String.eqb_refl. }
  destruct Husers as [u Hu]. rewrite Hu.
  destruct (add_seed_spec seed_names (products db))
    as (new & Hseed & Hlen & Hall & Hnd).
  split; [|split; [exists u; reflexivity|]].
  - f_equal.
    destruct (seed && (Z.of_nat (List.length (products db)) =? 0)) eqn:E.
    + cbn [products images orders order_items].
      rewrite Hseed, length_app, Hlen. cbn [List.length seed_names].
      destruct seed; cbn [andb]; [|discriminate].
      replace (Z.of_nat (List.length (products db) + 20) =? 0) with false;
        [reflexivity|].
      symmetry. apply Z.eqb_neq. lia.
    + rewrite E. reflexivity.
  - split; [|split; [|split]].
    + intros [Hne | ->]; [|reflexivity].
      destruct (products db) as [|p ps] eqn:Hp; [congruence|].
      cbn [List.length]. rewrite andb_false_r. reflexivity.
    + intros Hp ->. rewrite Hp. cbn [List.length andb].
      change (Z.of_nat 0 =? 0) with true. cbv iota. cbn [products].
      reflexivity.
    + intros Hc.
      destruct (seed && (Z.of_nat (List.length (products db)) =? 0));
        [|exact Hc].
      unfold catalog_in_cents in *. cbn [products]. rewrite Hseed.
      rewrite forallb_app, Hc. cbn [andb].
      apply forallb_forall. intros p Hin.
      rewrite Forall_forall in Hall. destruct (Hall p Hin) as [-> _].
      reflexivity.
    + intros Hu'.
      destruct (seed && (Z.of_nat (List.length (products db)) =? 0));
        [|exact Hu'].
      unfold product_ids_unique in *. cbn [products]. rewrite Hseed.
      apply Hnd. exact Hu'.
Qed.

Lemma bootstrap_db_idempotent_witness :
  List.length
    (products
       (snd (bootstrap_db (fun salt pw => (salt ++ pw)%string)
               "admin@sonhosdecroche.com" "admin123" "s1" true []
               (mkDatabase [] [] [] [])))) = 20%nat.
Proof.
  destruct (bootstrap_db_idempotent (fun salt pw => (salt ++ pw)%string)
              "admin@sonhosdecroche.com" "admin123" "s1" "s2" true []
              (mkDatabase [] [] [] [])) as (_ & _ & _ & H & _).
  apply H; reflexivity.
Defined.

(* ================================================================== *)
(** * The database URL *)
(* ================================================================== *)

Lemma replace_first_prefix (old new s rest : string) :
  strip_prefix old s = Some rest ->
  replace_first old new s = (new ++ rest)%string.
Proof.
  intros H. destruct s; cbn [replace_first]; rewrite H; reflexivity.
Qed.

Lemma startswith_inv (pat s : string) :
  startswith pat s = true -> exists rest, strip_prefix pat s = Some rest.
Proof.
  unfold startswith. destruct (strip_prefix pat s) as [rest|];
    [eauto|discriminate].
Qed.

(** X10: the database URI [create_app] configures is never empty and never
    starts with the scheme [postgres://]; a URL with that scheme, or with
    [postgresql://] and no driver named anywhere, comes out with the scheme
    [postgresql+psycopg2://] and the rest unchanged; and the rewriting is
    idempotent. *)
Theorem database_uri_normal (env : option string) :
  database_uri env <> "" /\
  startswith "postgres://" (database_uri env) = false /\
  (forall rest,
      env = Some ("postgres://" ++ rest)%string ->
      database_uri env = ("postgresql+psycopg2://" ++ rest)%string) /\
  (forall rest,
      env = Some ("postgresql://" ++ rest)%string ->
      contains_str "postgresql+psycopg2://" ("postgresql://" ++ rest) = false ->
      database_uri env = ("postgresql+psycopg2://" ++ rest)%string) /\
  database_uri (Some (database_uri env)) = database_uri env.
Proof.
  assert (Hcases :
    database_uri env = "sqlite:///sonhos.db" \/
    (exists rest, database_uri env = ("postgresql+psycopg2://" ++ rest)%string) \/
    (exists u, database_uri env = u /\ is_empty u = false /\
               startswith "postgres://" u = false /\
               startswith "postgresql://" u
               && negb (contains_str "postgresql+psycopg2://" u) = false)).
  { unfold database_uri.
    destruct env as [u|]; [|left; reflexivity].
    destruct (is_empty u) eqn:He; [left; reflexivity|].
    destruct (startswith "postgres://" u) eqn:E1.
    { destruct (startswith_inv _ _ E1) as [rest Hr].
      rewrite (replace_first_prefix _ _ _ _ Hr). right. left. eauto. }
    destruct (startswith "postgresql://" u
              && negb (contains_str "postgresql+psycopg2://" u)) eqn:E2.
    { apply andb_prop in E2. destruct E2 as [E2 _].
      destruct (startswith_inv _ _ E2) as [rest Hr].
      rewrite (replace_first_prefix _ _ _ _ Hr). right. left. eauto. }
    right. right. exists u. auto. }
  assert (Hmain :
    database_uri env <> "" /\
    startswith "postgres://" (database_uri env) = false /\
    database_uri (Some (database_uri env)) = database_uri env).
  { destruct Hcases as [-> | [[rest ->] | (u & -> & He & E1 & E2)]].
    - repeat split; [discriminate|reflexivity..].
    - repeat split; [discriminate|reflexivity..].
    - split; [destruct u; [discriminate He|discriminate]|].
      split; [exact E1|].
      unfold database_uri. rewrite He, E1, E2. reflexivity. }
  destruct Hmain as (H1 & H2 & H3).
  split; [exact H1|]. split; [exact H2|].
  split; [|split; [|exact H3]].
  - intros rest ->. reflexivity.
  - intros rest -> Hc. unfold database_uri.
    change (is_empty ("postgresql://" ++ rest)) with false.
    change (startswith "postgres://" ("postgresql://" ++ rest)) with false.
    change (startswith "postgresql://" ("postgresql://" ++ rest)) with true.
    cbv iota. rewrite Hc. reflexivity.
Qed.

(* ================================================================== *)
(** * Catalog rows *)
(* ================================================================== *)

Lemma forall_find_none {A : Type} (test : A -> bool) (l : list A) :
  Forall (fun x => test x = false) l -> find test l = None.
Proof.
  induction 1 as [|x l Hx Hl IH]; cbn [find]; [reflexivity|].
  rewrite Hx. exact IH.
Qed.










(* ================================================================== *)
(** * Image rows *)
(* ================================================================== *)

Lemma remove_first_length {A : Type} (test : A -> bool) (l : list A) (x : A) :
  find test l = Some x ->
  S (List.length (remove_first test l)) = List.length l.
Proof.
  induction l as [|y rest IH]; cbn [find remove_first]; [discriminate|].
  destruct (test y); [reflexivity|].
  intros H. cbn [List.length]. rewrite (IH H). reflexivity.
Qed.

Lemma remove_first_in {A : Type} (test : A -> bool) (l : list A) (x : A) :
  In x (remove_first test l) -> In x l.
Proof.
  induction l as [|y rest IH]; cbn [remove_first In]; [tauto|].
  destruct (test y); cbn [In]; tauto.
Qed.

Lemma find_remove_first_other {A : Type} (test other : A -> bool)
  (l : list A) :
  (forall x, test x = true -> other x = false) ->
  find other (remove_first test l) = find other l.
Proof.
  intros H. induction l as [|y rest IH]; cbn [find remove_first];
    [reflexivity|].
  destruct (test y) eqn:E.
  - rewrite (H y E). reflexivity.
  - cbn [find]. rewrite IH. reflexivity.
Qed.

Lemma find_remove_first_same (iid : Z) (l : list ProductImage) :
  NoDup (map image_id l) ->
  find (fun i => image_id i =? iid)
    (remove_first (fun i => image_id i =? iid) l) = None.
Proof.
  induction l as [|y rest IH]; cbn [map find remove_first]; intros Hnd;
    [reflexivity|].
  inversion Hnd as [|x xs Hnotin Hrest]; subst.
  destruct (image_id y =? iid) eqn:E.
  - apply Z.eqb_eq in E. subst iid.
    apply forall_find_none. apply Forall_forall. intros i Hi.
    apply Z.eqb_neq. intros Heq. apply Hnotin. rewrite <- Heq.
    apply in_map. exact Hi.
  - cbn [find]. rewrite E. apply IH. exact Hrest.
Qed.

(** X13: deleting an image removes one row of the image table and nothing
    else: an unknown id answers 404 and changes nothing; otherwise the
    table has one row less, every other id finds the image it found
    before, every remaining image is an image that was there, products,
    orders and order items are untouched, and when image ids are distinct
    the deleted id finds nothing any more. *)
Theorem image_delete_removes_one (iid : Z) (db : Database) :
  let r := admin_product_image_delete iid db in
  (find (fun i => image_id i =? iid) (images db) = None ->
   r = (NotFound, db)) /\
  (forall img,
      find (fun i => image_id i =? iid) (images db) = Some img ->
      fst r = Redirect (ep_admin_products_edit (image_product_id img))
                [("Foto removida", success)] /\
      products (snd r) = products db /\
      orders (snd r) = orders db /\
      order_items (snd r) = order_items db /\
      S (List.length (images (snd r))) = List.length (images db) /\
      (forall i, In i (images (snd r)) -> In i (images db)) /\
      (forall j, j <> iid ->
                 find (fun i => image_id i =? j) (images (snd r))
                 = find (fun i => image_id i =? j) (images db)) /\
      (NoDup (map image_id (images db)) ->
       find (fun i => image_id i =? iid) (images (snd r)) = None)).
Proof.
  cbv zeta. unfold admin_product_image_delete. split.
  - intros ->. reflexivity.
  - intros img Hf. rewrite Hf. cbn [fst snd products orders order_items images].
    split; [reflexivity|]. split; [reflexivity|]. split; [reflexivity|].
    split; [reflexivity|].
    split; [apply (remove_first_length _ _ img Hf)|].
    split; [intros i; apply remove_first_in|].
    split.
    + intros j Hj. apply find_remove_first_other.
      intros x Hx. apply Z.eqb_eq in Hx. apply Z.eqb_neq. lia.
    + apply find_remove_first_same.
Qed.

Lemma image_delete_removes_one_witness :
  admin_product_image_delete 7
    (mkDatabase (products sample_db) [] [] []) 
  = (NotFound, mkDatabase (products sample_db) [] [] []).
Proof.
  destruct (image_delete_removes_one 7
              (mkDatabase (products sample_db) [] [] [])) as [H _].
  apply H. reflexivity.
Defined.

(* ================================================================== *)
(** * Amounts as text *)
(* ================================================================== *)

Lemma append_assoc_str (a b c : string) :
  ((a ++ b) ++ c = a ++ (b ++ c))%string.
Proof. induction a as [|x a IH]; cbn [append]; [reflexivity|]. rewrite IH. reflexivity. Qed.

Lemma nat_digits_acc (f : nat) :
  forall n s, nat_digits f n s = (nat_digits f n "" ++ s)%string.
Proof.
  induction f as [|f IH]; intros n s; cbn [nat_digits]; [reflexivity|].
  destruct (n / 10 =? 0); [reflexivity|].
  rewrite IH, (IH _ (String _ "")), append_assoc_str. reflexivity.
Qed.

(** The digits [str] writes are read back by the digit run of the
    Decimal constructor. *)
Lemma take_digits_read (f : nat) :
  forall (n : Z) (s : string),
    0 <= n < 2 ^ Z.of_nat (S f) ->
    exists k, 1 <= k /\
      forall a cnt,
        take_digits a cnt (nat_digits (S f) n s)
        = take_digits (a * 10 ^ k + n) (cnt + k) s.
Proof.
  induction f as [|f IH]; intros n s Hn.
  - assert (Hlt : 0 <= n < 10).
    { change (2 ^ Z.of_nat 1) with 2 in Hn. lia. }
    destruct (digit_char (n mod 10) ltac:(apply Z.mod_pos_bound; lia))
      as [Hd Hv].
    cbn [nat_digits].
    assert (Hq : n / 10 = 0) by (apply Z.div_small; lia).
    rewrite Hq. change (0 =? 0) with true. cbv iota.
    exists 1. split; [lia|]. intros a cnt. cbn [take_digits].
    rewrite Hd, Hv, Z.mod_small by lia. f_equal. lia.
  - destruct (digit_char (n mod 10) ltac:(apply Z.mod_pos_bound; lia))
      as [Hd Hv].
    change (nat_digits (S (S f)) n s)
      with (let acc' := String (ascii_of_N (Z.to_N (48 + n mod 10))) s in
            if n / 10 =? 0 then acc' else nat_digits (S f) (n / 10) acc').
    cbv zeta.
    destruct (n / 10 =? 0) eqn:Eq.
    + apply Z.eqb_eq in Eq.
      exists 1. split; [lia|]. intros a cnt. cbn [take_digits].
      rewrite Hd, Hv. f_equal.
      pose proof (Z.div_mod n 10 ltac:(lia)). lia.
    + assert (Hn' : 0 <= n / 10 < 2 ^ Z.of_nat (S f)).
      { split; [apply Z.div_pos; lia|].
        apply Z.div_lt_upper_bound; [lia|].
        rewrite (Nat2Z.inj_succ (S f)), Z.pow_succ_r in Hn by lia. lia. }
      destruct (IH (n / 10)
                  (String (ascii_of_N (Z.to_N (48 + n mod 10))) s) Hn')
        as (k & Hk & Hread).
      exists (k + 1). split; [lia|]. intros a cnt.
      rewrite Hread. cbn [take_digits]. rewrite Hd, Hv.
      rewrite Z.pow_add_r by lia. change (10 ^ 1) with 10.
      pose proof (Z.div_mod n 10 ltac:(lia)).
      f_equal; lia.
Qed.

Lemma py_str_fuel (n : Z) :
  0 <= n -> 0 <= n < 2 ^ Z.of_nat (S (Z.to_nat (Z.log2 n))).
Proof.
  intros Hn. split; [lia|].
  rewrite Nat2Z.inj_succ, Z2Nat.id by apply Z.log2_nonneg.
  destruct (Z.eq_dec n 0) as [->|Hz]; [reflexivity|].
  apply Z.log2_spec. lia.
Qed.

Lemma py_str_nonneg (n : Z) :
  0 <= n -> py_str n = nat_digits (S (Z.to_nat (Z.log2 n))) n "".
Proof.
  intros Hn. unfold py_str.
  destruct (n <? 0) eqn:E; [apply Z.ltb_lt in E; lia|].
  rewrite Z.abs_eq by lia. reflexivity.
Qed.

Lemma string_forall_app (test : ascii -> bool) (a b : string) :
  string_forall test (a ++ b) = string_forall test a && string_forall test b.
Proof.
  induction a as [|x a IH]; cbn [append string_forall]; [reflexivity|].
  rewrite IH, andb_assoc. reflexivity.
Qed.

Lemma digit_is_plain (c : ascii) :
  is_digit c = true -> plain_char c = true /\ Ascii.eqb c "." = false.
Proof.
  destruct c as [b0 b1 b2 b3 b4 b5 b6 b7].
  destruct b0, b1, b2, b3, b4, b5, b6, b7; cbv;
    intros H; try discriminate H; split; reflexivity.
Qed.

Lemma all_digits_plain (s : string) :
  all_digits s = true -> string_forall plain_char s = true.
Proof.
  induction s as [|c r IH]; cbn [all_digits string_forall]; [reflexivity|].
  intros H. apply andb_prop in H. destruct H as [Hc Hr].
  destruct (digit_is_plain c Hc) as [-> _]. apply IH. exact Hr.
Qed.

Lemma plain_lstrip (s : string) :
  string_forall plain_char s = true -> lstrip_by is_space s = s.
Proof.
  destruct s as [|c r]; cbn [string_forall lstrip_by]; [reflexivity|].
  intros H. apply andb_prop in H. destruct H as [Hc _].
  unfold plain_char in Hc. destruct (is_space c); [discriminate|reflexivity].
Qed.

Lemma plain_rstrip (s : string) :
  string_forall plain_char s = true -> rstrip_by is_space s = s.
Proof.
  induction s as [|c r IH]; cbn [string_forall rstrip_by]; [reflexivity|].
  intros H. apply andb_prop in H. destruct H as [Hc Hr].
  rewrite (IH Hr). unfold plain_char in Hc.
  destruct (is_space c); [discriminate|reflexivity].
Qed.

Lemma plain_remove_underscores (fuel : nat) :
  forall s, string_forall plain_char s = true ->
            remove_all_aux fuel "_" s = s.
Proof.
  induction fuel as [|fuel IH]; intros s H; cbn [remove_all_aux];
    [reflexivity|].
  destruct s as [|c r]; [reflexivity|].
  cbn [string_forall] in H. apply andb_prop in H. destruct H as [Hc Hr].
  cbn [strip_prefix].
  assert (E : Ascii.eqb "_" c = false).
  { unfold plain_char in Hc. rewrite Ascii.eqb_sym.
    destruct (Ascii.eqb c "_"); [|reflexivity].
    rewrite andb_false_r in Hc. discriminate. }
  rewrite E, (IH r Hr). reflexivity.
Qed.

Lemma plain_comma_round_trip (s : string) :
  string_forall plain_char s = true ->
  replace_char "," "." (replace_char "." "," s) = s.
Proof.
  induction s as [|c r IH]; cbn [string_forall replace_char]; [reflexivity|].
  intros H. apply andb_prop in H. destruct H as [Hc Hr].
  rewrite (IH Hr). f_equal.
  destruct (Ascii.eqb c ".") eqn:E.
  - apply Ascii.eqb_eq in E. subst c. reflexivity.
  - unfold plain_char in Hc.
    destruct (Ascii.eqb c ",") eqn:E'; [|reflexivity].
    rewrite andb_false_r in Hc. discriminate.
Qed.

Lemma py_str_digits (v : Z) :
  0 <= v ->
  all_digits (py_str v) = true /\ py_str v <> "".
Proof.
  intros Hv. rewrite (py_str_nonneg v Hv).
  destruct (nat_digits_read _ v "" (py_str_fuel v Hv)) as (Hall & Hne & _).
  split; [exact Hall|exact Hne].
Qed.

(** The constructor reads an amount written as digits, a dot and two
    digits. *)
Lemma parse_number_amount (v e1 e2 : Z) :
  0 <= v -> 0 <= e1 < 10 -> 0 <= e2 < 10 ->
  parse_number
    (py_str v ++ String "." (String (digit_char_of e1)
                               (String (digit_char_of e2) "")))
  = Some (100 * v + 10 * e1 + e2, -2).
Proof.
  intros Hv H1 H2. rewrite (py_str_nonneg v Hv), <- nat_digits_acc.
  destruct (take_digits_read _ v
              (String "." (String (digit_char_of e1)
                             (String (digit_char_of e2) "")))
              (py_str_fuel v Hv)) as (k & Hk & Hread).
  unfold parse_number. rewrite Hread.
  destruct (digit_char e1 H1) as [Hd1 Hv1].
  destruct (digit_char e2 H2) as [Hd2 Hv2].
  unfold digit_char_of.
  cbn [take_digits]. change (is_digit ".") with false. cbv iota.
  cbn [take_digits]. rewrite Hd1, Hd2, Hv1, Hv2.
  assert (Hc : ((0 <? 0 + k) || (0 <? 0 + 1 + 1)) = true)
    by (apply orb_true_iff; right; reflexivity).
  rewrite Hc. cbn [parse_exponent]. f_equal. f_equal; lia.
Qed.

Lemma amount_text_plain (neg : bool) (v e1 e2 : Z) :
  0 <= v -> 0 <= e1 < 10 -> 0 <= e2 < 10 ->
  string_forall plain_char
    ((if neg then "-" else "")
     ++ py_str v ++ "." ++ String (digit_char_of e1)
                             (String (digit_char_of e2) "")) = true.
Proof.
  intros Hv H1 H2.
  destruct (py_str_digits v Hv) as [Hall _].
  destruct (digit_char e1 H1) as [Hd1 _].
  destruct (digit_char e2 H2) as [Hd2 _].
  rewrite !string_forall_app, (all_digits_plain _ Hall).
  cbn [string_forall]. unfold digit_char_of.
  destruct (digit_is_plain _ Hd1) as [-> _].
  destruct (digit_is_plain _ Hd2) as [-> _].
  destruct neg; reflexivity.
Qed.

Lemma parse_decimal_amount (neg : bool) (v e1 e2 : Z) :
  0 <= v -> 0 <= e1 < 10 -> 0 <= e2 < 10 ->
  parse_decimal
    ((if neg then "-" else "")
     ++ py_str v ++ "." ++ String (digit_char_of e1)
                             (String (digit_char_of e2) ""))
  = Ok (Dec (if neg then - (100 * v + 10 * e1 + e2)
             else 100 * v + 10 * e1 + e2) (-2)).
Proof.
  intros Hv H1 H2.
  pose proof (amount_text_plain neg v e1 e2 Hv H1 H2) as Hplain.
  pose proof (parse_number_amount v e1 e2 Hv H1 H2) as Hnum.
  unfold parse_decimal, strip, remove_all.
  rewrite (plain_lstrip _ Hplain), (plain_rstrip _ Hplain).
  rewrite (plain_remove_underscores _ _ Hplain).
  change ("." ++ String (digit_char_of e1) (String (digit_char_of e2) ""))%string
    with (String "." (String (digit_char_of e1)
                        (String (digit_char_of e2) ""))).
  destruct neg.
  - change ("-" ++ py_str v ++ String "." (String (digit_char_of e1)
                                (String (digit_char_of e2) "")))%string
      with (String "-" (py_str v ++ String "." (String (digit_char_of e1)
                                (String (digit_char_of e2) "")))).
    cbv iota beta. rewrite Hnum. reflexivity.
  - change ("" ++ py_str v ++ String "." (String (digit_char_of e1)
                                (String (digit_char_of e2) "")))%string
      with (py_str v ++ String "." (String (digit_char_of e1)
                                (String (digit_char_of e2) "")))%string.
    destruct (py_str_digits v Hv) as [Hall Hne].
    destruct (py_str v) as [|c r] eqn:Es; [congruence|].
    cbn [all_digits] in Hall. apply andb_prop in Hall.
    destruct Hall as [Hc _].
    destruct (digit_not_blank_or_sign c Hc) as (_ & Hplus & Hminus).
    cbn [append] in Hnum |- *.
    destruct c as [b0 b1 b2 b3 b4 b5 b6 b7].
    destruct b0, b1, b2, b3, b4, b5, b6, b7;
      try discriminate Hplus; try discriminate Hminus; try discriminate Hc;
      rewrite Hnum; reflexivity.
Qed.

(** X14: an amount of cents written by [money_br] is read back by the
    price field of the product form: dropping the [R$ ] in front, what
    [money_br] writes for [c] cents parses, with its comma, to the price
    [c] cents again, for any sign of [c] within the context precision. *)
Theorem money_br_parse_price (c : Z) :
  Z.abs c < 10 ^ prec ->
  exists body,
    money_br (Dec c (-2)) = ("R$ " ++ body)%string /\
    parse_price [("price", body)] = Ok (Dec c (-2)).
Proof.
  intros Hc. unfold money_br, format_2f. rewrite rescale_exact.
  set (r := Z.abs c).
  assert (Hr : 0 <= r) by (subst r; lia).
  set (v := r / 100). set (e1 := r mod 100 / 10). set (e2 := r mod 10).
  assert (Hv : 0 <= v) by (subst v; apply Z.div_pos; lia).
  pose proof (Z.mod_pos_bound r 100 ltac:(lia)) as Hm100.
  assert (H1 : 0 <= e1 < 10).
  { subst e1. split; [apply Z.div_pos; lia|].
    apply Z.div_lt_upper_bound; lia. }
  assert (H2 : 0 <= e2 < 10) by (subst e2; apply Z.mod_pos_bound; lia).
  assert (Hsum : 100 * v + 10 * e1 + e2 = r).
  { subst v e1 e2.
    pose proof (Z.div_mod r 100 ltac:(lia)).
    pose proof (Z.div_mod (r mod 100) 10 ltac:(lia)).
    pose proof (Z.div_mod r 10 ltac:(lia)).
    pose proof (Z.mod_pos_bound (r mod 100) 10 ltac:(lia)).
    pose proof (Z.mod_pos_bound r 10 ltac:(lia)).
    lia. }
  eexists. split; [reflexivity|].
  pose proof (amount_text_plain (c <? 0) v e1 e2 Hv H1 H2) as Hplain.
  pose proof (parse_decimal_amount (c <? 0) v e1 e2 Hv H1 H2) as Hparse.
  cbv zeta. unfold parse_price. cbn [form_get].
  rewrite String.eqb_refl. unfold or_default, str_or.
  rewrite replace_char_empty.
  match goal with
  | |- context [is_empty ?t] =>
      assert (Hne : is_empty t = false)
  end.
  { destruct (c <? 0); [reflexivity|].
    destruct (py_str_digits v Hv) as [_ Hn].
    cbn [append]. destruct (py_str v); [congruence|reflexivity]. }
  rewrite Hne, (plain_comma_round_trip _ Hplain).
  assert (Hstrip : forall s, string_forall plain_char s = true -> strip s = s).
  { intros s Hs. unfold strip.
    rewrite (plain_lstrip _ Hs), (plain_rstrip _ Hs). reflexivity. }
  rewrite (Hstrip _ Hplain), Hparse. cbn [bind]. rewrite Hsum.
  assert (Hval : (if c <? 0 then - r else r) = c).
  { subst r. destruct (c <? 0) eqn:E;
      [apply Z.ltb_lt in E|apply Z.ltb_ge in E]; lia. }
  rewrite Hval. apply dec_quantize_cents. exact Hc.
Qed.

Lemma money_br_parse_price_witness :
  Z.abs (-12345) < 10 ^ prec /\
  money_br (Dec (-12345) (-2)) = "R$ -123,45" /\
  exists body,
    money_br (Dec (-12345) (-2)) = ("R$ " ++ body)%string /\
    parse_price [("price", body)] = Ok (Dec (-12345) (-2)).
Proof.
  assert (H : Z.abs (-12345) < 10 ^ prec) by (vm_compute; reflexivity).
  split; [exact H|]. split; [reflexivity|].
  exact (money_br_parse_price (-12345) H).
Defined.

(* ================================================================== *)
(** * What the order form cannot say *)
(* ================================================================== *)

(** X15: [create_order] reads six fields of the form and nothing else:
    two forms that agree on the payment method, the name, the contact, the
    city, the address and the notes give the same response and the same
    state, so no price, quantity or total a client adds to the form can
    reach the order. *)
Theorem create_order_reads_six_fields (pct : Z) (f1 f2 : Form) (st : State) :
  (forall key,
      In key ["payment_method"; "customer_name"; "whatsapp"; "city_state";
              "address"; "notes"] ->
      form_get f1 key = form_get f2 key) ->
  create_order pct f1 st = create_order pct f2 st.
Proof.
  intros H. unfold create_order, form_get_default.
  rewrite (H "payment_method"), (H "customer_name"), (H "whatsapp"),
    (H "city_state"), (H "address"), (H "notes");
    first [reflexivity | cbn [In]; tauto].
Qed.

Lemma create_order_reads_six_fields_witness :
  create_order 10 (("total", "0.01") :: ("qty_1", "1") :: sample_form)
    sample_state
  = create_order 10 sample_form sample_state.
Proof.
  apply (create_order_reads_six_fields 10
           (("total", "0.01") :: ("qty_1", "1") :: sample_form) sample_form
           sample_state).
  intros key Hin. cbn [In] in Hin.
  repeat (destruct Hin as [<-|Hin]; [reflexivity|]). destruct Hin.
Defined.
